(** * Verification of the model_doc_agent summarisation pipeline

    A shallow embedding of the chunker, the cache manager, the LLM
    summariser and the orchestrator of [model_doc_agent/src], with the
    properties of the specification stated and settled on it.

    Conventions.  Python [int] is [Z]; Python [str] is [string] (for
    [TextChunker.chunk_text], which only measures and slices its text, a
    list over any character type with decidable equality); a [dict] whose
    iteration order matters is an association list; code that can raise
    returns a sum, and code that touches the file system or the LLM
    threads an explicit world. *)

From Stdlib Require Import ZArith Lia String Ascii DecimalString DecimalZ
  DecimalPos.
From stdpp Require Import base decidable list strings gmap.

Local Open Scope Z_scope.
Set Warnings "-register-all".

(** ** Python sequence primitives *)

Module Py.
Section Seq.
Context {A : Type} `{EqDecision A}.

(** A slice bound as CPython normalises it: a negative bound counts
    from the end, and the result is clamped to [0, len]. *)
Definition slice_index (len i : Z) : Z :=
  if i <? 0 then Z.max 0 (len + i) else Z.min i len.

Definition len (s : list A) : Z := Z.of_nat (length s).

(** [s[i:j]] *)
Definition slice (s : list A) (i j : Z) : list A :=
  let lo := slice_index (len s) i in
  let hi := slice_index (len s) j in
  take (Z.to_nat (hi - lo)) (drop (Z.to_nat lo) s).

(** [s[i:]] *)
Definition slice_from (s : list A) (i : Z) : list A :=
  drop (Z.to_nat (slice_index (len s) i)) s.

(** [s[:j]] *)
Definition slice_to (s : list A) (j : Z) : list A :=
  take (Z.to_nat (slice_index (len s) j)) s.

(** [s.endswith(t)] *)
Definition endswith (s t : list A) : bool :=
  bool_decide (t `suffix_of` s).
End Seq.
End Py.

(** ** Python values, exceptions and strings *)

(** The exceptions the modelled code meets. *)
Inductive Exc :=
| TypeError
| KeyError (key : string)
| AttributeError (attr : string)
| ValueError (msg : string)
| OSError
| LLMError (msg : string).

(** A computation that returns or raises. *)
Inductive result (A : Type) : Type :=
| Ok (a : A)
| Raise (e : Exc).
Arguments Ok {A} a.
Arguments Raise {A} e.

Global Instance result_ret : MRet result := fun _ a => Ok a.
Global Instance result_bind : MBind result := fun _ _ f r =>
  match r with
  | Ok a => f a
  | Raise e => Raise e
  end.

Module Str.
(** [len(s)] *)
Definition len (s : string) : Z := Z.of_nat (String.length s).

(** [str(i)] for an integer. *)
Definition of_Z (z : Z) : string := NilZero.string_of_int (Z.to_int z).

(** [sub in s] *)
Fixpoint contains (sub s : string) : bool :=
  String.prefix sub s ||
  match s with
  | EmptyString => false
  | String _ s' => contains sub s'
  end.

(** [s.startswith(p)] *)
Definition startswith (s p : string) : bool := String.prefix p s.

Definition newline : string := String (ascii_of_N 10) "".

(** [c * n] for a one-character string [c]. *)
Definition repeat (c : ascii) (n : positive) : string :=
  Pos.iter (String c) "" n.

(** [sep.join(l)] *)
Definition join (sep : string) (l : list string) : string := String.concat sep l.

(** [str.isspace] on the code points below 256. *)
Definition is_space (c : ascii) : bool :=
  let n := N_of_ascii c in
  ((9 <=? n) && (n <=? 13) || (28 <=? n) && (n <=? 32) ||
   (n =? 133) || (n =? 160))%N.

Fixpoint lstrip (s : string) : string :=
  match s with
  | EmptyString => EmptyString
  | String c s' => if is_space c then lstrip s' else s
  end.

(** [s.strip()] *)
Definition strip (s : string) : string :=
  String.rev (lstrip (String.rev (lstrip s))).

(** Truth value of a string: non-empty. *)
Definition truthy (s : string) : bool :=
  match s with
  | EmptyString => false
  | _ => true
  end.
End Str.

(** ** Parsed JSON documents *)

(** What [json.load] returns.  A float carries its [repr] and whether it
    is zero; a dict is the list of its items in iteration order, with
    distinct keys. *)
Inductive Json :=
| JNull
| JBool (b : bool)
| JInt (z : Z)
| JFloat (repr : string) (is_zero : bool)
| JStr (s : string)
| JList (items : list Json)
| JObj (fields : list (string * Json)).

Module PyVal.
(** [key in d] and [d[key]], [d.get(key)], [d.get(key, default)] on the
    items of a dict. *)
Fixpoint dict_lookup (fields : list (string * Json)) (key : string)
    : option Json :=
  match fields with
  | [] => None
  | (k, v) :: rest => if String.eqb k key then Some v else dict_lookup rest key
  end.

Definition dict_get (fields : list (string * Json)) (key : string) : Json :=
  default JNull (dict_lookup fields key).

Definition dict_get_default (fields : list (string * Json)) (key : string)
    (dflt : Json) : Json :=
  default dflt (dict_lookup fields key).

Definition is_str_eq (key : string) (v : Json) : bool :=
  match v with
  | JStr s => String.eqb s key
  | _ => false
  end.

(** [key in data] for a string [key]: key membership in a dict, element
    membership in a list, substring test in a string, [TypeError]
    elsewhere. *)
Definition contains (key : string) (data : Json) : result bool :=
  match data with
  | JObj fields => Ok (bool_decide (is_Some (dict_lookup fields key)))
  | JList items => Ok (existsb (is_str_eq key) items)
  | JStr s => Ok (Str.contains key s)
  | _ => Raise TypeError
  end.

(** [data[key]] for a string [key]: only a dict can be indexed so. *)
Definition getitem (data : Json) (key : string) : result Json :=
  match data with
  | JObj fields =>
    match dict_lookup fields key with
    | Some v => Ok v
    | None => Raise (KeyError key)
    end
  | _ => Raise TypeError
  end.

(** [len(v)] *)
Definition len (v : Json) : result Z :=
  match v with
  | JStr s => Ok (Str.len s)
  | JList items => Ok (Z.of_nat (length items))
  | JObj fields => Ok (Z.of_nat (length fields))
  | _ => Raise TypeError
  end.

(** Truth value. *)
Definition truthy (v : Json) : bool :=
  match v with
  | JNull => false
  | JBool b => b
  | JInt z => negb (z =? 0)%Z
  | JFloat _ is_zero => negb is_zero
  | JStr s => Str.truthy s
  | JList items => negb (bool_decide (items = []))
  | JObj fields => negb (bool_decide (fields = []))
  end.

(** [a == b] on two values that are one object or differ in type or
    text: the structural comparison, in which containers compare their
    items by identity first. *)
Fixpoint eqb_structural (a b : Json) {struct a} : bool :=
  match a, b with
  | JNull, JNull => true
  | JBool x, JBool y => Bool.eqb x y
  | JInt x, JInt y => (x =? y)%Z
  | JFloat x _, JFloat y _ => String.eqb x y
  | JStr x, JStr y => String.eqb x y
  | JList xs, JList ys =>
    (fix go (xs ys : list Json) : bool :=
       match xs, ys with
       | [], [] => true
       | x :: xs', y :: ys' => eqb_structural x y && go xs' ys'
       | _, _ => false
       end) xs ys
  | JObj xs, JObj ys =>
    (fix go (xs ys : list (string * Json)) : bool :=
       match xs, ys with
       | [], [] => true
       | (k, x) :: xs', (k', y) :: ys' =>
         String.eqb k k' && eqb_structural x y && go xs' ys'
       | _, _ => false
       end) xs ys
  | _, _ => false
  end.

(** [a == b]; a float NaN is equal to nothing, itself included.  The
    source only compares [data.get("title")] with a value that is
    either that same object or the literal default. *)
Definition eqb (a b : Json) : bool :=
  match a with
  | JFloat x _ => negb (String.eqb x "NaN") && eqb_structural a b
  | _ => eqb_structural a b
  end.

Definition hex_digit (n : N) : ascii :=
  ascii_of_N (if (n <? 10)%N then 48 + n else 87 + n).

Definition dquote : ascii := ascii_of_N 34.
Definition backslash : ascii := ascii_of_N 92.

(** One character inside a JSON string literal, as [json.dumps] writes
    it with [ensure_ascii]. *)
Definition json_escape_char (c : ascii) : string :=
  let n := N_of_ascii c in
  if (n =? 34)%N then String backslash (String dquote "")
  else if (n =? 92)%N then String backslash (String backslash "")
  else if (n =? 10)%N then "\n"
  else if (n =? 13)%N then "\r"
  else if (n =? 9)%N then "\t"
  else if (n =? 8)%N then "\b"
  else if (n =? 12)%N then "\f"
  else if (n <? 32)%N || (126 <? n)%N then
    "\u00" +:+ String (hex_digit (n / 16)) (String (hex_digit (n mod 16)) "")
  else String c "".

Fixpoint json_escape (s : string) : string :=
  match s with
  | EmptyString => ""
  | String c s' => json_escape_char c +:+ json_escape s'
  end.

Definition json_quote (s : string) : string :=
  String dquote (json_escape s) +:+ String dquote "".

(** [json.dumps(v)] with its default separators. *)
Fixpoint json_dumps (v : Json) : string :=
  match v with
  | JNull => "null"
  | JBool true => "true"
  | JBool false => "false"
  | JInt z => Str.of_Z z
  | JFloat repr _ => repr
  | JStr s => json_quote s
  | JList items => "[" +:+ Str.join ", " (map json_dumps items) +:+ "]"
  | JObj fields =>
    "{" +:+
    Str.join ", "
      (map (fun kv => json_quote (fst kv) +:+ ": " +:+ json_dumps (snd kv))
           fields) +:+
    "}"
  end.

Fixpoint spaces (n : nat) : string :=
  match n with
  | O => ""
  | S n' => String " " (spaces n')
  end.

(** [json.dumps(v, indent=2)], from nesting depth [level]. *)
Fixpoint json_dumps_indent (level : nat) (v : Json) : string :=
  let pad := fun n => Str.newline +:+ spaces (2 * n) in
  match v with
  | JList [] => "[]"
  | JObj [] => "{}"
  | JList items =>
    "[" +:+ pad (S level) +:+
    Str.join ("," +:+ pad (S level)) (map (json_dumps_indent (S level)) items) +:+
    pad level +:+ "]"
  | JObj fields =>
    "{" +:+ pad (S level) +:+
    Str.join ("," +:+ pad (S level))
      (map (fun kv => json_quote (fst kv) +:+ ": " +:+
                      json_dumps_indent (S level) (snd kv)) fields) +:+
    pad level +:+ "}"
  | _ => json_dumps v
  end.
End PyVal.

(** ** chunker.py *)

Module Chunker.
Section TextChunker.
Context {A : Type} `{EqDecision A}.

(** One chunk dictionary: keys "content", "section_name", "chunk_index". *)
Record Chunk := mkChunk {
  content : list A;
  section_name : option string;
  chunk_index : Z
}.

(** [TextChunker.__init__] stores its two integers unchecked. *)
Record TextChunker := mkTextChunker {
  max_chunk_size : Z;
  overlap : Z
}.

(** The value of [chunks[-1]["content"]]; the list is never empty where
    the source reads it. *)
Definition last_content (chunks : list Chunk) : list A :=
  match last chunks with
  | Some c => content c
  | None => []
  end.

(** The body of [while start < text_len], one unfolding per unit of
    fuel.  [None] means the fuel ran out with the loop still running. *)
Fixpoint chunk_loop (fuel : nat) (self : TextChunker) (text : list A)
    (sec : option string) (chunks : list Chunk) (start idx : Z)
    : option (list Chunk) :=
  match fuel with
  | O => None
  | S fuel' =>
    let text_len := Py.len text in
    if start <? text_len then
      let end_ := start + max_chunk_size self in
      let current := Py.slice text start end_ in
      let chunks := chunks ++ [mkChunk current sec idx] in
      let idx := idx + 1 in
      let start :=
        if max_chunk_size self - overlap self <=? 0 then end_
        else start + (max_chunk_size self - overlap self) in
      if (text_len - start <? overlap self) && (start <? text_len) then
        let current := Py.slice_from text start in
        if Py.endswith (last_content chunks)
                       (Py.slice_to current (overlap self)) then
          if Py.len current >? overlap self then
            Some (chunks ++
                  [mkChunk (Py.slice_from text (start + overlap self))
                           sec idx])
          else Some chunks
        else if Py.len current >? 0 then
          Some (chunks ++ [mkChunk current sec idx])
        else Some chunks
      else chunk_loop fuel' self text sec chunks start idx
    else Some chunks
  end.

(** [TextChunker.chunk_text(text, section_name)] *)
Definition chunk_text (fuel : nat) (self : TextChunker) (text : list A)
    (sec : option string) : option (list Chunk) :=
  match text with
  | [] => Some []
  | _ => chunk_loop fuel self text sec [] 0 0
  end.

(** *** Reference notions the chunking claims are stated with *)

(** The window [T[k*step : k*step + max_size]] as chunk number [k]. *)
Definition window (self : TextChunker) (text : list A)
    (sec : option string) (k : Z) : Chunk :=
  let step := max_chunk_size self - overlap self in
  mkChunk (Py.slice text (k * step) (k * step + max_chunk_size self)) sec k.

(** The specification's reading: one window for every [k >= 0] whose
    start [k*step] is below [len(T)], that is [ceil(len(T)/step)] of
    them. *)
Definition spec_sliding_windows (self : TextChunker) (text : list A)
    (sec : option string) : list Chunk :=
  let step := max_chunk_size self - overlap self in
  window self text sec <$> seqZ 0 ((Py.len text + step - 1) `div` step).

(** The number of chunks the loop emits when [max_size > overlap >= 0]:
    window 0, then window [k] as long as at least [max(overlap, 1)]
    characters are left at its start. *)
Definition chunk_count (self : TextChunker) (text : list A) : Z :=
  let step := max_chunk_size self - overlap self in
  let m := Z.max (overlap self) 1 in
  if Py.len text =? 0 then 0
  else if Py.len text <? m then 1
  else (Py.len text - m) `div` step + 1.

(** Concatenation of the non-overlapping spans: the first [step]
    characters of every chunk but the last, and the last chunk whole. *)
Fixpoint reassemble (step : nat) (cs : list (list A)) : list A :=
  match cs with
  | [] => []
  | [c] => c
  | c :: cs' => take step c ++ reassemble step cs'
  end.
End TextChunker.
Arguments Chunk : clear implicits.

(** *** get_full_text *)

(** [get_full_text(data)] *)
Definition get_full_text (data : Json) : string :=
  match data with
  | JStr s => s
  | _ => PyVal.json_dumps_indent 0 data
  end.

(** *** get_sections_from_json *)

Section Sections.
(** [strip_html] (regular expressions and quoted-printable decoding) and
    [str] of a list or dict are taken as given: the extraction rules
    only pass their results along. *)
Variable strip_html : string -> string.
Variable py_repr : Json -> string.

(** [str(v)] *)
Definition py_str (v : Json) : string :=
  match v with
  | JStr s => s
  | JNull => "None"
  | JBool true => "True"
  | JBool false => "False"
  | JInt z => Str.of_Z z
  | JFloat repr _ => repr
  | _ => py_repr v
  end.

(** A section is the pair [(name, content)]. *)
Definition Section_ : Type := Json * Json.

(** [key in data and isinstance(data[key], str)], with the string. *)
Definition str_field (key : string) (data : Json) : result (option string) :=
  has ← PyVal.contains key data;
  if has : bool then
    v ← PyVal.getitem data key;
    mret (match v with JStr s => Some s | _ => None end)
  else mret None.

(** [key in data and isinstance(data[key], dict)], with the items. *)
Definition dict_field (key : string) (data : Json)
    : result (option (list (string * Json))) :=
  has ← PyVal.contains key data;
  if has : bool then
    v ← PyVal.getitem data key;
    mret (match v with JObj fields => Some fields | _ => None end)
  else mret None.

(** [data.get(key)] *)
Definition py_get (data : Json) (key : string) : result Json :=
  match data with
  | JObj fields => Ok (PyVal.dict_get fields key)
  | _ => Raise (AttributeError "get")
  end.

Definition only_str (v : Json) : option string :=
  match v with
  | JStr s => Some s
  | _ => None
  end.

(** Case 2, one round of [for section_name, section_content in ...]. *)
Definition section_entry (min_length : Z) (kv : string * Json)
    : list Section_ :=
  match kv.2 with
  | JStr s =>
    if Str.len s >=? min_length then [(JStr kv.1, JStr s)] else []
  | JList items =>
    let temp_content := Str.join Str.newline (omap only_str items) in
    if Str.len temp_content >=? min_length
    then [(JStr kv.1, JStr temp_content)] else []
  | _ => []
  end.

(** Case 3, one round of [for i, item in enumerate(data)]. *)
Definition list_item_section (min_length : Z) (i : nat) (item : Json)
    : list Section_ :=
  match item with
  | JObj fields =>
    let title :=
      PyVal.dict_get_default fields "title"
        (PyVal.dict_get_default fields "header"
           (JStr ("item_" +:+ Str.of_Z (Z.of_nat i + 1)))) in
    let content_str :=
      match PyVal.dict_lookup fields "content" with
      | Some (JStr s) => s
      | _ =>
        match PyVal.dict_lookup fields "text" with
        | Some (JStr s) => s
        | _ => PyVal.json_dumps item
        end
      end in
    if Str.len content_str >=? min_length
    then [(title, JStr content_str)] else []
  | _ => []
  end.

(** Case 4, the line added for one field. *)
Definition flat_line (kv : string * Json) : string :=
  match kv.2 with
  | JStr s => kv.1 +:+ ": " +:+ s +:+ Str.newline
  | JList _ | JObj _ => kv.1 +:+ ": " +:+ PyVal.json_dumps kv.2 +:+ Str.newline
  | v => kv.1 +:+ ": " +:+ py_str v +:+ Str.newline
  end.

(** Case 4 on a dict, entered with [sections] empty.  [Some l] is
    [return l]; [None] falls through to case 5 with [sections] empty. *)
Definition flat_mapping (fields : list (string * Json)) (min_length : Z)
    : result (option (list Section_)) :=
  let title := PyVal.dict_get fields "title" in
  let section_title :=
    PyVal.dict_get_default fields "title" (JStr "document_content") in
  let temp_data_for_content :=
    filter (fun kv => ¬ (kv.1 = "title" ∧ PyVal.eqb title section_title))
           fields in
  if bool_decide (temp_data_for_content = []) && PyVal.eqb title section_title
  then
    match section_title with
    | JStr s =>
      if Str.len s >=? min_length then mret (Some [(JNull, JStr s)])
      else mret (Some [])
    | _ => mret (Some [])
    end
  else
    let combined_content := String.concat "" (flat_line <$> temp_data_for_content) in
    let stripped_content := Str.strip combined_content in
    sections ←
      (if Str.truthy stripped_content && (Str.len stripped_content >=? min_length)
       then mret [(section_title, JStr stripped_content)]
       else if negb (Str.truthy stripped_content) && PyVal.truthy title &&
               negb (PyVal.eqb title section_title)
       then
         t ← PyVal.getitem (JObj fields) "title";
         n ← PyVal.len t;
         mret (if n >=? min_length then [(JNull, t)] else [])
       else mret []);
    mret (match sections with [] => None | _ => Some sections end).

(** The closing "news article" block on a dict that has a [content] key;
    [sections] is what case 5 left. *)
Definition news_block (fields : list (string * Json))
    (sections : list Section_) : list Section_ :=
  let title := PyVal.dict_get_default fields "title" (JStr "News Article") in
  let content :=
    match PyVal.dict_get_default fields "content" (JStr "") with
    | JStr s => strip_html s
    | JNull => ""
    | v => strip_html (py_str v)
    end in
  if PyVal.truthy title && Str.truthy (Str.strip content)
  then [(JStr (py_str title), JStr content)]
  else if PyVal.truthy title
  then [(JStr (py_str title),
         JStr "[Content not available or empty after cleaning]")]
  else sections.

(** [get_sections_from_json(data, min_length=...)] *)
Definition get_sections_from_json (data : Json) (min_length : Z)
    : result (list Section_) :=
  (* Case 1: root-level "content" string *)
  c1 ← str_field "content" data;
  match c1 with
  | Some content =>
    title ← py_get data "title";
    mret (if Str.len content >=? min_length
          then [(title, JStr content)] else [])
  | None =>
    (* Case 2: "sections" dict *)
    c2 ← dict_field "sections" data;
    let sections :=
      match c2 with
      | Some entries => entries ≫= section_entry min_length
      | None => []
      end in
    if negb (bool_decide (sections = [])) then mret sections
    else
      (* Case 3: the root is a list *)
      let sections :=
        match data with
        | JList items => mjoin (imap (list_item_section min_length) items)
        | _ => []
        end in
      if negb (bool_decide (sections = [])) then mret sections
      else
        match data with
        | JObj fields =>
          (* Case 4: flat mapping *)
          r4 ← flat_mapping fields min_length;
          match r4 with
          | Some returned => mret returned
          | None =>
            (* Case 5: the whole document, stringified *)
            let content_str := PyVal.json_dumps data in
            let sections :=
              if Str.len content_str >=? min_length
              then [(PyVal.dict_get_default fields "title"
                       (JStr "full_document_content"), JStr content_str)]
              else [] in
            if bool_decide (is_Some (PyVal.dict_lookup fields "content"))
            then mret (news_block fields sections)
            else mret sections
          end
        | _ => mret sections
        end
  end.
End Sections.
End Chunker.


(** ** Paths (posixpath) *)

Module Path.
Definition slash : ascii := "/"%char.
Definition dot : ascii := "."%char.

(** The characters up to the first ["/"], and the rest from that ["/"]. *)
Fixpoint span_to_slash (s : string) : string * string :=
  match s with
  | EmptyString => ("", "")
  | String c s' =>
    if Ascii.eqb c slash then ("", s)
    else let '(a, b) := span_to_slash s' in (String c a, b)
  end.

Fixpoint all_slashes (s : string) : bool :=
  match s with
  | EmptyString => true
  | String c s' => Ascii.eqb c slash && all_slashes s'
  end.

Fixpoint lstrip_slashes (s : string) : string :=
  match s with
  | EmptyString => ""
  | String c s' => if Ascii.eqb c slash then lstrip_slashes s' else s
  end.

(** [os.path.basename(p)]: what follows the last slash. *)
Definition basename (p : string) : string :=
  String.rev (span_to_slash (String.rev p)).1.

(** [os.path.dirname(p)]: what precedes the last slash, without trailing
    slashes unless it is made of slashes only. *)
Definition dirname (p : string) : string :=
  let head := String.rev (span_to_slash (String.rev p)).2 in
  if all_slashes head then head
  else String.rev (lstrip_slashes (String.rev head)).

Definition ends_with_slash (p : string) : bool :=
  match String.rev p with
  | String c _ => Ascii.eqb c slash
  | EmptyString => false
  end.

(** [os.path.join(a, b)] *)
Definition join (a b : string) : string :=
  if Str.startswith b "/" then b
  else if negb (Str.truthy a) || ends_with_slash a then a +:+ b
  else a +:+ "/" +:+ b.

(** The characters up to the first ["."], and the rest from that ["."]. *)
Fixpoint span_to_dot (s : string) : string * string :=
  match s with
  | EmptyString => ("", "")
  | String c s' =>
    if Ascii.eqb c dot then ("", s)
    else let '(a, b) := span_to_dot s' in (String c a, b)
  end.

Fixpoint all_dots (s : string) : bool :=
  match s with
  | EmptyString => true
  | String c s' => Ascii.eqb c dot && all_dots s'
  end.

(** [os.path.splitext(name)[0]] for a name without slashes: the name
    without its last [".ext"], where a name's leading dots do not start
    an extension. *)
Definition splitext_root (name : string) : string :=
  match span_to_dot (String.rev name) with
  | (_, String _ rev_root) =>
    if all_dots rev_root then name else String.rev rev_root
  | (_, EmptyString) => name
  end.
End Path.

(** ** The world: file system, LLM, clock and log *)

(** A finite file system.  [denied] holds the paths the process may not
    create (permissions, read-only media, ...). *)
Module FS.
Record t := mk {
  dirs : gset string;
  files : gmap string string;
  denied : gset string
}.

(** A path made of slashes only is the root, which is always there. *)
Definition is_root (p : string) : bool := Str.truthy p && Path.all_slashes p.

(** [os.path.isdir(p)] *)
Definition is_dir (fs : t) (p : string) : bool :=
  is_root p || bool_decide (p ∈ dirs fs).

(** [os.path.isfile(p)] *)
Definition is_file (fs : t) (p : string) : bool :=
  bool_decide (is_Some (files fs !! p)).

(** [os.path.exists(p)] *)
Definition exists_ (fs : t) (p : string) : bool :=
  is_dir fs p || is_file fs p.

Definition add_dir (p : string) (fs : t) : t :=
  mk ({[p]} ∪ dirs fs) (files fs) (denied fs).

Definition put_file (p content : string) (fs : t) : t :=
  mk (dirs fs) (<[p := content]> (files fs)) (denied fs).

(** The path and its ancestors, nearest first. *)
Fixpoint ancestors (fuel : nat) (p : string) : list string :=
  match fuel with
  | O => []
  | S fuel' =>
    if Path.all_slashes p then []
    else p :: ancestors fuel' (Path.dirname p)
  end.

(** Creation of the listed directories in order, stopping at the first
    that is refused; what was created before stays. *)
Fixpoint mkdir_each (ps : list string) (fs : t) : option t * t :=
  match ps with
  | [] => (Some fs, fs)
  | p :: ps' =>
    if is_dir fs p then mkdir_each ps' fs
    else if bool_decide (p ∈ denied fs) || is_file fs p then (None, fs)
    else mkdir_each ps' (add_dir p fs)
  end.

(** [os.makedirs(p, exist_ok=...)]: [None] is [OSError]; the second
    component is the file system left behind either way. *)
Definition makedirs (exist_ok : bool) (p : string) (fs : t) : option t * t :=
  if negb (Str.truthy p) then (None, fs)
  else if is_dir fs p then ((if exist_ok then Some fs else None), fs)
  else if is_file fs p then (None, fs)
  else mkdir_each (reverse (ancestors (String.length p) p)) fs.

(** The directory a new file goes to is there: the current directory
    for a bare name, the directory part else. *)
Definition parent_exists (fs : t) (p : string) : bool :=
  negb (Str.truthy (Path.dirname p)) || is_dir fs (Path.dirname p).

(** [open(p, 'w')] then [write(content)]: [None] is [OSError]. *)
Definition write_file (p content : string) (fs : t) : option t :=
  if is_dir fs p || negb (parent_exists fs p) ||
     (negb (is_file fs p) && bool_decide (p ∈ denied fs))
  then None
  else Some (put_file p content fs).

(** [open(p, 'r').read()] *)
Definition read_file (p : string) (fs : t) : option string := files fs !! p.
End FS.

Inductive Level := DEBUG | INFO | WARNING | ERROR.

Global Instance Level_eq_dec : EqDecision Level.
Proof. solve_decision. Defined.

(** The arguments of one LLM call: the dict handed to [chain.run]. *)
Definition Kwargs : Type := list (string * Json).

Record World := mkWorld {
  fs : FS.t;
  (** [chain.run] calls made so far, oldest first *)
  llm_calls : list Kwargs;
  (** [time.sleep] arguments so far, oldest first *)
  sleeps : list Z;
  (** records of level WARNING and ERROR so far, oldest first (the
      model leaves DEBUG and INFO records out) *)
  log : list (Level * string)
}.

(** Stateful code that returns or raises. *)
Definition M (A : Type) : Type := World -> result A * World.

Global Instance M_ret : MRet M := fun _ a w => (Ok a, w).
Global Instance M_bind : MBind M := fun _ _ f m w =>
  match m w with
  | (Ok a, w') => f a w'
  | (Raise e, w') => (Raise e, w')
  end.

Module Eff.
Definition raise {A} (e : Exc) : M A := fun w => (Raise e, w).

(** [try: m] with the outcome as a value. *)
Definition try {A} (m : M A) : M (result A) :=
  fun w => let '(r, w') := m w in (Ok r, w').

(** A pure computation that may raise. *)
Definition lift {A} (r : result A) : M A := fun w => (r, w).

Definition logging (lvl : Level) (msg : string) : M unit :=
  fun w => (Ok tt, mkWorld (fs w) (llm_calls w) (sleeps w) (log w ++ [(lvl, msg)])).

Definition warning := logging WARNING.
Definition error := logging ERROR.

Definition sleep (seconds : Z) : M unit :=
  fun w => (Ok tt, mkWorld (fs w) (llm_calls w) (sleeps w ++ [seconds]) (log w)).

Definition get_fs : M FS.t := fun w => (Ok (fs w), w).

Definition set_fs (fs' : FS.t) : M unit :=
  fun w => (Ok tt, mkWorld fs' (llm_calls w) (sleeps w) (log w)).

(** [os.makedirs] in the world. *)
Definition makedirs (exist_ok : bool) (p : string) : M unit :=
  fun w =>
    let '(r, fs') := FS.makedirs exist_ok p (fs w) in
    let w' := mkWorld fs' (llm_calls w) (sleeps w) (log w) in
    match r with
    | Some _ => (Ok tt, w')
    | None => (Raise OSError, w')
    end.

Definition write_file (p content : string) : M unit :=
  fun w =>
    match FS.write_file p content (fs w) with
    | Some fs' => (Ok tt, mkWorld fs' (llm_calls w) (sleeps w) (log w))
    | None => (Raise OSError, w)
    end.

(** The cache writes that failed so far, as the log records them. *)
Definition cache_write_failures (w : World) : nat :=
  length (filter (fun r => r = (ERROR, "Failed to write cache file")) (log w)).

(** [w'] is a later world than [w]: what was a directory or a file
    still is one, and no record of a failed cache write has gone. *)
Definition later (w w' : World) : Prop :=
  (forall p, FS.is_dir (fs w) p = true -> FS.is_dir (fs w') p = true) /\
  (forall p, FS.is_file (fs w) p = true -> FS.is_file (fs w') p = true) /\
  (cache_write_failures w <= cache_write_failures w')%nat.

(** What a step that only logs changes: the log, by [records]. *)
Definition only_logs (w w' : World) (records : list (Level * string)) : Prop :=
  fs w' = fs w /\ llm_calls w' = llm_calls w /\ sleeps w' = sleeps w /\
  log w' = log w ++ records.

(** [for x in xs: body x] *)
Fixpoint for_each {A} (xs : list A) (body : A -> M unit) : M unit :=
  match xs with
  | [] => mret tt
  | x :: xs' => body x ≫= fun _ => for_each xs' body
  end.
End Eff.

(** ** cache.py *)

Module Cache.
Record CacheManager := mkCacheManager {
  cache_dir : string;
  enabled : bool
}.

(** [CacheManager.__init__(cache_dir, enabled)] *)
Definition init (cache_dir : string) (enabled : bool) : M CacheManager :=
  fs0 ← Eff.get_fs;
  if enabled && negb (FS.exists_ fs0 cache_dir) then
    r ← Eff.try (Eff.makedirs false cache_dir);
    match r with
    | Ok _ => mret (mkCacheManager cache_dir enabled)
    | Raise OSError =>
      Eff.error "Failed to create cache directory";;
      mret (mkCacheManager cache_dir false)
    | Raise e => Eff.raise e
    end
  else mret (mkCacheManager cache_dir enabled).

(** [os.path.join(self.cache_dir, f"{content_hash}.cache")] *)
Definition cache_file_path (self : CacheManager) (content_hash : string)
    : string :=
  Path.join (cache_dir self) (content_hash +:+ ".cache").

(** [CacheManager.is_cached(content_hash)] *)
Definition is_cached (self : CacheManager) (content_hash : string) : M bool :=
  if negb (enabled self) then mret false
  else
    fs0 ← Eff.get_fs;
    mret (FS.exists_ fs0 (cache_file_path self content_hash)).

(** [CacheManager.mark_cached(content_hash, metadata=None)]; [metadata]
    is the serialised dict, if one is given and not empty. *)
Definition mark_cached (self : CacheManager) (content_hash : string)
    (metadata : option string) : M unit :=
  if negb (enabled self) then mret tt
  else
    r ← Eff.try (Eff.write_file (cache_file_path self content_hash)
                   (default "" metadata));
    match r with
    | Ok _ => mret tt
    | Raise OSError => Eff.error "Failed to write cache file"
    | Raise e => Eff.raise e
    end.
End Cache.

(** ** summarization.py *)

Module Summarization.
(** A LangChain prompt template: the variables it expects and its
    [format], which raises ([None]) or returns the prompt text. *)
Record PromptTemplate := mkPromptTemplate {
  input_variables : list string;
  format : Kwargs -> option string
}.

(** [self.prompts]: filing type, then mode, to a template or [None]. *)
Record LLMSummarizer := mkLLMSummarizer {
  prompts : gmap string (gmap string (option PromptTemplate));
  max_retries : Z;
  model_name : string
}.

(** [LLMSummarizer.estimate_tokens(text)] with the default 3.5
    characters per token.  The float quotient [len(text) / 3.5] is taken
    exactly, as [2 * len / 7]; truncation of the double agrees with it
    for every length below 2^50. *)
Definition estimate_tokens (text : Json) : result Z :=
  if negb (PyVal.truthy text) then Ok 0
  else n ← PyVal.len text; Ok ((2 * n) `div` 7).

Definition missing_template_message (mode filing_type : string) : string :=
  "Missing prompt template for mode '" +:+ mode +:+ "' (filing_type: '" +:+
  filing_type +:+ "')".

(** [LLMSummarizer.get_prompt_template(mode, filing_type)] *)
Definition get_prompt_template (self : LLMSummarizer) (mode filing_type : string)
    : M PromptTemplate :=
  let default_or_raise : M PromptTemplate :=
    match prompts self !! "default" ≫= (.!! mode) with
    | Some (Some default_template) => mret default_template
    | _ =>
      Eff.error "No suitable prompt template found";;
      Eff.raise (ValueError (missing_template_message mode filing_type))
    end in
  match prompts self !! filing_type ≫= (.!! mode) with
  | Some (Some pt_obj) => mret pt_obj
  | Some None =>
    Eff.warning "Template object is None. Falling back to default.";;
    default_or_raise
  | None => default_or_raise
  end.

(** [kwargs[key] = value]: in place for a present key, appended else. *)
Fixpoint kw_set (kwargs : Kwargs) (key : string) (value : Json) : Kwargs :=
  match kwargs with
  | [] => [(key, value)]
  | (k, v) :: rest =>
    if String.eqb k key then (k, value) :: rest
    else (k, v) :: kw_set rest key value
  end.

(** [key in kwargs] *)
Definition kw_has (kwargs : Kwargs) (key : string) : bool :=
  bool_decide (is_Some (PyVal.dict_lookup kwargs key)).

(** [kwargs.pop(key)] for a present key: the rest of the dict. *)
Definition kw_remove (kwargs : Kwargs) (key : string) : Kwargs :=
  filter (fun kv => kv.1 ≠ key) kwargs.

(** The renaming of [content] to [text] and the placeholders for the
    template variables that were not provided. *)
Definition prepare_kwargs (pt : PromptTemplate) (kwargs : Kwargs) : M Kwargs :=
  let kwargs :=
    if kw_has kwargs "content" && bool_decide ("text" ∈ input_variables pt)
    then kw_set (kw_remove kwargs "content") "text"
           (PyVal.dict_get kwargs "content")
    else kwargs in
  let missing := filter (fun v => kw_has kwargs v = false) (input_variables pt) in
  match missing with
  | [] => mret kwargs
  | _ =>
    Eff.warning "Missing input variables for prompt";;
    mret (foldl (fun kw v => kw_set kw v (JStr "[Information not provided]"))
                kwargs missing)
  end.

(** [str(e)] of a caught exception. *)
Definition exc_str (e : Exc) : string :=
  match e with
  | TypeError => "TypeError"
  | KeyError k => k
  | AttributeError a => a
  | ValueError m => m
  | OSError => "OSError"
  | LLMError m => m
  end.

Section LLM.
(** The collaborator behind [chain.run]: what the call number [n]
    (counting from 0 over the whole run) answers to its arguments. *)
Variable llm : nat -> Kwargs -> result string.

(** [chain.run(kwargs)] *)
Definition chain_run (kwargs : Kwargs) : M string :=
  fun w =>
    (llm (length (llm_calls w)) kwargs,
     mkWorld (fs w) (llm_calls w ++ [kwargs]) (sleeps w) (log w)).

(** [kwargs['content']], else [kwargs['text']], else the empty string. *)
Definition content_to_log (kwargs : Kwargs) : Json :=
  match PyVal.dict_lookup kwargs "content" with
  | Some v => v
  | None => default (JStr "") (PyVal.dict_lookup kwargs "text")
  end.

(** One pass through the [try] block of the retry loop. *)
Definition attempt (pt : PromptTemplate) (kwargs : Kwargs) : M string :=
  _ ← Eff.lift (PyVal.len (content_to_log kwargs));
  (if format pt kwargs is None
   then Eff.error "Error formatting prompt for logging" else mret tt);;
  response ← chain_run kwargs;
  mret (Str.strip response).

Definition failure_message (self : LLMSummarizer) (e : Exc) : string :=
  "Error: Failed to generate summary after " +:+
  Str.of_Z (max_retries self + 1) +:+ " attempts. Last error: " +:+ exc_str e.

(** [while retries <= self.max_retries], by recursion on the number
    [max_retries + 1 - retries] of passes the condition still allows;
    at 0 the condition is false and [summary_text] is still empty. *)
Fixpoint retry_loop (left : nat) (self : LLMSummarizer) (pt : PromptTemplate)
    (kwargs : Kwargs) (retries : Z) : M string :=
  match left with
  | O => mret ""
  | S left' =>
    r ← Eff.try (attempt pt kwargs);
    match r with
    | Ok summary_text => mret summary_text
    | Raise e =>
      Eff.error "LLM API call failed";;
      let retries := retries + 1 in
      if retries >? max_retries self then
        Eff.error "Max retries reached. Failed to get summary.";;
        mret (failure_message self e)
      else
        Eff.sleep (2 ^ retries);;
        retry_loop left' self pt kwargs retries
    end
  end.

(** [LLMSummarizer.summarize(mode, filing_type, **kwargs)].  A template
    object is always true, so the test [if not prompt_template] of the
    source never fires. *)
Definition summarize (self : LLMSummarizer) (mode filing_type : string)
    (kwargs : Kwargs) : M string :=
  prompt_template ← get_prompt_template self mode filing_type;
  kwargs ← prepare_kwargs prompt_template kwargs;
  retry_loop (Z.to_nat (max_retries self + 1)) self prompt_template kwargs 0.
End LLM.

(** No template for the mode under the filing type, and none under
    "default". *)
Definition template_missing (self : LLMSummarizer) (mode filing_type : string)
    : Prop :=
  (forall pt, prompts self !! filing_type ≫= (.!! mode) <> Some (Some pt)) /\
  (forall pt, prompts self !! "default" ≫= (.!! mode) <> Some (Some pt)).

(** The passes of the retry loop that ended in the [except] branch, as
    the log records them. *)
Definition failed_attempts (w : World) : nat :=
  length (filter (fun r => r = (ERROR, "LLM API call failed")) (log w)).
End Summarization.

(** ** writer.py *)

Module Writer.
(** What the write to the opened file does: [f.write] or [json.dump]
    writes the whole text, or it raises after a part of the text was
    written ([json.dump] raises [TypeError] on a value that is not
    serialisable, [ValueError] on a circular reference). *)
Inductive Output :=
| Text (text : string)
| Breaks (e : Exc) (written : string).

(** [with open(path, 'w') as f: ...]: the file is opened, which empties
    it, and holds what was written when it is closed. *)
Definition write_to (path : string) (output : Output) : M unit :=
  match output with
  | Text text => Eff.write_file path text
  | Breaks e written => Eff.write_file path written;; Eff.raise e
  end.

(** The body shared by [write_summary] and [write_metadata]: create the
    directory, write the file, and log instead of raising; [message]
    is the record of the [except] clause that takes the exception. *)
Definition write (output : Output) (path : string) (message : Exc -> string)
    : M unit :=
  r ← Eff.try (Eff.makedirs true (Path.dirname path);; write_to path output);
  match r with
  | Ok _ => mret tt
  | Raise e => Eff.error (message e)
  end.

(** [except IOError] and [except Exception] of [write_summary] *)
Definition summary_message (e : Exc) : string :=
  match e with
  | OSError => "Failed to write summary"
  | _ => "An unexpected error occurred while writing summary"
  end.

(** [except IOError], [except TypeError] and [except Exception] of
    [write_metadata] *)
Definition metadata_message (e : Exc) : string :=
  match e with
  | OSError => "Failed to write metadata"
  | TypeError => "Metadata dictionary is not JSON serializable"
  | _ => "An unexpected error occurred while writing metadata"
  end.

(** [OutputWriter.write_summary(summary_text, output_path_md)], with
    what [f.write(summary_text)] does. *)
Definition write_summary (summary_text : Output) (output_path_md : string)
    : M unit :=
  write summary_text output_path_md summary_message.

(** [OutputWriter.write_metadata(metadata_dict, output_path_json)], with
    what [json.dump(metadata_dict, f, indent=2)] does. *)
Definition write_metadata (metadata : Output) (output_path_json : string)
    : M unit :=
  write metadata output_path_json metadata_message.
End Writer.

(** ** orchestrator.py *)

Module Orchestrator.
(** One discovered file: its path, the directory part of its path
    relative to the input directory, and what [json.load] gave ([None]
    when the file cannot be read or decoded). *)
Record FileEntry := mkFileEntry {
  filepath : string;
  rel_dir : string;
  loaded : option Json
}.

(** The [chunker] argument, as the orchestrator uses it. *)
Record ChunkerI := mkChunkerI {
  chunk_text : Json -> Z -> Z -> result (list string);
  get_full_text : Json -> string;
  get_sections_from_json : Json -> result (list (Json * Json))
}.

(** The [chunker] module as the command line hands it over: it has no
    [chunk_text] function ([chunk_text] is a method of [TextChunker]). *)
Definition chunker_module (strip_html : string -> string)
    (py_repr : Json -> string) : ChunkerI :=
  mkChunkerI
    (fun _ _ _ => Raise (AttributeError "chunk_text"))
    Chunker.get_full_text
    (fun data => Chunker.get_sections_from_json strip_html py_repr data 50).

(** [data.get(key, default)] on whatever was loaded. *)
Definition py_get_default (data : Json) (key : string) (dflt : Json)
    : result Json :=
  match data with
  | JObj fields => Ok (PyVal.dict_get_default fields key dflt)
  | _ => Raise (AttributeError "get")
  end.

(** [v.strip()] *)
Definition py_strip (v : Json) : result string :=
  match v with
  | JStr s => Ok (Str.strip s)
  | _ => Raise (AttributeError "strip")
  end.

(** [v.startswith(p)] *)
Definition py_startswith (v : Json) (p : string) : result bool :=
  match v with
  | JStr s => Ok (Str.startswith s p)
  | _ => Raise (AttributeError "startswith")
  end.

(** ["/news/" in filepath or "\\news\\" in filepath] *)
Definition is_news_article (filepath : string) : bool :=
  Str.contains "/news/" filepath || Str.contains "\news\" filepath.

(** [[A-Z0-9\-]] *)
Definition form_char (c : ascii) : bool :=
  let n := N_of_ascii c in
  ((65 <=? n) && (n <=? 90) || (48 <=? n) && (n <=? 57) || (n =? 45))%N.

(** [s.split('_')[0]] *)
Fixpoint before_underscore (s : string) : string :=
  match s with
  | EmptyString => ""
  | String c s' =>
    if Ascii.eqb c "_"%char then "" else String c (before_underscore s')
  end.

Definition upper_char (c : ascii) : ascii :=
  let n := N_of_ascii c in
  if ((97 <=? n) && (n <=? 122))%N then ascii_of_N (n - 32) else c.

(** [s.upper()] on ASCII letters. *)
Fixpoint upper (s : string) : string :=
  match s with
  | EmptyString => ""
  | String c s' => String (upper_char c) (upper s')
  end.

(** The filing type that selects the prompt. *)
Definition effective_filing_type (is_news : bool) (base_name_ext : string)
    (data : Json) : string :=
  if is_news then "news"
  else
    let from_name :=
      if Str.contains "_" base_name_ext then
        let potential_form_type := before_underscore base_name_ext in
        match potential_form_type with
        | String c _ =>
          if form_char c && (Str.len potential_form_type <? 10)
          then potential_form_type else "default"
        | EmptyString => "default"
        end
      else "default" in
    if String.eqb from_name "default" then
      match data with
      | JObj fields =>
        match PyVal.dict_get_default fields "form_type"
                (PyVal.dict_get fields "type") with
        | JStr s =>
          if Str.truthy s && (Str.len s <? 15) then upper s else from_name
        | _ => from_name
        end
      | _ => from_name
      end
    else from_name.

(** The chunk count, chunk size and overlap chosen for an oversized news
    article.  The float operations [ceil(a / b)], [floor(a / b)] and
    [int(x * 0.1)] are taken exactly. *)
Definition dynamic_chunk_plan (estimated_tokens total_chars : Z) : Z * Z * Z :=
  let safe_tokens_per_chunk := 50000 in
  let num_chunks_ideal := - ((- estimated_tokens) `div` safe_tokens_per_chunk) in
  let num_chunks_ideal := Z.max 2 num_chunks_ideal in
  let char_chunk_size_target := total_chars `div` num_chunks_ideal in
  let min_char_chunk_for_splitter := 20000 in
  let char_chunk_size_for_splitter :=
    Z.max min_char_chunk_for_splitter char_chunk_size_target in
  let char_chunk_overlap := Z.max 1000 (char_chunk_size_for_splitter `div` 10) in
  (num_chunks_ideal, char_chunk_size_for_splitter, char_chunk_overlap).

Definition content_token_limit : Z := 190000.

(** The content of the document, if it has one with an estimate, stays
    within the token limit: file mode does not chunk it. *)
Definition within_budget (data : Json) : Prop :=
  match py_get_default data "content" (JStr "") with
  | Ok text =>
    match Summarization.estimate_tokens text with
    | Ok estimated_tokens => estimated_tokens <= content_token_limit
    | Raise _ => True
    end
  | Raise _ => True
  end.

(** The value as the [str] the code goes on to treat it as; the method
    named is the first one the source calls on it. *)
Definition as_str (v : Json) (method : string) : result string :=
  match v with
  | JStr s => Ok s
  | _ => Raise (AttributeError method)
  end.

Section Run.
(** Given: [str] of a list or dict, the SHA-256 hex digest behind
    [hash_content], the substitution [re.sub(r'[^\w\-_.]', '_', ...)],
    the metadata generator (as the JSON text of the dict it returns),
    the LLM, the chunker, the cache manager, the summarizer, today's
    date, the output directory and the theme of cross mode. *)
Variable py_repr : Json -> string.
Variable hash_content : string -> string.
Variable sanitize_id : string -> string.
Variable generate_metadata : Kwargs -> string.
Variable llm : nat -> Kwargs -> result string.
Variable chunker : ChunkerI.
Variable cache_manager : Cache.CacheManager.
Variable summarizer : Summarization.LLMSummarizer.
Variable today : string.
Variable output_dir : string.
Variable theme : string.

(** [company_name], followed by the filing type unless that is "default". *)
Definition document_title (data : Json) (filing_type : string) : result Json :=
  company_name ← py_get_default data "company_name" (JStr "Unknown Company");
  mret (if negb (String.eqb filing_type "default")
        then JStr (Chunker.py_str py_repr company_name +:+ " - " +:+ filing_type)
        else company_name).

(** The tail of every branch: metadata, then the two artifacts.  The
    summary is a string and the generated metadata a dict of strings,
    numbers and lists of strings, with [meta] its JSON text: both are
    written in full once the file is open. *)
Definition write_artifacts (summary_text : string) (meta_args : Kwargs)
    (output_path_md output_path_json : string) : M unit :=
  let meta := generate_metadata (("summary_text", JStr summary_text) :: meta_args) in
  Writer.write_summary (Writer.Text summary_text) output_path_md;;
  Writer.write_metadata (Writer.Text meta) output_path_json.

(** [for i, chunk_text in enumerate(news_chunks)], from index [i] on. *)
Fixpoint summarize_chunks (i : nat) (news_chunks : list string)
    (summarizer_kwargs : Kwargs) (filing_type : string)
    (chunk_summaries : list string) : M (list string) :=
  match news_chunks with
  | [] => mret chunk_summaries
  | chunk_text :: rest =>
    if negb (Str.truthy (Str.strip chunk_text)) then
      summarize_chunks (S i) rest summarizer_kwargs filing_type chunk_summaries
    else
      chunk_summary ←
        Summarization.summarize llm summarizer "file" filing_type
          (Summarization.kw_set summarizer_kwargs "content" (JStr chunk_text));
      if negb (Str.startswith chunk_summary "Error:") then
        summarize_chunks (S i) rest summarizer_kwargs filing_type
          (chunk_summaries ++ [chunk_summary])
      else
        Eff.error "Error summarizing chunk";;
        summarize_chunks (S i) rest summarizer_kwargs filing_type
          (chunk_summaries ++
           ["[Error summarizing chunk " +:+ Str.of_Z (Z.of_nat i + 1) +:+ ": " +:+
            chunk_summary +:+ "]"])
  end.

(** The text, the keyword arguments and the chunking method of a news
    article in file mode, with the dynamic chunking of an oversized one. *)
Definition news_text (data : Json) (base_name filing_type : string)
    : M (Json * Kwargs * string) :=
  text_to_summarize ← Eff.lift (py_get_default data "content" (JStr ""));
  title ← Eff.lift (py_get_default data "title" (JStr base_name));
  let summarizer_kwargs := [("title", title)] in
  estimated_tokens ← Eff.lift (Summarization.estimate_tokens text_to_summarize);
  if estimated_tokens >? content_token_limit then
    Eff.warning "News article exceeds content limit. Dynamic chunking...";;
    total_chars ← Eff.lift (PyVal.len text_to_summarize);
    let '(_, chunk_size, chunk_overlap) :=
      dynamic_chunk_plan estimated_tokens total_chars in
    news_chunks ←
      Eff.lift (chunk_text chunker text_to_summarize chunk_size chunk_overlap);
    '(text_to_summarize, method) ←
      (match news_chunks with
       | [] =>
         Eff.error "Chunking resulted in no news_chunks";;
         mret (JStr "Error: Chunking failed to produce any text segments.",
               "error_chunking_failed")
       | _ => mret (text_to_summarize, "sequential_summaries_dynamic_char_chunks")
       end);
    chunk_summaries ←
      summarize_chunks 0 news_chunks summarizer_kwargs filing_type [];
    match chunk_summaries with
    | _ :: _ =>
      mret (JStr (Str.join "\n\n---\n\n" chunk_summaries), summarizer_kwargs, method)
    | [] =>
      is_error ← Eff.lift (py_startswith text_to_summarize "Error:");
      if negb is_error then
        Eff.error "No valid chunk summaries generated";;
        mret (JStr "Error: Failed to generate summary from chunks (no valid chunk summaries).",
              summarizer_kwargs, method)
      else mret (text_to_summarize, summarizer_kwargs, method)
    end
  else mret (text_to_summarize, summarizer_kwargs, "none").

(** The text and the keyword arguments of a filing in file mode. *)
Definition filing_text (data : Json) (base_name_ext filing_type : string)
    : M (Json * Kwargs * string) :=
  let text_to_summarize := JStr (get_full_text chunker data) in
  doc_title_str ← Eff.lift (document_title data filing_type);
  mret (text_to_summarize,
        [("source_filename", JStr base_name_ext);
         ("effective_filing_type", JStr filing_type);
         ("document_title", doc_title_str);
         ("current_date", JStr today)],
        "none").

(** [mode == "file" or (mode == "news" and is_news_article)] *)
Definition file_branch (f : FileEntry) (data : Json) (is_news : bool)
    (base_name_ext base_name current_out_dir filing_type : string) : M unit :=
  '(text_to_summarize, summarizer_kwargs, chunking_method) ←
    (if is_news then news_text data base_name filing_type
     else filing_text data base_name_ext filing_type);
  text ← Eff.lift (as_str text_to_summarize "strip");
  if negb (Str.truthy (Str.strip text)) then
    Eff.warning "No content to summarize. Skipping."
  else
    let content_hash :=
      hash_content (text +:+ PyVal.json_dumps (JObj summarizer_kwargs)) in
    cached ← Cache.is_cached cache_manager content_hash;
    if cached : bool then mret tt
    else
      summary_text ←
        Summarization.summarize llm summarizer "file" filing_type
          (Summarization.kw_set summarizer_kwargs "content" (JStr text));
      Cache.mark_cached cache_manager content_hash None;;
      output_file_base ←
        (if is_news then
           news_id ← Eff.lift (py_get_default data "id" (JStr base_name));
           match news_id with
           | JStr i => mret (sanitize_id i)
           | _ => Eff.raise TypeError
           end
         else mret base_name);
      doc_type ←
        (if is_news then Eff.lift (Chunker.py_get data "article_type")
         else mret (JStr filing_type));
      write_artifacts summary_text
        [("source_path", JStr (filepath f)); ("mode", JStr "file");
         ("is_news", JBool is_news);
         ("news_data", if is_news then data else JNull);
         ("doc_type", doc_type);
         ("llm_model_used", JStr (Summarization.model_name summarizer));
         ("chunking_method", JStr (if is_news then chunking_method else "none"))]
        (Path.join current_out_dir (output_file_base +:+ "_summary.md"))
        (Path.join current_out_dir (output_file_base +:+ "_meta.json")).

(** One round of [for i, (sec_title, sec_text) in enumerate(sections)]. *)
Definition node_section (f : FileEntry) (data : Json)
    (base_name current_out_dir filing_type : string)
    (entry : nat * (Json * Json)) : M unit :=
  let '(i, (sec_title, sec_text)) := entry in
  let sec_id := "section_" +:+ Str.of_Z (Z.of_nat i + 1) in
  let actual_sec_title :=
    if PyVal.truthy sec_title then sec_title
    else JStr ("Untitled Section " +:+ sec_id) in
  sec_text ← Eff.lift (as_str sec_text "strip");
  if negb (Str.truthy (Str.strip sec_text)) then mret tt
  else
    let content_hash :=
      hash_content (filepath f +:+ ":" +:+ sec_id +:+ ":" +:+ sec_text) in
    cached ← Cache.is_cached cache_manager content_hash;
    if cached : bool then mret tt
    else
      doc_title_for_node ← Eff.lift (document_title data filing_type);
      summary_text ←
        Summarization.summarize llm summarizer "node" filing_type
          [("content", JStr sec_text); ("section_title", actual_sec_title);
           ("document_title", doc_title_for_node);
           ("effective_filing_type", JStr filing_type)];
      Cache.mark_cached cache_manager content_hash None;;
      write_artifacts summary_text
        [("source_path", JStr (filepath f)); ("mode", JStr "node");
         ("section_id", JStr sec_id); ("section_title", actual_sec_title);
         ("doc_type", JStr filing_type);
         ("llm_model_used", JStr (Summarization.model_name summarizer));
         ("document_title_for_node", doc_title_for_node)]
        (Path.join current_out_dir (base_name +:+ "_" +:+ sec_id +:+ "_summary.md"))
        (Path.join current_out_dir (base_name +:+ "_" +:+ sec_id +:+ "_meta.json")).

(** [mode == "node" and not is_news_article] *)
Definition node_branch (f : FileEntry) (data : Json)
    (base_name current_out_dir filing_type : string) : M unit :=
  sections ← Eff.lift (get_sections_from_json chunker data);
  match sections with
  | [] => Eff.warning "No sections found for node mode. Skipping."
  | _ =>
    Eff.for_each (imap pair sections)
      (node_section f data base_name current_out_dir filing_type)
  end.

(** The path of the [i]-th node summary of a document. *)
Definition node_summary_file (node_summary_base_dir base_name : string) (i : Z)
    : string :=
  Path.join node_summary_base_dir
    (base_name +:+ "_section_" +:+ Str.of_Z i +:+ "_summary.md").

(** [while True] over [i = 1, 2, ...]: read the node summaries that are
    there, up to the first that is missing or unreadable.  The loop
    cannot run for more rounds than there are files, so that many
    rounds and one more are all it takes. *)
Fixpoint read_node_summaries (fuel : nat) (node_summary_base_dir base_name : string)
    (i : Z) (node_summaries_content : list string) : M (list string) :=
  match fuel with
  | O => mret node_summaries_content
  | S fuel' =>
    fs0 ← Eff.get_fs;
    let expected := node_summary_file node_summary_base_dir base_name i in
    if FS.exists_ fs0 expected then
      match FS.read_file expected fs0 with
      | Some text =>
        read_node_summaries fuel' node_summary_base_dir base_name (i + 1)
          (node_summaries_content ++ [text])
      | None =>
        Eff.error "Error reading node summary";;
        mret node_summaries_content
      end
    else mret node_summaries_content
  end.

(** The node summaries the loop above collects, read off the files. *)
Fixpoint node_summaries_found (fuel : nat) (files : gmap string string)
    (node_summary_base_dir base_name : string) (i : Z) : list string :=
  match fuel with
  | O => []
  | S fuel' =>
    match files !! node_summary_file node_summary_base_dir base_name i with
    | Some text =>
      text :: node_summaries_found fuel' files node_summary_base_dir base_name (i + 1)
    | None => []
    end
  end.

(** The node summaries master mode collects for the file in the world. *)
Definition master_inputs (f : FileEntry) (w : World) : list string :=
  let files := FS.files (fs w) in
  node_summaries_found (S (size files)) files
    (Path.join (Path.join output_dir "node-level") (rel_dir f))
    (Path.splitext_root (Path.basename (filepath f))) 1.

(** [mode == "master" and not is_news_article] *)
Definition master_branch (f : FileEntry) (data : Json)
    (base_name_ext base_name current_out_dir filing_type : string) : M unit :=
  let node_summary_base_dir :=
    Path.join (Path.join output_dir "node-level") (rel_dir f) in
  fs0 ← Eff.get_fs;
  node_summaries_content ←
    read_node_summaries (S (size (FS.files fs0))) node_summary_base_dir
      base_name 1 [];
  match node_summaries_content with
  | [] => Eff.warning "No node-level summaries found. Skipping."
  | _ =>
    let separator :=
      Str.newline +:+ Str.newline +:+ "---" +:+ Str.newline +:+ Str.newline in
    let combined_node_summaries := Str.join separator node_summaries_content in
    let content_hash :=
      hash_content
        (filepath f +:+ ":master_from_nodes:" +:+ combined_node_summaries) in
    cached ← Cache.is_cached cache_manager content_hash;
    if cached : bool then mret tt
    else
      doc_title_for_master ← Eff.lift (document_title data filing_type);
      summary_text ←
        Summarization.summarize llm summarizer "master" filing_type
          [("content", JStr combined_node_summaries);
           ("document_title", doc_title_for_master);
           ("effective_filing_type", JStr filing_type);
           ("current_date", JStr today)];
      Cache.mark_cached cache_manager content_hash None;;
      write_artifacts summary_text
        [("source_path", JStr (filepath f)); ("mode", JStr "master");
         ("doc_type", JStr filing_type);
         ("llm_model_used", JStr (Summarization.model_name summarizer))]
        (Path.join current_out_dir (base_name +:+ "_master_summary.md"))
        (Path.join current_out_dir (base_name +:+ "_master_meta.json"))
  end.

(** [mode == "cross"] *)
Definition cross_branch (f : FileEntry) (data : Json)
    (base_name_ext base_name current_out_dir filing_type : string) : M unit :=
  Eff.warning "Cross-sectional mode is not designed to run on individual files";;
  let text_to_summarize := get_full_text chunker data in
  if negb (Str.truthy (Str.strip text_to_summarize)) then mret tt
  else
    let content_hash :=
      hash_content
        (filepath f +:+ ":cross:" +:+ theme +:+ ":" +:+ text_to_summarize) in
    cached ← Cache.is_cached cache_manager content_hash;
    if cached : bool then mret tt
    else
      summary_text ←
        Summarization.summarize llm summarizer "cross" filing_type
          [("content", JStr text_to_summarize); ("theme", JStr theme);
           ("document_title", JStr base_name_ext)];
      Cache.mark_cached cache_manager content_hash None;;
      write_artifacts summary_text
        [("source_path", JStr (filepath f)); ("mode", JStr "cross");
         ("theme_type", JStr theme); ("doc_type", JStr filing_type);
         ("llm_model_used", JStr (Summarization.model_name summarizer))]
        (Path.join current_out_dir
           (base_name +:+ "_" +:+ theme +:+ "_cross_summary.md"))
        (Path.join current_out_dir
           (base_name +:+ "_" +:+ theme +:+ "_cross_meta.json")).

(** The body of [for filepath in files_to_process]. *)
Definition process_file (mode : string) (f : FileEntry) : M unit :=
  let is_news := is_news_article (filepath f) in
  match loaded f with
  | None => Eff.error "Failed to read or decode file"
  | Some data =>
    let base_name_ext := Path.basename (filepath f) in
    let base_name := Path.splitext_root base_name_ext in
    let output_mode_dir := Path.join output_dir (mode +:+ "-level") in
    let current_out_dir := Path.join output_mode_dir (rel_dir f) in
    Eff.makedirs true current_out_dir;;
    let filing_type := effective_filing_type is_news base_name_ext data in
    if String.eqb mode "file" || String.eqb mode "news" && is_news then
      file_branch f data is_news base_name_ext base_name current_out_dir
        filing_type
    else if String.eqb mode "node" && negb is_news then
      node_branch f data base_name current_out_dir filing_type
    else if String.eqb mode "master" && negb is_news then
      master_branch f data base_name_ext base_name current_out_dir filing_type
    else if String.eqb mode "cross" then
      cross_branch f data base_name_ext base_name current_out_dir filing_type
    else if negb (String.eqb mode "file") && negb (String.eqb mode "news") &&
            negb (String.eqb mode "node") && negb (String.eqb mode "master")
    then Eff.warning "Mode not applicable to this item type or not implemented for it"
    else mret tt
  end.

(** [run_summarization] on the files its discovery found. *)
Definition run_summarization (mode : string) (files_to_process : list FileEntry)
    : M unit :=
  match files_to_process with
  | [] => Eff.warning "No processable JSON files found"
  | _ => Eff.for_each files_to_process (process_file mode)
  end.
End Run.
End Orchestrator.

(** ** chunker.py: chunk_document *)

Module Documents.
(** [f"OriginalDocTitleInSection{i+1}"] *)
Definition default_section_name (i : nat) : string :=
  "OriginalDocTitleInSection" +:+ Str.of_Z (Z.of_nat i + 1).

(** [section_name if section_name else f"OriginalDocTitleInSection{i+1}"] *)
Definition section_identifier (i : nat) (section_name : option string) : string :=
  match section_name with
  | Some name => if Str.truthy name then name else default_section_name i
  | None => default_section_name i
  end.

(** [not section_content or not section_content.strip()] *)
Definition blank (section_content : string) : bool :=
  negb (Str.truthy section_content) ||
  negb (Str.truthy (Str.strip section_content)).

(** [for i, (section_name, section_content) in enumerate(sections)], from
    index [i] on.  [None] means that a [chunk_text] call ran out of
    fuel. *)
Fixpoint chunk_sections (fuel : nat) (self : Chunker.TextChunker) (i : nat)
    (sections : list (option string * string))
    (all_chunks : list (Chunker.Chunk ascii))
    : M (option (list (Chunker.Chunk ascii))) :=
  match sections with
  | [] => mret (Some all_chunks)
  | (section_name, section_content) :: rest =>
    let section_identifier := section_identifier i section_name in
    if blank section_content then
      Eff.warning "Skipping empty or whitespace-only section";;
      chunk_sections fuel self (S i) rest all_chunks
    else
      match Chunker.chunk_text fuel self (list_ascii_of_string section_content)
              (Some section_identifier) with
      | Some text_chunks =>
        chunk_sections fuel self (S i) rest (all_chunks ++ text_chunks)
      | None => mret None
      end
  end.

(** [TextChunker.chunk_document(file_path, sections)] *)
Definition chunk_document (fuel : nat) (self : Chunker.TextChunker)
    (file_path : string) (sections : list (option string * string))
    : M (option (list (Chunker.Chunk ascii))) :=
  chunk_sections fuel self 0 sections [].
End Documents.

(** ** cache.py: the stored metadata *)

Module CacheMetadata.
(** What a library call on the cache file does: it gives a value, it
    raises an exception that [get_cached_metadata] catches ([IOError],
    [json.JSONDecodeError]), or it raises another one, which
    [get_cached_metadata] lets through ([UnicodeDecodeError] for bytes
    that are no text in the default encoding, [RecursionError] for a
    text nested too deep). *)
Inductive Outcome (A : Type) : Type :=
| Value (a : A)
| Caught
| Escapes (e : Exc).
Arguments Value {A} a.
Arguments Caught {A}.
Arguments Escapes {A} e.

Section Loads.
(** [f.read()] on the stored bytes, and [json.loads] on the text read. *)
Variable read_text : string -> Outcome string.
Variable json_loads : string -> Outcome Json.

(** [CacheManager.get_cached_metadata(content_hash)]; Python's [None]
    is [JNull].  A cache path that cannot be opened is an [IOError]. *)
Definition get_cached_metadata (self : Cache.CacheManager)
    (content_hash : string) : M Json :=
  cached ← Cache.is_cached self content_hash;
  if negb cached then mret JNull
  else
    fs0 ← Eff.get_fs;
    match FS.read_file (Cache.cache_file_path self content_hash) fs0 with
    | Some stored =>
      match read_text stored with
      | Value content =>
        if Str.truthy content then
          match json_loads content with
          | Value metadata => mret metadata
          | Caught =>
            Eff.error "Failed to read or parse cache metadata";; mret JNull
          | Escapes e => Eff.raise e
          end
        else mret JNull
      | Caught =>
        Eff.error "Failed to read or parse cache metadata";; mret JNull
      | Escapes e => Eff.raise e
      end
    | None => Eff.error "Failed to read or parse cache metadata";; mret JNull
    end.
End Loads.
End CacheMetadata.

(** ** cache.py: clear_cache *)

Module CacheClear.
(** [os.listdir(d)] for a directory [d]: the names of the files and
    directories right under it, in some order. *)
Definition listdir (d : string) (fs : FS.t) : list string :=
  omap (fun p =>
          let name := Path.basename p in
          if Str.truthy name && String.eqb (Path.join d name) p
          then Some name else None)
       (elements (dom (FS.files fs) ∪ FS.dirs fs)).

(** [os.unlink(p)]: [None] is [OSError].  What the process may not
    create in a directory it may not remove from it either. *)
Definition unlink (p : string) (fs : FS.t) : option FS.t :=
  if FS.is_file fs p && negb (bool_decide (p ∈ FS.denied fs))
  then Some (FS.mk (FS.dirs fs) (delete p (FS.files fs)) (FS.denied fs))
  else None.

(** [for filename in os.listdir(self.cache_dir)], with the two counters;
    the model has no symbolic links. *)
Fixpoint clear_loop (self : Cache.CacheManager) (filenames : list string)
    (cleared_count error_count : Z) : M (Z * Z) :=
  match filenames with
  | [] => mret (cleared_count, error_count)
  | filename :: rest =>
    let file_path := Path.join (Cache.cache_dir self) filename in
    fs0 ← Eff.get_fs;
    if FS.is_file fs0 file_path then
      match unlink file_path fs0 with
      | Some fs' =>
        Eff.set_fs fs';;
        clear_loop self rest (cleared_count + 1) error_count
      | None =>
        Eff.error "Failed to delete";;
        clear_loop self rest cleared_count (error_count + 1)
      end
    else clear_loop self rest cleared_count error_count
  end.

(** [CacheManager.clear_cache()]; [os.listdir] raises on what is not a
    directory. *)
Definition clear_cache (self : Cache.CacheManager) : M unit :=
  fs0 ← Eff.get_fs;
  if negb (Cache.enabled self) || negb (FS.exists_ fs0 (Cache.cache_dir self))
  then mret tt
  else
    (if FS.is_dir fs0 (Cache.cache_dir self) then mret tt
     else Eff.raise OSError);;
    '(cleared_count, error_count) ←
      clear_loop self (listdir (Cache.cache_dir self) fs0) 0 0;
    if error_count =? 0 then mret tt
    else Eff.warning "Cache clearing partially failed".
End CacheClear.

(** ** summarization.py: the prompt set *)

Module PromptSet.
Section Load.
(** [json.loads] ([None] where it raises [JSONDecodeError]),
    [PromptTemplate.from_template] ([None] where it raises) and what
    [open(n).read()] gives for an integer [n], a file descriptor ([None]
    where it raises). *)
Variable json_loads : string -> option Json.
Variable from_template : string -> option Summarization.PromptTemplate.
Variable read_descriptor : Z -> option string.

(** [open(template_file_path, 'r', encoding='utf-8').read()]; [None]
    where it raises. *)
Definition read_template (fs0 : FS.t) (template_file_path : Json)
    : option string :=
  match template_file_path with
  | JStr p => FS.read_file p fs0
  | JInt n => read_descriptor n
  | JBool b => read_descriptor (if b then 1 else 0)
  | _ => None
  end.

(** [for mode, template_file_path in modes.items()]: a template that
    cannot be read or compiled is marked [None]. *)
Definition load_modes (fs0 : FS.t) (modes : list (string * Json))
    : gmap string (option Summarization.PromptTemplate) :=
  foldl (fun loaded kv =>
           <[kv.1 := read_template fs0 kv.2 ≫= from_template]> loaded)
        ∅ modes.

(** [for filing_type, modes in config.items()] *)
Fixpoint load_filing_types (fs0 : FS.t) (items : list (string * Json))
    (loaded_prompts : gmap string (gmap string (option Summarization.PromptTemplate)))
    : M (gmap string (gmap string (option Summarization.PromptTemplate))) :=
  match items with
  | [] => mret loaded_prompts
  | (filing_type, modes) :: rest =>
    match modes with
    | JObj entries =>
      load_filing_types fs0 rest
        (<[filing_type := load_modes fs0 entries]> loaded_prompts)
    | _ =>
      Eff.warning "Invalid structure for filing_type in prompt set";;
      load_filing_types fs0 rest (<[filing_type := ∅]> loaded_prompts)
    end
  end.

(** [LLMSummarizer._load_prompt_set(path)] *)
Definition _load_prompt_set (path : string)
    : M (gmap string (gmap string (option Summarization.PromptTemplate))) :=
  fs0 ← Eff.get_fs;
  match FS.read_file path fs0 with
  | None =>
    (if FS.is_dir fs0 path
     then Eff.error "An unexpected error occurred while loading prompt set"
     else Eff.error "Prompt-set file not found");;
    mret ∅
  | Some text =>
    match json_loads text with
    | None => Eff.error "Error decoding JSON from prompt-set file";; mret ∅
    | Some (JObj items) => load_filing_types fs0 items ∅
    | Some _ =>
      Eff.error "An unexpected error occurred while loading prompt set";;
      mret ∅
    end
  end.
End Load.
End PromptSet.

(** ** What a step does to the world *)

Module Steps.
(** The step leaves the file system and the count of failed cache
    writes alone. *)
Definition Quiet {A} (m : M A) : Prop :=
  forall w r w', m w = (r, w') ->
    fs w' = fs w /\ Eff.cache_write_failures w' = Eff.cache_write_failures w.

(** The step ends in a later world. *)
Definition Later {A} (m : M A) : Prop :=
  forall w r w', m w = (r, w') -> Eff.later w w'.

(** The step neither reads nor changes the world. *)
Definition Pure {A} (m : M A) : Prop :=
  exists r, forall w, m w = (r, w).

(** A run of the step that returns and logs no failed cache write
    leaves the cache file of [key] behind. *)
Definition Marks {A} (cache_manager : Cache.CacheManager) (key : string)
    (m : M A) : Prop :=
  forall w a w', m w = (Ok a, w') ->
    Eff.cache_write_failures w' = Eff.cache_write_failures w ->
    FS.exists_ (fs w') (Cache.cache_file_path cache_manager key) = true.

(** After a run of the step that returned and logged no failed cache
    write, the step run again in any later world returns too, without
    an LLM call. *)
Definition Rerunnable (m : M unit) : Prop :=
  forall w w1, m w = (Ok tt, w1) ->
    Eff.cache_write_failures w1 = Eff.cache_write_failures w ->
    forall w2, Eff.later w1 w2 ->
    exists w3, m w2 = (Ok tt, w3) /\ llm_calls w3 = llm_calls w2 /\
               Eff.later w2 w3.
End Steps.

(** ** Components for the concrete runs *)

Module Demo.
(** A stand-in for the SHA-256 digest: the hexadecimal spelling of the
    text, which like a digest holds no path separator. *)
Fixpoint hex_encode (s : string) : string :=
  match s with
  | EmptyString => ""
  | String c s' =>
    let n := N_of_ascii c in
    String (PyVal.hex_digit (n / 16)) (String (PyVal.hex_digit (n mod 16))
      (hex_encode s'))
  end.

Definition py_repr (v : Json) : string := PyVal.json_dumps v.
Definition strip_html (s : string) : string := s.
Definition sanitize_id (s : string) : string := s.
Definition generate_metadata (args : Kwargs) : string := "{}".

(** The command line's chunker module and an enabled cache in [.cache]. *)
Definition chunker : Orchestrator.ChunkerI :=
  Orchestrator.chunker_module strip_html py_repr.
Definition cache_manager : Cache.CacheManager :=
  Cache.mkCacheManager ".cache" true.

(** A template over [content], and summarizers with file and node
    templates under "default", or with no template at all. *)
Definition template : Summarization.PromptTemplate :=
  Summarization.mkPromptTemplate ["content"] (fun _ => Some "").
Definition summarizer : Summarization.LLMSummarizer :=
  Summarization.mkLLMSummarizer
    {["default" := {["file" := Some template; "node" := Some template]}]} 2 "model".
Definition summarizer_without_prompts : Summarization.LLMSummarizer :=
  Summarization.mkLLMSummarizer ∅ 2 "model".

(** An LLM that answers every call. *)
Definition llm : nat -> Kwargs -> result string := fun _ _ => Ok "A summary.".

(** A world whose only directory is the cache directory. *)
Definition world : World := mkWorld (FS.mk {[".cache"]} ∅ ∅) [] [] [].

Definition run (llm : nat -> Kwargs -> result string)
    (chunker : Orchestrator.ChunkerI) (summarizer : Summarization.LLMSummarizer)
    (mode : string) (files : list Orchestrator.FileEntry) : M unit :=
  Orchestrator.run_summarization py_repr hex_encode sanitize_id
    generate_metadata llm chunker cache_manager summarizer "2026-01-01" "out"
    "general_cross_summary" mode files.

(** A news article of 665,004 characters: 190,001 estimated tokens. *)
Definition big_news : Orchestrator.FileEntry :=
  Orchestrator.mkFileEntry "Data/news/reg/cfpb/2025-01/big.json" "2025-01"
    (Some (JObj [("id", JStr "big-1"); ("title", JStr "Big");
                 ("content", JStr (Str.repeat "a" 665004))])).

Definition filing_a : Orchestrator.FileEntry :=
  Orchestrator.mkFileEntry "Data/Banks/BMO/10-K_2024.json" "BMO"
    (Some (JObj [("company_name", JStr "BMO"); ("text", JStr "Annual report.")])).
Definition filing_b : Orchestrator.FileEntry :=
  Orchestrator.mkFileEntry "Data/Banks/RBC/6-K_2024.json" "RBC"
    (Some (JObj [("company_name", JStr "RBC"); ("text", JStr "Interim report.")])).
End Demo.

(** * Properties *)

(** ** Comparisons as the source writes them *)

Lemma geb_true n m : m <= n -> (n >=? m) = true.
Proof. intros. by apply Z.geb_le. Qed.

Lemma geb_false n m : n < m -> (n >=? m) = false.
Proof. intros. rewrite Z.geb_leb. by apply Z.leb_gt. Qed.

(** ** Python slices *)

Section PyFacts.
Context {A : Type} `{EqDecision A}.
Implicit Types s t : list A.

Lemma slice_nonneg s i j :
  0 <= i -> 0 <= j ->
  Py.slice s i j =
  take (Z.to_nat (Z.min j (Py.len s)) - Z.to_nat (Z.min i (Py.len s)))%nat
       (drop (Z.to_nat i) s).
Proof.
  intros Hi Hj. unfold Py.slice, Py.slice_index, Py.len.
  rewrite !(proj2 (Z.ltb_ge _ _)) by lia.
  destruct (Z.le_gt_cases i (Z.of_nat (length s))) as [Hle|Hgt].
  - rewrite (Z.min_l i) by lia. f_equal. lia.
  - rewrite (Z.min_r i) by lia.
    rewrite !drop_ge by lia. by rewrite !take_nil.
Qed.

Lemma slice_inside s i j :
  0 <= i -> i <= j -> j <= Py.len s ->
  Py.slice s i j = take (Z.to_nat (j - i)) (drop (Z.to_nat i) s).
Proof.
  intros. rewrite slice_nonneg by lia. f_equal. lia.
Qed.

Lemma len_nonneg s : 0 <= Py.len s.
Proof. unfold Py.len. lia. Qed.

Lemma slice_to_end s i j :
  0 <= i -> Py.len s <= j -> Py.slice s i j = drop (Z.to_nat i) s.
Proof.
  intros. pose proof (len_nonneg s).
  rewrite slice_nonneg by lia. apply take_ge.
  rewrite length_drop. unfold Py.len in *. lia.
Qed.

Lemma slice_from_nonneg s i : 0 <= i -> Py.slice_from s i = drop (Z.to_nat i) s.
Proof.
  intros Hi. unfold Py.slice_from, Py.slice_index, Py.len.
  rewrite (proj2 (Z.ltb_ge _ _)) by lia.
  destruct (Z.le_gt_cases i (Z.of_nat (length s))).
  - by rewrite Z.min_l by lia.
  - rewrite Z.min_r by lia. by rewrite !drop_ge by lia.
Qed.

Lemma slice_to_all s j : Py.len s <= j -> Py.slice_to s j = s.
Proof.
  intros Hj. unfold Py.slice_to, Py.slice_index, Py.len in *.
  rewrite (proj2 (Z.ltb_ge _ _)) by lia.
  rewrite Z.min_r by lia. apply take_ge. lia.
Qed.

Lemma len_drop s n : Py.len (drop n s) = Z.max 0 (Py.len s - Z.of_nat n).
Proof. unfold Py.len. rewrite length_drop. lia. Qed.

Lemma endswith_true s t : t `suffix_of` s -> Py.endswith s t = true.
Proof. intros. unfold Py.endswith. by apply bool_decide_eq_true. Qed.
End PyFacts.

(** ** TextChunker.chunk_text with [max_size > overlap >= 0] *)

Section ChunkFacts.
Context {A : Type} `{EqDecision A}.
Import Chunker.
Variable self : TextChunker.
Variable text : list A.
Variable sec : option string.
Hypothesis Hov : 0 <= overlap self.
Hypothesis Hmax : overlap self < max_chunk_size self.

Let step := max_chunk_size self - overlap self.
Let L := Py.len text.
Let m := Z.max (overlap self) 1.
Let n := chunk_count self text.

Lemma chunk_count_spec :
  0 < L ->
  1 <= n /\ L - n * step < m /\ forall j, 1 <= j < n -> m <= L - j * step.
Proof.
  intros HL. subst n. unfold chunk_count. fold L m step.
  rewrite (proj2 (Z.eqb_neq L 0)) by lia.
  destruct (Z.ltb_spec L m) as [Hlt|Hge].
  - repeat split; [lia| subst step; lia | intros; lia].
  - assert (Hs : 0 < step) by (subst step; lia).
    pose proof (Z.div_mod (L - m) step ltac:(lia)) as Hdm.
    pose proof (Z.mod_pos_bound (L - m) step Hs) as Hb.
    assert (0 <= (L - m) `div` step) by (apply Z.div_pos; lia).
    repeat split; [lia | nia | intros j Hj; nia].
Qed.

Lemma chunk_count_start k : 0 < L -> 0 <= k < n -> k * step < L.
Proof.
  intros HL Hk. destruct (chunk_count_spec HL) as (_ & _ & Hall).
  destruct (decide (k = 0)) as [->|]; [lia|].
  specialize (Hall k ltac:(lia)). subst m. lia.
Qed.

Lemma chunk_loop_windows fuel : forall k chunks,
  0 < L -> 0 <= k < n -> L - k * step < Z.of_nat fuel ->
  chunk_loop fuel self text sec chunks (k * step) k =
  Some (chunks ++ (window self text sec <$> seqZ k (n - k))).
Proof.
  induction fuel as [|fuel IH]; intros k chunks HL Hk Hfuel.
  { pose proof (chunk_count_start k HL Hk). lia. }
  pose proof (chunk_count_start k HL Hk) as Hstart.
  destruct (chunk_count_spec HL) as (Hn1 & Hlast & Hall).
  assert (Hs : 0 < step) by (subst step; lia).
  assert (Hms : max_chunk_size self = step + overlap self) by (subst step; lia).
  assert (Hk0 : 0 <= k * step) by nia.
  cbn [chunk_loop]. fold L step.
  rewrite (proj2 (Z.ltb_lt _ _) Hstart).
  rewrite (proj2 (Z.leb_gt _ _) Hs).
  rewrite (seqZ_cons k) by lia. rewrite fmap_cons.
  change (mkChunk (Py.slice text (k * step) (k * step + max_chunk_size self)) sec k)
    with (window self text sec k).
  replace (k * step + step) with ((k + 1) * step) by ring.
  replace (Z.pred (n - k)) with (n - (k + 1)) by lia.
  change (Z.succ k) with (k + 1).
  destruct (Z.ltb_spec ((k + 1) * step) L) as [Hin|Hout]; cycle 1.
  { (* the next start is past the end: the loop condition fails *)
    rewrite andb_false_r.
    assert (Hnk : n = k + 1).
    { destruct (decide (k + 1 < n)) as [Hlt|]; [|lia].
      specialize (Hall (k + 1) ltac:(lia)). subst m. lia. }
    rewrite Hnk, Z.sub_diag, seqZ_nil by lia.
    destruct fuel as [|fuel]; [lia|].
    cbn [chunk_loop]. fold L.
    by rewrite (proj2 (Z.ltb_ge _ _)) by lia. }
  rewrite andb_true_r.
  destruct (Z.ltb_spec (L - (k + 1) * step) (overlap self)) as [Htail|Hnotail].
  - (* the remainder is shorter than the overlap: it ends the last chunk *)
    assert (Hnk : n = k + 1).
    { destruct (decide (k + 1 < n)) as [Hlt|]; [|lia].
      specialize (Hall (k + 1) ltac:(lia)). subst m. lia. }
    rewrite Hnk, Z.sub_diag, seqZ_nil by lia. cbn [fmap list_fmap].
    unfold last_content. rewrite last_snoc. cbn [content window].
    fold step.
    rewrite slice_from_nonneg by lia.
    rewrite slice_to_all by (rewrite len_drop; fold L; lia).
    rewrite (slice_to_end text (k * step)) by (fold L; lia).
    rewrite endswith_true; cycle 1.
    { replace (Z.to_nat ((k + 1) * step))
        with (Z.to_nat (k * step) + Z.to_nat step)%nat by lia.
      rewrite <- drop_drop. apply suffix_drop. }
    rewrite len_drop. fold L.
    rewrite Z.gtb_ltb. by rewrite (proj2 (Z.ltb_ge _ _)) by lia.
  - (* enough text is left: the loop goes on with window k+1 *)
    assert (Hlt : k + 1 < n).
    { destruct (decide (k + 1 < n)); [done|].
      assert (L - (k + 1) * step <= L - n * step) by nia.
      subst m. lia. }
    rewrite IH by lia. by rewrite <- app_assoc.
Qed.

Lemma reassemble_cons (st : nat) (c : list A) cs :
  cs <> [] -> reassemble st (c :: cs) = take st c ++ reassemble st cs.
Proof. by destruct cs. Qed.

Lemma reassemble_windows (j : nat) : forall k,
  0 < L -> 0 <= k -> k + Z.of_nat (S j) = n ->
  reassemble (Z.to_nat step)
    (content <$> (window self text sec <$> seqZ k (Z.of_nat (S j)))) =
  drop (Z.to_nat (k * step)) text.
Proof.
  assert (Hs : 0 < step) by (subst step; lia).
  assert (Hms : max_chunk_size self = step + overlap self) by (subst step; lia).
  induction j as [|j IH]; intros k HL Hk Hn;
    destruct (chunk_count_spec HL) as (Hn1 & Hlast & Hall);
    assert (Hk0 : 0 <= k * step) by nia;
    rewrite seqZ_cons by lia; rewrite !fmap_cons; cbn [content window];
    fold step.
  - rewrite seqZ_nil by lia. cbn [fmap list_fmap reassemble].
    apply slice_to_end; [done|]. fold L.
    replace n with (k + 1) in Hlast by lia. subst m. lia.
  - assert (Hnext : (k + 1) * step < L)
      by (apply chunk_count_start; [done|lia]).
    replace (Z.pred (Z.of_nat (S (S j)))) with (Z.of_nat (S j)) by lia.
    rewrite reassemble_cons; cycle 1.
    { rewrite seqZ_cons by lia. by rewrite !fmap_cons. }
    change (Z.succ k) with (k + 1).
    rewrite IH by lia.
    rewrite slice_nonneg by lia. fold L. rewrite take_take.
    replace (Z.to_nat ((k + 1) * step))
      with (Z.to_nat (k * step) + Z.to_nat step)%nat by lia.
    rewrite <- drop_drop.
    rewrite Nat.min_l by lia. apply take_drop.
Qed.
End ChunkFacts.

(** The loop of [chunk_text] ends whenever [max_chunk_size] is positive:
  each round moves [start] forward by at least one character. *)
Lemma chunk_loop_terminates {A} `{EqDecision A} (self : Chunker.TextChunker)
  (text : list A) sec (fuel : nat) : forall chunks start idx,
0 < Chunker.max_chunk_size self ->
Z.max 0 (Py.len text - start) < Z.of_nat fuel ->
is_Some (Chunker.chunk_loop fuel self text sec chunks start idx).
Proof.
induction fuel as [|fuel IH]; intros chunks start idx Hmax Hfuel; [lia|].
cbn [Chunker.chunk_loop].
destruct (Z.ltb_spec start (Py.len text)) as [Hin|Hout]; [|by eexists].
destruct (Z.leb_spec (Chunker.max_chunk_size self - Chunker.overlap self) 0);
  (destruct (_ && _); [repeat case_match; by eexists | apply IH; lia]).
Qed.

Lemma chunk_text_terminates {A} `{EqDecision A} (self : Chunker.TextChunker)
  (text : list A) sec (fuel : nat) :
0 < Chunker.max_chunk_size self -> (length text < fuel)%nat ->
is_Some (Chunker.chunk_text fuel self text sec).
Proof.
intros Hmax Hfuel. unfold Chunker.chunk_text.
destruct text as [|c text]; [by eexists|].
apply chunk_loop_terminates; [done|]. unfold Py.len. lia.
Qed.

(** C1 (as the code has it).  For every text [T], section name and
  [max_size > overlap >= 0], with [step = max_size - overlap],
  [chunk_text] returns the windows [T[k*step : k*step + max_size]] for
  [k = 0 .. n-1], where window 0 is emitted for every non-empty text
  and window [k >= 1] exactly when at least [max(overlap, 1)]
  characters are left at its start; a shorter remainder already ends
  the previous chunk and gets no chunk of its own.  Concatenating the
  first [step] characters of every chunk but the last with the whole
  last chunk gives [T] back, and the chunk indices are [0 .. n-1]. *)
Theorem chunk_text_windows {A} `{EqDecision A} (self : Chunker.TextChunker)
  (text : list A) (sec : option string) (fuel : nat) :
0 <= Chunker.overlap self < Chunker.max_chunk_size self ->
(length text < fuel)%nat ->
let step := Chunker.max_chunk_size self - Chunker.overlap self in
let n := Chunker.chunk_count self text in
exists cs,
  Chunker.chunk_text fuel self text sec = Some cs /\
  cs = (Chunker.window self text sec <$> seqZ 0 n) /\
  (forall k, 0 <= k ->
     k < n <->
     text <> [] /\
     (k = 0 \/ Z.max (Chunker.overlap self) 1 <= Py.len text - k * step)) /\
  Chunker.reassemble (Z.to_nat step) (Chunker.content <$> cs) = text /\
  Chunker.chunk_index <$> cs = seqZ 0 (Py.len cs).
Proof.
intros [Hov Hmax] Hfuel step n.
exists (Chunker.window self text sec <$> seqZ 0 n).
destruct (decide (text = [])) as [->|Hne].
{ subst n. change (Chunker.chunk_count self []) with 0.
  split; [done|]. split; [done|]. split; [|done].
  intros k Hk. split; [intros; lia|]. by intros []. }
assert (HL : 0 < Py.len text) by (unfold Py.len; destruct text; cbn; [done|lia]).
destruct (chunk_count_spec self text Hmax HL) as (Hn1 & Hlast & Hall).
fold n step in Hn1, Hlast, Hall.
assert (Hs : 0 < step) by (subst step; lia).
split; [|split; [done|split; [|split]]].
- unfold Chunker.chunk_text.
  pose proof (chunk_loop_windows self text sec Hov Hmax fuel 0 []) as Hloop.
  cbn [app] in Hloop. rewrite Z.mul_0_l, !Z.sub_0_r in Hloop.
  destruct text as [|c text']; [done|].
  apply Hloop; [done| fold n; lia | unfold Py.len in *; lia].
- intros k Hk. split.
  + intros Hkn. split; [done|].
    destruct (decide (k = 0)); [by left|right]. apply Hall. lia.
  + intros [_ [->|Hrem]]; [lia|].
    destruct (decide (k < n)); [done|].
    assert (Py.len text - k * step <= Py.len text - n * step) by nia. lia.
- replace n with (Z.of_nat (S (Z.to_nat (n - 1)))) at 1 by lia.
  rewrite (reassemble_windows self text sec Hov Hmax) by (try fold n; lia).
  done.
- rewrite <- list_fmap_compose. unfold Py.len.
  rewrite length_fmap, length_seqZ, Z2Nat.id by lia.
  change (Chunker.chunk_index ∘ Chunker.window self text sec) with (@id Z).
  apply list_fmap_id.
Qed.

(** The 150-character instance of C1: two chunks, of 100 and 70
  characters, the second starting with the last 20 of the first. *)
Lemma chunk_text_windows_a150 :
let self := Chunker.mkTextChunker 100 20 in
let text := replicate 150 "a"%char in
(0 <= Chunker.overlap self < Chunker.max_chunk_size self) /\
(length text < 151)%nat /\
exists c0 c1,
  Chunker.chunk_text 151 self text None = Some [c0; c1] /\
  c0 = Chunker.mkChunk (replicate 100 "a"%char) None 0 /\
  c1 = Chunker.mkChunk (replicate 70 "a"%char) None 1 /\
  Py.slice_from (Chunker.content c0) 80 = Py.slice_to (Chunker.content c1) 20.
Proof.
intros self text.
assert (H1 : 0 <= Chunker.overlap self < Chunker.max_chunk_size self)
  by (cbn; lia).
assert (H2 : (length text < 151)%nat) by (vm_compute; lia).
split; [exact H1|split; [exact H2|]].
destruct (chunk_text_windows self text None 151 H1 H2)
  as (cs & Hrun & Hcs & _).
exists (Chunker.mkChunk (replicate 100 "a"%char) None 0),
       (Chunker.mkChunk (replicate 70 "a"%char) None 1).
rewrite Hrun, Hcs. vm_compute. repeat split; reflexivity.
Defined.

(** C1 as the specification words it fails: on "abc" with max_size 3 and
  overlap 2 the windows starting below [len(T)] are "abc", "bc" and
  "c", and [chunk_text] returns the first two only. *)
Lemma chunk_text_not_every_window :
let self := Chunker.mkTextChunker 3 2 in
let text := ["a"; "b"; "c"]%char in
0 <= Chunker.overlap self < Chunker.max_chunk_size self /\
Chunker.chunk_text 4 self text None =
  Some [Chunker.mkChunk ["a"; "b"; "c"]%char None 0;
        Chunker.mkChunk ["b"; "c"]%char None 1] /\
Chunker.spec_sliding_windows self text None =
  [Chunker.mkChunk ["a"; "b"; "c"]%char None 0;
   Chunker.mkChunk ["b"; "c"]%char None 1;
   Chunker.mkChunk ["c"]%char None 2] /\
Chunker.chunk_text 4 self text None <>
  Some (Chunker.spec_sliding_windows self text None).
Proof.
cbv zeta. split; [cbn; lia|]. split; [reflexivity|]. split; [reflexivity|].
vm_compute. discriminate.
Qed.

(** C7 fails on the code: with [max_chunk_size = 0] and [overlap = 0] the
  fallback [start = end] leaves [start] at 0, so on the text "a" the
  loop is still running after any number of rounds. *)
Theorem chunk_text_zero_size_diverges (fuel : nat) :
Chunker.chunk_text fuel (Chunker.mkTextChunker 0 0) ["a"%char] None = None.
Proof.
unfold Chunker.chunk_text.
generalize (@nil (Chunker.Chunk ascii)) as chunks. generalize 0 at 4 as idx.
induction fuel as [|fuel IH]; intros idx chunks; [done|].
cbn [Chunker.chunk_loop]. apply IH.
Qed.

(** ** get_sections_from_json *)

Section SectionFacts.
Variable strip_html : string -> string.
Variable py_repr : Json -> string.
Let get_sections := Chunker.get_sections_from_json strip_html py_repr.

Lemma str_field_present fields key s :
  PyVal.dict_lookup fields key = Some (JStr s) ->
  Chunker.str_field key (JObj fields) = Ok (Some s).
Proof.
  intros Hk. unfold Chunker.str_field. cbn. rewrite Hk.
  rewrite bool_decide_eq_true_2 by eauto. reflexivity.
Qed.

Lemma str_field_absent fields key :
  PyVal.dict_lookup fields key = None ->
  Chunker.str_field key (JObj fields) = Ok None.
Proof.
  intros Hk. unfold Chunker.str_field. cbn. rewrite Hk.
  rewrite bool_decide_eq_false_2 by (by intros [? ?]). reflexivity.
Qed.

Lemma dict_field_present fields key entries :
  PyVal.dict_lookup fields key = Some (JObj entries) ->
  Chunker.dict_field key (JObj fields) = Ok (Some entries).
Proof.
  intros Hk. unfold Chunker.dict_field. cbn. rewrite Hk.
  rewrite bool_decide_eq_true_2 by eauto. reflexivity.
Qed.

(** Rule 1 decides alone once [content] is a string. *)
Lemma get_sections_content fields content min_length :
  PyVal.dict_lookup fields "content" = Some (JStr content) ->
  get_sections (JObj fields) min_length =
  Ok (if Str.len content >=? min_length
      then [(PyVal.dict_get fields "title", JStr content)] else []).
Proof.
  intros Hc. subst get_sections. unfold Chunker.get_sections_from_json.
  rewrite (str_field_present _ _ _ Hc). reflexivity.
Qed.
End SectionFacts.

(** C8 (as the code has it).  The extraction rules apply in order and
    the first that matches decides: a mapping with a string [content] of
    length at least [min_length] and a [sections] mapping gives the one
    section [(title, content)]; a mapping without [content] whose
    [sections] mapping has three string entries, each of length at least
    [min_length], gives these three sections in iteration order; and the
    empty mapping gives no section when [min_length > 2]. *)
Theorem get_sections_priority (strip_html : string -> string)
    (py_repr : Json -> string) (min_length : Z) :
  (forall fields content entries,
     PyVal.dict_lookup fields "content" = Some (JStr content) ->
     PyVal.dict_lookup fields "sections" = Some (JObj entries) ->
     Str.len content >= min_length ->
     Chunker.get_sections_from_json strip_html py_repr (JObj fields) min_length =
     Ok [(PyVal.dict_get fields "title", JStr content)]) /\
  (forall fields k1 s1 k2 s2 k3 s3,
     PyVal.dict_lookup fields "content" = None ->
     PyVal.dict_lookup fields "sections" =
       Some (JObj [(k1, JStr s1); (k2, JStr s2); (k3, JStr s3)]) ->
     Str.len s1 >= min_length -> Str.len s2 >= min_length ->
     Str.len s3 >= min_length ->
     Chunker.get_sections_from_json strip_html py_repr (JObj fields) min_length =
     Ok [(JStr k1, JStr s1); (JStr k2, JStr s2); (JStr k3, JStr s3)]) /\
  (2 < min_length ->
   Chunker.get_sections_from_json strip_html py_repr (JObj []) min_length = Ok []).
Proof.
  split; [|split].
  - intros fields content entries Hc _ Hlen.
    rewrite (get_sections_content _ _ _ _ _ Hc).
    by rewrite geb_true by lia.
  - intros fields k1 s1 k2 s2 k3 s3 Hc Hs H1 H2 H3.
    unfold Chunker.get_sections_from_json.
    rewrite (str_field_absent _ _ Hc). cbn [mbind result_bind].
    rewrite (dict_field_present _ _ _ Hs). cbn [mbind result_bind].
    cbn [mbind list_bind Chunker.section_entry fst snd app].
    rewrite !geb_true by lia. reflexivity.
  - intros Hmin. unfold Chunker.get_sections_from_json. cbn.
    change (Str.len ("{" +:+ "" +:+ "}")) with 2.
    by rewrite geb_false by lia.
Qed.

(** C8 on three documents: content next to sections, sections alone, and
    the empty mapping with the default [min_length] of 50. *)
Lemma get_sections_priority_docs :
  let both :=
    [("title", JStr "T"); ("content", JStr "0123456789");
     ("sections", JObj [("Item 1", JStr "abcdefghijkl")])] in
  let only_sections :=
    [("form_type", JStr "10-K");
     ("sections", JObj [("Item 1", JStr "abc"); ("Item 1A", JStr "defg");
                        ("Item 7", JStr "hijkl")])] in
  let gs := Chunker.get_sections_from_json (fun s => s) (fun _ => "") in
  (Str.len "0123456789" >= 10 /\
   gs (JObj both) 10 = Ok [(JStr "T", JStr "0123456789")]) /\
  (Str.len "abc" >= 3 /\ Str.len "defg" >= 3 /\ Str.len "hijkl" >= 3 /\
   gs (JObj only_sections) 3 =
   Ok [(JStr "Item 1", JStr "abc"); (JStr "Item 1A", JStr "defg");
       (JStr "Item 7", JStr "hijkl")]) /\
  (2 < 50 /\ gs (JObj []) 50 = Ok []).
Proof.
  intros both only_sections gs.
  destruct (get_sections_priority (fun s => s) (fun _ => "") 10) as (Ha & _ & _).
  destruct (get_sections_priority (fun s => s) (fun _ => "") 3) as (_ & Hb & _).
  destruct (get_sections_priority (fun s => s) (fun _ => "") 50) as (_ & _ & Hc).
  split; [|split].
  - split; [vm_compute; discriminate|].
    apply (Ha both "0123456789" [("Item 1", JStr "abcdefghijkl")]);
      [reflexivity | reflexivity | vm_compute; discriminate].
  - split; [vm_compute; discriminate|].
    split; [vm_compute; discriminate|].
    split; [vm_compute; discriminate|].
    apply (Hb only_sections "Item 1" "abc" "Item 1A" "defg" "Item 7" "hijkl");
      [reflexivity | reflexivity | vm_compute; discriminate ..].
  - split; [lia|]. apply Hc. lia.
Defined.

(** C8 as worded fails for a small [min_length]: with [min_length = 2]
    (or less) the final fallback turns the empty mapping into the one
    section [("full_document_content", "{}")]. *)
Lemma get_sections_empty_mapping_min2 :
  Chunker.get_sections_from_json (fun s => s) (fun _ => "") (JObj []) 2 =
    Ok [(JStr "full_document_content", JStr "{}")] /\
  Chunker.get_sections_from_json (fun s => s) (fun _ => "") (JObj []) 2 <> Ok [].
Proof. split; [reflexivity|]. vm_compute. discriminate. Qed.

(** C10.  A mapping whose [content] is a string shorter than
    [min_length] gives the empty sequence at once, whatever its other
    fields hold. *)
Theorem get_sections_short_content (strip_html : string -> string)
    (py_repr : Json -> string) fields content (min_length : Z) :
  PyVal.dict_lookup fields "content" = Some (JStr content) ->
  Str.len content < min_length ->
  Chunker.get_sections_from_json strip_html py_repr (JObj fields) min_length =
  Ok [].
Proof.
  intros Hc Hlen. rewrite (get_sections_content _ _ _ _ _ Hc).
  by rewrite geb_false by lia.
Qed.

(** C10 on a document whose [sections] entry alone would have been
    extracted. *)
Lemma get_sections_short_content_doc :
  let sections := ("sections", JObj [("Item 1", JStr "0123456789")]) in
  let gs := Chunker.get_sections_from_json (fun s => s) (fun _ => "") in
  PyVal.dict_lookup [("content", JStr "short"); sections] "content" =
    Some (JStr "short") /\
  Str.len "short" < 10 /\
  gs (JObj [("content", JStr "short"); sections]) 10 = Ok [] /\
  gs (JObj [sections]) 10 = Ok [(JStr "Item 1", JStr "0123456789")].
Proof.
  intros sections gs.
  split; [reflexivity|]. split; [vm_compute; reflexivity|].
  split; [|reflexivity].
  apply (get_sections_short_content (fun s => s) (fun _ => "")
           [("content", JStr "short"); sections] "short" 10);
    [reflexivity | vm_compute; reflexivity].
Defined.

(** ** Paths and the file system *)

Lemma rev_app_length s1 s2 :
  String.length (String.rev_app s1 s2) = (String.length s1 + String.length s2)%nat.
Proof.
  revert s2. induction s1 as [|c s1 IH]; intros s2; cbn; [done|].
  rewrite IH. cbn. lia.
Qed.

Lemma rev_length s : String.length (String.rev s) = String.length s.
Proof. unfold String.rev. rewrite rev_app_length. cbn. lia. Qed.

Lemma span_to_slash_length s :
  (String.length (Path.span_to_slash s).1 +
   String.length (Path.span_to_slash s).2 = String.length s)%nat.
Proof.
  induction s as [|c s IH]; cbn; [done|].
  destruct (Ascii.eqb c Path.slash); cbn; [done|].
  destruct (Path.span_to_slash s) as [a b]. cbn in *. lia.
Qed.

Lemma span_to_slash_nil s :
  (Path.span_to_slash s).1 = "" ->
  (Path.span_to_slash s).2 = s /\
  (s = "" \/ exists s', s = String Path.slash s').
Proof.
  destruct s as [|c s]; cbn; [by auto|].
  destruct (Ascii.eqb_spec c Path.slash) as [->|]; cbn; [by eauto|].
  by destruct (Path.span_to_slash s).
Qed.

Lemma lstrip_slashes_length s :
  (String.length (Path.lstrip_slashes s) <= String.length s)%nat.
Proof.
  induction s as [|c s IH]; cbn; [done|].
  destruct (Ascii.eqb c Path.slash); cbn; lia.
Qed.

Lemma all_slashes_rev_app s1 s2 :
  Path.all_slashes (String.rev_app s1 s2) =
  Path.all_slashes s1 && Path.all_slashes s2.
Proof.
  revert s2. induction s1 as [|c s1 IH]; intros s2; cbn; [done|].
  rewrite IH. cbn. by destruct (Ascii.eqb c Path.slash), (Path.all_slashes s1).
Qed.

Lemma all_slashes_rev s : Path.all_slashes (String.rev s) = Path.all_slashes s.
Proof. unfold String.rev. rewrite all_slashes_rev_app. cbn. by rewrite andb_true_r. Qed.

Lemma all_slashes_span s :
  Path.all_slashes s = false -> (Path.span_to_slash s).2 = s ->
  exists s', s = String Path.slash s' /\ Path.all_slashes s' = false.
Proof.
  destruct s as [|c s]; cbn; [done|].
  destruct (Ascii.eqb_spec c Path.slash) as [->|]; cbn; [by eauto|].
  destruct (Path.span_to_slash s) as [a b] eqn:Hspan. cbn.
  intros _ Hb. pose proof (span_to_slash_length s) as Hlen.
  rewrite Hspan in Hlen. cbn in Hlen. rewrite Hb in Hlen. cbn in Hlen. lia.
Qed.

Lemma rev_app_rev_app s1 s2 s3 :
  String.rev_app (String.rev_app s1 s2) s3 = String.rev_app s2 (s1 +:+ s3).
Proof.
  revert s2. induction s1 as [|c s1 IH]; intros s2; [done|].
  cbn [String.rev_app]. by rewrite IH.
Qed.

Lemma string_app_nil_r s : s +:+ "" = s.
Proof. induction s as [|c s IH]; [done|]. cbn. unfold String.app in *. by rewrite IH. Qed.

Lemma rev_involutive s : String.rev (String.rev s) = s.
Proof.
  unfold String.rev. rewrite rev_app_rev_app. cbn. apply string_app_nil_r.
Qed.

(** [dirname] of a path that is not made of slashes is strictly shorter. *)
Lemma dirname_shorter p :
  Path.all_slashes p = false ->
  (String.length (Path.dirname p) < String.length p)%nat.
Proof.
  intros Hp. unfold Path.dirname.
  pose proof (span_to_slash_length (String.rev p)) as Hlen.
  rewrite rev_length in Hlen.
  destruct (Path.span_to_slash (String.rev p)) as [tail rhead] eqn:Hspan.
  cbn [fst snd] in *.
  rewrite rev_involutive.
  assert (Hle : (String.length
            (if Path.all_slashes (String.rev rhead) then String.rev rhead
             else String.rev (Path.lstrip_slashes rhead))
          <= String.length rhead)%nat).
  { destruct (Path.all_slashes (String.rev rhead)); rewrite rev_length; [done|].
    apply lstrip_slashes_length. }
  destruct tail as [|c tail]; [|cbn in Hlen; lia].
  destruct (span_to_slash_nil (String.rev p)) as [Hwhole _];
    [by rewrite Hspan|].
  rewrite Hspan in Hwhole. cbn in Hwhole. subst rhead.
  assert (Hrp : Path.all_slashes (String.rev p) = false)
    by by rewrite all_slashes_rev.
  destruct (all_slashes_span _ Hrp) as (r & Hr & Hrs); [by rewrite Hspan|].
  rewrite rev_involutive, Hp, Hr. cbn [Path.lstrip_slashes].
  rewrite Ascii.eqb_refl, rev_length.
  pose proof (lstrip_slashes_length r) as Hs.
  pose proof (rev_length p) as Hrl. rewrite Hr in Hrl. cbn in Hrl. lia.
Qed.

Lemma ancestors_shorter fuel : forall p q,
  q ∈ FS.ancestors fuel p -> (String.length q <= String.length p)%nat.
Proof.
  induction fuel as [|fuel IH]; intros p q; cbn; [by intros ?%elem_of_nil|].
  destruct (Path.all_slashes p) eqn:Hp; [by intros ?%elem_of_nil|].
  intros [->|Hq]%elem_of_cons; [done|].
  apply IH in Hq. pose proof (dirname_shorter p Hp). lia.
Qed.

Lemma mkdir_each_app l1 l2 fs :
  FS.mkdir_each (l1 ++ l2) fs =
  match FS.mkdir_each l1 fs with
  | (Some fs1, _) => FS.mkdir_each l2 fs1
  | (None, fs1) => (None, fs1)
  end.
Proof.
  revert fs. induction l1 as [|q l1 IH]; intros fs; cbn; [done|].
  destruct (FS.is_dir fs q); [apply IH|].
  destruct (_ || _); [done|apply IH].
Qed.

Lemma mkdir_each_some l : forall fs fs1 fs2,
  FS.mkdir_each l fs = (Some fs1, fs2) -> fs1 = fs2.
Proof.
  induction l as [|q l IH]; intros fs fs1 fs2; cbn; [congruence|].
  destruct (FS.is_dir fs q); [apply IH|].
  destruct (_ || _); [done|apply IH].
Qed.

(** Creating directories adds nothing but the listed ones, and leaves
    the files and the refusals alone. *)
Lemma mkdir_each_frame l : forall fs r fs',
  FS.mkdir_each l fs = (r, fs') ->
  FS.files fs' = FS.files fs /\ FS.denied fs' = FS.denied fs /\
  forall q, q ∈ FS.dirs fs' -> q ∈ FS.dirs fs \/ q ∈ l.
Proof.
  induction l as [|q0 l IH]; intros fs r fs'; cbn.
  - intros [= _ <-]. auto.
  - destruct (FS.is_dir fs q0).
    { intros (? & ? & Hd)%IH. split; [done|split; [done|]].
      intros q Hq. destruct (Hd q Hq); [by left|right; by apply elem_of_cons; right]. }
    destruct (_ || _).
    { intros [= _ <-]. auto. }
    intros (? & ? & Hd)%IH. split; [done|split; [done|]].
    intros q Hq. destruct (Hd q Hq) as [Hin|Hin].
    + cbn in Hin. apply elem_of_union in Hin as [->%elem_of_singleton|Hin];
        [right; by apply elem_of_cons; left | by left].
    + right. by apply elem_of_cons; right.
Qed.

(** A refused [os.makedirs(p)] leaves no [p] behind. *)
Lemma makedirs_refused p fs fs' :
  FS.exists_ fs p = false ->
  FS.makedirs false p fs = (None, fs') ->
  FS.exists_ fs' p = false.
Proof.
  intros Hex. unfold FS.makedirs.
  destruct (Str.truthy p) eqn:Hne; cbn [negb]; [|by intros [= <-]].
  pose proof Hex as Hex'. unfold FS.exists_ in Hex'.
  apply orb_false_iff in Hex' as [Hdir Hfile]. rewrite Hdir, Hfile.
  unfold FS.is_dir in Hdir. apply orb_false_iff in Hdir as [Hroot Hdirs].
  assert (Hp : Path.all_slashes p = false).
  { unfold FS.is_root in Hroot. by rewrite Hne in Hroot. }
  destruct (String.length p) as [|n] eqn:Hn; [by destruct p|].
  cbn [FS.ancestors]. rewrite Hp, reverse_cons, mkdir_each_app.
  destruct (FS.mkdir_each (reverse (FS.ancestors n (Path.dirname p))) fs)
    as [r1 fs1] eqn:H1.
  destruct (mkdir_each_frame _ _ _ _ H1) as (Hf & Hd & Hdirs').
  assert (Hp1 : FS.exists_ fs1 p = false).
  { unfold FS.exists_, FS.is_dir, FS.is_file in *. rewrite Hf, Hroot.
    cbn [orb]. apply orb_false_iff. split; [|done].
    apply bool_decide_eq_false. intros [Hin|Hin]%Hdirs'.
    - by apply bool_decide_eq_false in Hdirs.
    - apply elem_of_reverse, ancestors_shorter in Hin.
      pose proof (dirname_shorter p Hp). lia. }
  destruct r1 as [fs1'|]; [|by intros [= <-]].
  apply mkdir_each_some in H1 as ->.
  cbn [FS.mkdir_each].
  destruct (FS.is_dir fs1 p); [by intros [=]|].
  destruct (_ || _); [by intros [= <-]|by intros [=]].
Qed.

(** ** CacheManager *)

(** C6.  A cache manager constructed with [enabled=False] leaves the
    world as it is; one whose directory is missing and cannot be created
    comes out disabled, with no directory at [cache_dir]; and on a
    disabled manager [is_cached] answers [False] for every key and
    [mark_cached] does nothing, for every key and metadata. *)
Theorem cache_disabled_bypass :
  (forall cache_dir w,
     Cache.init cache_dir false w = (Ok (Cache.mkCacheManager cache_dir false), w)) /\
  (forall cache_dir w,
     FS.exists_ (fs w) cache_dir = false ->
     (FS.makedirs false cache_dir (fs w)).1 = None ->
     exists w',
       Cache.init cache_dir true w =
         (Ok (Cache.mkCacheManager cache_dir false), w') /\
       FS.exists_ (fs w') cache_dir = false) /\
  (forall self content_hash metadata w,
     Cache.enabled self = false ->
     Cache.is_cached self content_hash w = (Ok false, w) /\
     Cache.mark_cached self content_hash metadata w = (Ok tt, w)).
Proof.
  split; [|split].
  - intros cache_dir w. reflexivity.
  - intros cache_dir w Hex Hfail.
    unfold Cache.init, mbind, M_bind, Eff.get_fs. cbn [andb]. rewrite Hex. cbn [negb].
    unfold Eff.try, Eff.makedirs.
    destruct (FS.makedirs false cache_dir (fs w)) as [r fs'] eqn:Hmk.
    cbn in Hfail. subst r. cbn.
    eexists. split; [reflexivity|]. cbn.
    by apply (makedirs_refused cache_dir (fs w)).
  - intros self content_hash metadata w Hoff.
    unfold Cache.is_cached, Cache.mark_cached. rewrite Hoff. by split.
Qed.

(** C6 on an empty file system, once with [enabled=False] and once with
    a [.cache] directory that may not be created. *)
Lemma cache_disabled_bypass_worlds :
  let w := mkWorld (FS.mk ∅ ∅ ∅) [] [] [] in
  let wd := mkWorld (FS.mk ∅ ∅ {[".cache"]}) [] [] [] in
  let off := Cache.mkCacheManager ".cache" false in
  Cache.init ".cache" false w = (Ok off, w) /\
  (FS.exists_ (fs wd) ".cache" = false /\
   (FS.makedirs false ".cache" (fs wd)).1 = None /\
   exists w',
     Cache.init ".cache" true wd = (Ok off, w') /\
     FS.exists_ (fs w') ".cache" = false) /\
  (Cache.enabled off = false /\
   Cache.is_cached off "k" w = (Ok false, w) /\
   Cache.mark_cached off "k" None w = (Ok tt, w)).
Proof.
  intros w wd off.
  destruct cache_disabled_bypass as (H1 & H2 & H3).
  assert (Hex : FS.exists_ (fs wd) ".cache" = false) by (vm_compute; reflexivity).
  assert (Hfail : (FS.makedirs false ".cache" (fs wd)).1 = None)
    by (vm_compute; reflexivity).
  split; [apply H1|]. split.
  - split; [exact Hex|]. split; [exact Hfail|]. exact (H2 ".cache" wd Hex Hfail).
  - split; [reflexivity|]. exact (H3 off "k" None w eq_refl).
Defined.

(** ** LLMSummarizer *)

Lemma get_prompt_template_ok self mode filing_type w pt w' :
  Summarization.get_prompt_template self mode filing_type w = (Ok pt, w') ->
  exists records, Eff.only_logs w w' records /\ Forall (fun r => r.1 = WARNING) records.
Proof.
  unfold Summarization.get_prompt_template.
  assert (Hdefault : forall w0 w0',
    match Summarization.prompts self !! "default" ≫= (.!! mode) with
    | Some (Some default_template) => mret default_template
    | _ =>
      Eff.error "No suitable prompt template found";;
      Eff.raise (ValueError (Summarization.missing_template_message mode filing_type))
    end w0 = (Ok pt, w0') -> w0' = w0).
  { intros w0 w0'. destruct (_ ≫= _) as [[?|]|]; cbn; by intros [=]. }
  destruct (Summarization.prompts self !! filing_type ≫= _) as [[pt0|]|].
  - intros [= <- <-]. exists []. repeat split; [by rewrite app_nil_r|done].
  - unfold mbind at 1, M_bind. cbn -[mbind mret].
    intros ->%Hdefault. eexists. split; [by repeat split|].
    by repeat constructor.
  - intros ->%Hdefault. exists []. repeat split; [by rewrite app_nil_r|done].
Qed.

Lemma prepare_kwargs_ok pt kwargs w :
  exists kwargs' w' records,
    Summarization.prepare_kwargs pt kwargs w = (Ok kwargs', w') /\
    Eff.only_logs w w' records /\ Forall (fun r => r.1 = WARNING) records.
Proof.
  unfold Summarization.prepare_kwargs.
  destruct (filter _ _) as [|v missing].
  - eexists _, w, []. split; [reflexivity|].
    split; [|done]. by repeat split; rewrite ?app_nil_r.
  - eexists _, _, _. split; [reflexivity|]. split; [by repeat split|].
    by repeat constructor.
Qed.

Section AllCallsFail.
Variable llm : nat -> Kwargs -> result string.
Hypothesis Hfail : forall n kwargs, exists e, llm n kwargs = Raise e.
Variable self : Summarization.LLMSummarizer.
Variable pt : Summarization.PromptTemplate.
Variable kwargs : Kwargs.

(** A pass fails: with the exception of the one [chain.run] it makes,
    or before any call when the content handed over has no length. *)
Lemma attempt_fails w :
  exists e w' records,
    Summarization.attempt llm pt kwargs w = (Raise e, w') /\
    fs w' = fs w /\ sleeps w' = sleeps w /\
    log w' = log w ++ records /\ Forall (fun r => r = (ERROR, "Error formatting prompt for logging")) records /\
    match PyVal.len (Summarization.content_to_log kwargs) with
    | Ok _ =>
      llm_calls w' = llm_calls w ++ [kwargs] /\
      llm (length (llm_calls w)) kwargs = Raise e
    | Raise e' => llm_calls w' = llm_calls w /\ e = e'
    end.
Proof.
  destruct w as [fs0 calls sl lg].
  unfold Summarization.attempt, mbind, M_bind, Eff.lift.
  destruct (PyVal.len _) as [n|e].
  - destruct (Hfail (length calls) kwargs) as [e He].
    destruct (Summarization.format pt kwargs); cbn; rewrite He.
    + eexists e, _, []. cbn. split; [reflexivity|]. cbn.
      rewrite app_nil_r. by repeat split.
    + eexists e, _, [(ERROR, "Error formatting prompt for logging")]. cbn.
      split; [reflexivity|]. cbn. repeat split. by repeat constructor.
  - eexists e, _, []. cbn. split; [reflexivity|]. cbn.
    rewrite app_nil_r. by repeat split.
Qed.

Lemma failed_attempts_log w w' records :
  log w' = log w ++ records ->
  Summarization.failed_attempts w' =
  (Summarization.failed_attempts w + length (filter (fun r => r = (ERROR, "LLM API call failed")) records))%nat.
Proof.
  intros Hlog. unfold Summarization.failed_attempts.
  by rewrite Hlog, filter_app, length_app.
Qed.

Lemma no_failed_in_formatting records :
  Forall (fun r => r = (ERROR, "Error formatting prompt for logging")) records ->
  filter (fun r => r = (ERROR, "LLM API call failed")) records = [].
Proof.
  induction 1 as [|r records -> _ IH]; [done|].
  rewrite filter_cons_False by done. exact IH.
Qed.

(** One failed pass of the retry loop. *)
Lemma retry_loop_failed_pass left retries w e w1 :
  Summarization.attempt llm pt kwargs w = (Raise e, w1) ->
  Summarization.retry_loop llm (S left) self pt kwargs retries w =
  if retries + 1 >? Summarization.max_retries self then
    (Ok (Summarization.failure_message self e),
     mkWorld (fs w1) (llm_calls w1) (sleeps w1)
       (log w1 ++ [(ERROR, "LLM API call failed")] ++
        [(ERROR, "Max retries reached. Failed to get summary.")]))
  else
    Summarization.retry_loop llm left self pt kwargs (retries + 1)
      (mkWorld (fs w1) (llm_calls w1) (sleeps w1 ++ [2 ^ (retries + 1)])
         (log w1 ++ [(ERROR, "LLM API call failed")])).
Proof.
  intros Hrun. cbn [Summarization.retry_loop].
  unfold mbind at 1, M_bind at 1, Eff.try. rewrite Hrun.
  unfold mbind at 1, M_bind at 1, Eff.error, Eff.logging.
  destruct (retries + 1 >? Summarization.max_retries self).
  - unfold mbind, M_bind, mret, M_ret. cbn [fs llm_calls sleeps log].
    by rewrite <- app_assoc.
  - unfold mbind at 1, M_bind at 1, Eff.sleep. reflexivity.
Qed.

(** The retry loop when every pass fails: it runs all the passes the
    condition allows, each with its one call on the same arguments,
    sleeps [2^retries] between two passes, and returns the error text
    of the last exception. *)
Lemma retry_loop_all_fail (left : nat) : forall retries w,
  0 <= retries ->
  Z.of_nat (S left) = Summarization.max_retries self - retries + 1 ->
  exists e w',
    Summarization.retry_loop llm (S left) self pt kwargs retries w =
      (Ok (Summarization.failure_message self e), w') /\
    fs w' = fs w /\
    sleeps w' = sleeps w ++ ((fun k => 2 ^ k) <$> seqZ (retries + 1) (Z.of_nat left)) /\
    Summarization.failed_attempts w' =
      (Summarization.failed_attempts w + S left)%nat /\
    match PyVal.len (Summarization.content_to_log kwargs) with
    | Ok _ =>
      llm_calls w' = llm_calls w ++ replicate (S left) kwargs /\
      llm (length (llm_calls w) + left)%nat kwargs = Raise e
    | Raise e' => llm_calls w' = llm_calls w /\ e = e'
    end.
Proof.
  induction left as [|left IH]; intros retries w Hr Hleft;
    destruct (attempt_fails w)
      as (e & w1 & records & Hrun & Hfs & Hsl & Hlog & Hrec & Hcalls);
    rewrite (retry_loop_failed_pass _ _ _ _ _ Hrun).
  - rewrite (proj2 (Z.gtb_lt _ _)) by lia.
    eexists e, _. split; [reflexivity|]. cbn [fs llm_calls sleeps log].
    split; [done|]. split; [by rewrite Hsl, app_nil_r|]. split.
    + unfold Summarization.failed_attempts. cbn [log]. rewrite Hlog.
      rewrite !filter_app, !length_app, (no_failed_in_formatting _ Hrec).
      rewrite filter_cons_True, filter_cons_False, !filter_nil by done.
      cbn. lia.
    + destruct (PyVal.len _); [|done].
      destruct Hcalls as [-> He]. by rewrite Nat.add_0_r.
  - assert (Hgt : (retries + 1 >? Summarization.max_retries self) = false).
    { rewrite Z.gtb_ltb. apply Z.ltb_ge. lia. }
    rewrite Hgt.
    edestruct (IH (retries + 1)) as (e' & w' & Hrun' & Hfs' & Hsl' & Hatt' & Hcalls');
      [lia|lia|].
    rewrite Hrun'. eexists e', w'. split; [reflexivity|].
    cbn [fs llm_calls sleeps log] in Hfs', Hsl', Hcalls'.
    split; [congruence|]. split.
    + rewrite Hsl', Hsl. rewrite (seqZ_cons (retries + 1)) by lia.
      replace (Z.succ (retries + 1)) with (retries + 1 + 1) by lia.
      replace (Z.pred (Z.of_nat (S left))) with (Z.of_nat left) by lia.
      by rewrite fmap_cons, <- app_assoc.
    + split.
      * rewrite Hatt'. unfold Summarization.failed_attempts. cbn [log]. rewrite Hlog.
        rewrite !filter_app, !length_app, (no_failed_in_formatting _ Hrec).
        rewrite filter_cons_True, !filter_nil by done.
        cbn. lia.
      * destruct (PyVal.len _) as [n|e0].
        -- destruct Hcalls as [Hcalls _], Hcalls' as [Hcalls' He'].
           rewrite Hcalls', Hcalls, <- app_assoc. split; [done|].
           rewrite Hcalls, length_app in He'. cbn [length] in He'.
           by replace (length (llm_calls w) + S left)%nat
             with (length (llm_calls w) + 1 + left)%nat by lia.
        -- destruct Hcalls as [Hcalls _], Hcalls' as [Hcalls' He'].
           split; [congruence|done].
Qed.
End AllCallsFail.

Lemma no_failed_in_warnings (records : list (Level * string)) :
  Forall (fun r => r.1 = WARNING) records ->
  filter (fun r => r = (ERROR, "LLM API call failed")) records = [].
Proof.
  induction 1 as [|r records Hr _ IH]; [done|].
  rewrite filter_cons_False; [exact IH|]. intros ->. done.
Qed.

(** C2.  When every LLM call raises and the mode and filing type resolve
    to a template, [summarize] with [max_retries >= 0] goes through
    exactly [max_retries + 1] failing passes of its retry loop, sleeps
    [2^1, ..., 2^max_retries] seconds between them, and returns, without
    raising, the text "Error: Failed to generate summary after ..." of
    the last exception.  When the content handed over has a length, each
    pass makes its one LLM call, with the arguments that the preparation
    produced: [max_retries + 1] calls in all, and the last exception is
    that of the last call.  When it has none, every pass fails on
    measuring it, before the call: no LLM call is made at all. *)
Theorem summarize_all_calls_fail (llm : nat -> Kwargs -> result string)
    (self : Summarization.LLMSummarizer) (mode filing_type : string)
    (kwargs : Kwargs) (w : World) pt w1 kwargs' w2 :
  0 <= Summarization.max_retries self ->
  (forall n kw, exists e, llm n kw = Raise e) ->
  Summarization.get_prompt_template self mode filing_type w = (Ok pt, w1) ->
  Summarization.prepare_kwargs pt kwargs w1 = (Ok kwargs', w2) ->
  exists e w',
    Summarization.summarize llm self mode filing_type kwargs w =
      (Ok (Summarization.failure_message self e), w') /\
    String.prefix "Error:" (Summarization.failure_message self e) = true /\
    Summarization.failed_attempts w' =
      (Summarization.failed_attempts w +
       Z.to_nat (Summarization.max_retries self + 1))%nat /\
    sleeps w' =
      sleeps w ++ ((fun k => 2 ^ k) <$> seqZ 1 (Summarization.max_retries self)) /\
    match PyVal.len (Summarization.content_to_log kwargs') with
    | Ok _ =>
      llm_calls w' =
        llm_calls w ++
        replicate (Z.to_nat (Summarization.max_retries self + 1)) kwargs' /\
      llm (length (llm_calls w) + Z.to_nat (Summarization.max_retries self))%nat
        kwargs' = Raise e
    | Raise e' => llm_calls w' = llm_calls w /\ e = e'
    end /\
    fs w' = fs w.
Proof.
  intros Hmax Hfail Hpt Hprep.
  destruct (get_prompt_template_ok _ _ _ _ _ _ Hpt)
    as (rec1 & (Hfs1 & Hcalls1 & Hsl1 & Hlog1) & Hwarn1).
  destruct (prepare_kwargs_ok pt kwargs w1)
    as (kwargs'' & w2' & rec2 & Hprep' & (Hfs2 & Hcalls2 & Hsl2 & Hlog2) & Hwarn2).
  rewrite Hprep in Hprep'. injection Hprep' as <- <-.
  assert (Hleft : exists left,
    Z.to_nat (Summarization.max_retries self + 1) = S left /\
    Z.of_nat left = Summarization.max_retries self).
  { exists (Z.to_nat (Summarization.max_retries self)). lia. }
  destruct Hleft as (left & Hleft & Hleft').
  destruct (retry_loop_all_fail llm Hfail self pt kwargs' left 0 w2)
    as (e & w' & Hrun & Hfs & Hsl & Hatt & Hcalls); [lia|lia|].
  exists e, w'.
  split.
  { unfold Summarization.summarize.
    unfold mbind at 1, M_bind at 1. rewrite Hpt.
    unfold mbind at 1, M_bind at 1. rewrite Hprep.
    rewrite Hleft. exact Hrun. }
  split; [reflexivity|]. split.
  { rewrite Hatt, Hleft. f_equal. unfold Summarization.failed_attempts.
    rewrite Hlog2, Hlog1, !filter_app, !length_app.
    rewrite (no_failed_in_warnings _ Hwarn1), (no_failed_in_warnings _ Hwarn2).
    cbn. lia. }
  split; [rewrite Hsl, Hsl2, Hsl1, Hleft'; do 3 f_equal |].
  split; [|congruence].
  rewrite Hleft. replace (Z.to_nat (Summarization.max_retries self)) with left by lia.
  destruct (PyVal.len _); rewrite Hcalls2, Hcalls1 in Hcalls; exact Hcalls.
Qed.

(** C2 with [max_retries = 2], a default template for mode "file" and an
    LLM that is down: three passes, sleeps of 2 and 4 seconds, three
    calls, and the error text. *)
Lemma summarize_all_calls_fail_retries2 :
  let llm : nat -> Kwargs -> result string := fun _ _ => Raise (LLMError "down") in
  let pt := Summarization.mkPromptTemplate ["content"] (fun _ => Some "") in
  let self :=
    Summarization.mkLLMSummarizer {["default" := {["file" := Some pt]}]} 2 "m" in
  let w := mkWorld (FS.mk ∅ ∅ ∅) [] [] [] in
  let kwargs := [("content", JStr "text")] in
  0 <= Summarization.max_retries self /\
  (forall n kw, exists e, llm n kw = Raise e) /\
  Summarization.get_prompt_template self "file" "10-K" w = (Ok pt, w) /\
  Summarization.prepare_kwargs pt kwargs w = (Ok kwargs, w) /\
  exists w',
    Summarization.summarize llm self "file" "10-K" kwargs w =
      (Ok "Error: Failed to generate summary after 3 attempts. Last error: down", w') /\
    Summarization.failed_attempts w' = 3%nat /\
    sleeps w' = [2; 4] /\
    llm_calls w' = [kwargs; kwargs; kwargs].
Proof.
  intros llm pt self w kwargs.
  assert (H1 : 0 <= Summarization.max_retries self) by (cbn; lia).
  assert (H2 : forall n kw, exists e, llm n kw = Raise e) by (intros; by eexists).
  assert (H3 : Summarization.get_prompt_template self "file" "10-K" w = (Ok pt, w))
    by reflexivity.
  assert (H4 : Summarization.prepare_kwargs pt kwargs w = (Ok kwargs, w))
    by reflexivity.
  split; [exact H1|]. split; [exact H2|]. split; [exact H3|]. split; [exact H4|].
  destruct (summarize_all_calls_fail llm self "file" "10-K" kwargs w pt w kwargs w
              H1 H2 H3 H4)
    as (e & w' & Hrun & _ & Hatt & Hsl & Hcalls & _).
  exists w'. cbn in Hcalls. destruct Hcalls as [Hcalls He].
  injection He as <-.
  split; [exact Hrun|]. split; [exact Hatt|]. split; [exact Hsl|exact Hcalls].
Defined.

(** With a negative [max_retries] the loop body never runs and the
    empty text is returned. *)
Lemma summarize_negative_retries (llm : nat -> Kwargs -> result string)
    (self : Summarization.LLMSummarizer) pt kwargs retries w :
  Summarization.max_retries self < 0 ->
  Summarization.retry_loop llm
    (Z.to_nat (Summarization.max_retries self + 1)) self pt kwargs retries w =
  (Ok "", w).
Proof. intros Hneg. by replace (Z.to_nat _) with 0%nat by lia. Qed.

(** With [max_retries = -1] (the command line takes any integer for
    [--retries]) the loop body never runs: no call is made and the
    empty text comes back, without the marker. *)
Lemma summarize_negative_retries_no_marker :
  let llm : nat -> Kwargs -> result string := fun _ _ => Raise (LLMError "down") in
  let pt := Summarization.mkPromptTemplate ["content"] (fun _ => Some "") in
  let self :=
    Summarization.mkLLMSummarizer {["default" := {["file" := Some pt]}]} (-1) "m" in
  let w := mkWorld (FS.mk ∅ ∅ ∅) [] [] [] in
  (forall n kw, exists e, llm n kw = Raise e) /\
  Summarization.get_prompt_template self "file" "10-K" w = (Ok pt, w) /\
  Summarization.summarize llm self "file" "10-K" [("content", JStr "text")] w =
    (Ok "", w) /\
  String.prefix "Error:" "" = false.
Proof.
  intros llm pt self w. split; [intros; by eexists|]. by repeat split.
Qed.

(** ** Running stateful code *)

Lemma bind_ok {A B} (m : M A) (k : A -> M B) w a w' :
  m w = (Ok a, w') -> (m ≫= k) w = k a w'.
Proof. intros Hm. unfold mbind, M_bind. by rewrite Hm. Qed.

Lemma bind_raise {A B} (m : M A) (k : A -> M B) w e w' :
  m w = (Raise e, w') -> (m ≫= k) w = (Raise e, w').
Proof. intros Hm. unfold mbind, M_bind. by rewrite Hm. Qed.

Lemma lift_run {A} (r : result A) w : Eff.lift r w = (r, w).
Proof. reflexivity. Qed.

Lemma bind_lift_ok {A B} (r : result A) (k : A -> M B) w a :
  r = Ok a -> (Eff.lift r ≫= k) w = k a w.
Proof. intros ->. reflexivity. Qed.

Lemma bind_lift_raise {A B} (r : result A) (k : A -> M B) w e :
  r = Raise e -> (Eff.lift r ≫= k) w = (Raise e, w).
Proof. intros ->. reflexivity. Qed.

Lemma bind_logging {B} lvl msg (k : unit -> M B) w :
  (Eff.logging lvl msg ≫= k) w =
  k tt (mkWorld (fs w) (llm_calls w) (sleeps w) (log w ++ [(lvl, msg)])).
Proof. reflexivity. Qed.

(** ** Orchestrator: dynamic chunk sizes *)

Lemma ceil_div_spec a b :
  0 < b -> b * (- ((- a) `div` b) - 1) < a <= b * (- ((- a) `div` b)).
Proof.
  intros Hb. pose proof (Z.div_mod (- a) b ltac:(lia)) as Hdm.
  pose proof (Z.mod_pos_bound (- a) b Hb). nia.
Qed.

Lemma floor_div_spec a b :
  0 < b -> b * (a `div` b) <= a < b * (a `div` b + 1).
Proof.
  intros Hb. pose proof (Z.div_mod a b ltac:(lia)) as Hdm.
  pose proof (Z.mod_pos_bound a b Hb). nia.
Qed.

(** C5.  For a news content [text] of [total] characters whose estimate
    [est] (the integer part of [total / 3.5], and 0 for an empty text)
    is above the limit of 190000: [ideal_chunk_count] is
    [max(2, ceil(est / 50000))], the chunk size is
    [max(20000, floor(total / ideal_chunk_count))], the overlap is
    [max(1000, floor(0.1 * chunk_size))], the count is at least 2 and is
    10 when [est = 500000]; and these are the size and overlap under
    which the orchestrator calls [chunker.chunk_text]. *)
Theorem dynamic_chunk_plan_spec (text : Json) (total est : Z) :
  PyVal.len text = Ok total ->
  Summarization.estimate_tokens text = Ok est ->
  est > Orchestrator.content_token_limit ->
  Summarization.estimate_tokens (JStr "") = Ok 0 /\
  7 * est <= 2 * total < 7 * (est + 1) /\
  exists n size ov c q o,
    Orchestrator.dynamic_chunk_plan est total = (n, size, ov) /\
    50000 * (c - 1) < est <= 50000 * c /\ n = Z.max 2 c /\
    n * q <= total < n * (q + 1) /\ size = Z.max 20000 q /\
    10 * o <= size < 10 * (o + 1) /\ ov = Z.max 1000 o /\
    2 <= n /\ (est = 500000 -> n = 10) /\
    forall llm chunker summarizer fields base_name filing_type w e,
      PyVal.dict_lookup fields "content" = Some text ->
      Orchestrator.chunk_text chunker text size ov = Raise e ->
      exists w',
        Orchestrator.news_text llm chunker summarizer (JObj fields) base_name
          filing_type w = (Raise e, w') /\
        llm_calls w' = llm_calls w.
Proof.
  intros Hlen Hest Hbig. split; [reflexivity|].
  unfold Summarization.estimate_tokens in Hest. rewrite Hlen in Hest.
  destruct (PyVal.truthy text) eqn:Htruthy; cbn in Hest;
    injection Hest as <-; [|unfold Orchestrator.content_token_limit in Hbig; lia].
  set (est := (2 * total) `div` 7) in *.
  assert (Hest : 7 * est <= 2 * total < 7 * (est + 1)).
  { subst est. pose proof (floor_div_spec (2 * total) 7). lia. }
  split; [exact Hest|].
  unfold Orchestrator.content_token_limit in Hbig.
  set (c := - ((- est) `div` 50000)).
  pose proof (ceil_div_spec est 50000 ltac:(lia)) as Hc. fold c in Hc.
  set (n := Z.max 2 c).
  set (q := total `div` n).
  pose proof (floor_div_spec total n ltac:(lia)) as Hq. fold q in Hq.
  set (size := Z.max 20000 q).
  set (o := size `div` 10).
  pose proof (floor_div_spec size 10 ltac:(lia)) as Ho. fold o in Ho.
  exists n, size, (Z.max 1000 o), c, q, o.
  split; [reflexivity|]. do 8 (split; [lia|]).
  intros llm chunker summarizer fields base_name filing_type w e Hcontent Hraise.
  unfold Orchestrator.news_text.
  rewrite (bind_lift_ok _ _ _ text); cycle 1.
  { cbn. unfold PyVal.dict_get_default. by rewrite Hcontent. }
  erewrite bind_lift_ok by reflexivity.
  rewrite (bind_lift_ok _ _ _ est); cycle 1.
  { unfold Summarization.estimate_tokens. rewrite Htruthy. cbn [negb].
    rewrite Hlen. reflexivity. }
  rewrite (proj2 (Z.gtb_lt _ _)) by (unfold Orchestrator.content_token_limit; lia).
  unfold Eff.warning. rewrite bind_logging.
  rewrite (bind_lift_ok _ _ _ total) by exact Hlen.
  unfold Orchestrator.dynamic_chunk_plan. fold c n q size o.
  erewrite bind_lift_raise by exact Hraise.
  eexists. split; reflexivity.
Qed.

(** C5 on a text of 1,750,000 characters: 500,000 estimated tokens, ten
    chunks of 175,000 characters with an overlap of 17,500. *)
Lemma dynamic_chunk_plan_500000 :
  let text := JStr (Str.repeat "a" 1750000) in
  PyVal.len text = Ok 1750000 /\
  Summarization.estimate_tokens text = Ok 500000 /\
  500000 > Orchestrator.content_token_limit /\
  Orchestrator.dynamic_chunk_plan 500000 1750000 = (10, 175000, 17500).
Proof.
  intros text.
  assert (H1 : PyVal.len text = Ok 1750000) by (vm_compute; reflexivity).
  assert (H2 : Summarization.estimate_tokens text = Ok 500000)
    by (vm_compute; reflexivity).
  assert (H3 : 500000 > Orchestrator.content_token_limit)
    by (unfold Orchestrator.content_token_limit; lia).
  split; [exact H1|]. split; [exact H2|]. split; [exact H3|].
  destruct (dynamic_chunk_plan_spec text 1750000 500000 H1 H2 H3)
    as (_ & _ & n & size & ov & c & q & o & Hplan & Hc & Hn & Hq & Hsize & Ho
        & Hov & _ & H10 & _).
  rewrite Hplan. specialize (H10 eq_refl).
  assert (q = 175000) by lia. assert (size = 175000) by lia.
  assert (o = 17500) by lia. assert (ov = 17500) by lia.
  by subst.
Defined.

(** ** Orchestrator: the per-file loop *)

Lemma makedirs_frame exist_ok p fs r fs' :
  FS.makedirs exist_ok p fs = (r, fs') ->
  FS.files fs' = FS.files fs /\ FS.denied fs' = FS.denied fs /\
  FS.dirs fs ⊆ FS.dirs fs'.
Proof.
  unfold FS.makedirs.
  destruct (negb _); [by intros [= _ <-]|].
  destruct (FS.is_dir fs p); [by intros [= _ <-]|].
  destruct (FS.is_file fs p); [by intros [= _ <-]|].
  generalize (reverse (FS.ancestors (String.length p) p)) as l.
  intros l. revert fs. induction l as [|q l IH]; intros fs; cbn.
  - by intros [= _ <-].
  - destruct (FS.is_dir fs q); [apply IH|].
    destruct (_ || _); [by intros [= _ <-]|].
    intros (Hf & Hd & Hdirs)%IH. cbn in *. split; [done|split; [done|]].
    etrans; [|exact Hdirs]. apply union_subseteq_r.
Qed.

Lemma eff_makedirs_frame exist_ok p w r w' :
  Eff.makedirs exist_ok p w = (r, w') ->
  llm_calls w' = llm_calls w /\ sleeps w' = sleeps w /\ log w' = log w /\
  FS.files (fs w') = FS.files (fs w) /\ FS.dirs (fs w) ⊆ FS.dirs (fs w').
Proof.
  unfold Eff.makedirs.
  destruct (FS.makedirs exist_ok p (fs w)) as [o fs1] eqn:Hmk.
  destruct (makedirs_frame _ _ _ _ _ Hmk) as (Hf & _ & Hd).
  destruct o; intros [= _ <-]; by cbn.
Qed.

Section NodeModeNews.
Variable py_repr : Json -> string.
Variable hash_content : string -> string.
Variable sanitize_id : string -> string.
Variable generate_metadata : Kwargs -> string.
Variable llm : nat -> Kwargs -> result string.
Variable chunker : Orchestrator.ChunkerI.
Variable cache_manager : Cache.CacheManager.
Variable summarizer : Summarization.LLMSummarizer.
Variable today output_dir theme : string.

(** In node mode a news file gets its output directory and nothing
    else: no section is extracted, no LLM call is made, no file is
    written, and no record enters the log. *)
Lemma node_mode_news_file (f : Orchestrator.FileEntry) (data : Json) (w : World) :
  Orchestrator.loaded f = Some data ->
  Orchestrator.is_news_article (Orchestrator.filepath f) = true ->
  exists r w',
    Orchestrator.process_file py_repr hash_content sanitize_id generate_metadata
      llm chunker cache_manager summarizer today output_dir theme "node" f w =
      (r, w') /\
    llm_calls w' = llm_calls w /\ FS.files (fs w') = FS.files (fs w) /\
    log w' = log w.
Proof.
  intros Hdata Hnews. unfold Orchestrator.process_file. rewrite Hdata, Hnews.
  cbn [String.eqb Ascii.eqb Bool.eqb orb andb negb].
  set (dir := Path.join _ _).
  destruct (Eff.makedirs true dir w) as [r w1] eqn:Hmk.
  destruct (eff_makedirs_frame _ _ _ _ _ Hmk) as (Hc & _ & Hl & Hf & _).
  destruct r as [[]|e].
  - rewrite (bind_ok _ _ _ _ _ Hmk). by eexists _, _.
  - rewrite (bind_raise _ _ _ _ _ Hmk). by eexists _, _.
Qed.
End NodeModeNews.

(** C9 fails on the code in its warning: node mode on the news file
    [Data/news/reg/cfpb/2025-01/article.json] extracts no section, calls
    no summarizer and writes no file, but it leaves the log as it was,
    without the warning the claim (and the comment on the last [elif])
    promises. *)
Theorem node_mode_news_no_warning (py_repr : Json -> string)
    (hash_content sanitize_id : string -> string)
    (generate_metadata : Kwargs -> string)
    (llm : nat -> Kwargs -> result string) (chunker : Orchestrator.ChunkerI)
    (cache_manager : Cache.CacheManager)
    (summarizer : Summarization.LLMSummarizer) (today output_dir theme : string)
    (data : Json) (w : World) :
  let f :=
    Orchestrator.mkFileEntry "Data/news/reg/cfpb/2025-01/article.json"
      "2025-01" (Some data) in
  exists r w',
    Orchestrator.process_file py_repr hash_content sanitize_id generate_metadata
      llm chunker cache_manager summarizer today output_dir theme "node" f w =
      (r, w') /\
    llm_calls w' = llm_calls w /\ FS.files (fs w') = FS.files (fs w) /\
    log w' = log w.
Proof. intros f. by eapply node_mode_news_file. Qed.

(** ** Orchestrator: a missing prompt template *)

Lemma get_prompt_template_missing self mode filing_type w :
  Summarization.template_missing self mode filing_type ->
  exists w',
    Summarization.get_prompt_template self mode filing_type w =
      (Raise (ValueError (Summarization.missing_template_message mode filing_type)), w') /\
    fs w' = fs w /\ llm_calls w' = llm_calls w /\ sleeps w' = sleeps w.
Proof.
  intros [Hown Hdefault]. unfold Summarization.get_prompt_template.
  destruct (Summarization.prompts self !! "default" ≫= _) as [[pt|]|] eqn:Hd;
    [by destruct (Hdefault pt)|..];
    (destruct (Summarization.prompts self !! filing_type ≫= _) as [[pt|]|] eqn:Ho;
     [by destruct (Hown pt)|..]); by eexists.
Qed.

Lemma for_each_raise {A} (body : A -> M unit) x xs w e w' :
  body x w = (Raise e, w') -> Eff.for_each (x :: xs) body w = (Raise e, w').
Proof. intros Hx. cbn [Eff.for_each]. by apply bind_raise. Qed.

(** C3 (as the code has it).  With no template for the mode under the
    filing type or under "default", [summarize] raises [ValueError]
    without calling the LLM; an uncached filing with text, in file mode,
    lets that exception out of its [summarize] call; and an exception
    raised while a file is processed leaves [run_summarization] at that
    file, the files after it unprocessed. *)
Theorem missing_template_aborts_batch (py_repr : Json -> string)
    (hash_content sanitize_id : string -> string)
    (generate_metadata : Kwargs -> string)
    (llm : nat -> Kwargs -> result string) (chunker : Orchestrator.ChunkerI)
    (cache_manager : Cache.CacheManager)
    (summarizer : Summarization.LLMSummarizer) (today output_dir theme : string) :
  (forall mode filing_type kwargs w,
     Summarization.template_missing summarizer mode filing_type ->
     exists w',
       Summarization.summarize llm summarizer mode filing_type kwargs w =
         (Raise (ValueError (Summarization.missing_template_message mode filing_type)), w') /\
       fs w' = fs w /\ llm_calls w' = llm_calls w) /\
  (forall f data base_name_ext base_name current_out_dir filing_type title w,
     Orchestrator.document_title py_repr data filing_type = Ok title ->
     Str.truthy (Str.strip (Orchestrator.get_full_text chunker data)) = true ->
     (forall key, (Cache.is_cached cache_manager key w).1 = Ok false) ->
     Summarization.template_missing summarizer "file" filing_type ->
     exists w',
       Orchestrator.file_branch py_repr hash_content sanitize_id generate_metadata
         llm chunker cache_manager summarizer today f data false base_name_ext
         base_name current_out_dir filing_type w =
         (Raise (ValueError (Summarization.missing_template_message "file" filing_type)), w') /\
       fs w' = fs w /\ llm_calls w' = llm_calls w) /\
  (forall mode f rest w e w',
     Orchestrator.process_file py_repr hash_content sanitize_id generate_metadata
       llm chunker cache_manager summarizer today output_dir theme mode f w =
       (Raise e, w') ->
     Orchestrator.run_summarization py_repr hash_content sanitize_id
       generate_metadata llm chunker cache_manager summarizer today output_dir
       theme mode (f :: rest) w = (Raise e, w')).
Proof.
  assert (Hsummarize : forall mode filing_type kwargs w,
     Summarization.template_missing summarizer mode filing_type ->
     exists w',
       Summarization.summarize llm summarizer mode filing_type kwargs w =
         (Raise (ValueError (Summarization.missing_template_message mode filing_type)), w') /\
       fs w' = fs w /\ llm_calls w' = llm_calls w).
  { intros mode filing_type kwargs w Hmissing.
    destruct (get_prompt_template_missing _ _ _ w Hmissing)
      as (w' & Hget & Hfs & Hcalls & _).
    exists w'. split; [|done]. unfold Summarization.summarize.
    by apply bind_raise. }
  split; [exact Hsummarize|]. split.
  - intros f data base_name_ext base_name current_out_dir filing_type title w
      Htitle Htext Hfresh Hmissing.
    unfold Orchestrator.file_branch, Orchestrator.filing_text.
    erewrite bind_ok; cycle 1.
    { erewrite bind_lift_ok by exact Htitle. reflexivity. }
    cbn beta iota. erewrite bind_lift_ok by reflexivity.
    rewrite Htext. cbn [negb].
    set (key := hash_content _).
    specialize (Hfresh key).
    destruct (Cache.is_cached cache_manager key w) as [r w1] eqn:Hc.
    assert (w1 = w) as ->.
    { unfold Cache.is_cached in Hc. destruct (negb _); by injection Hc. }
    cbn in Hfresh. subst r.
    rewrite (bind_ok _ _ _ _ _ Hc).
    edestruct Hsummarize as (w' & Hrun & Hfs & Hcalls); [exact Hmissing|].
    exists w'. split; [|done]. apply bind_raise. exact Hrun.
  - intros mode f rest w e w' Hf. unfold Orchestrator.run_summarization.
    by apply for_each_raise.
Qed.

Lemma template_missing_without_prompts mode filing_type :
  Summarization.template_missing Demo.summarizer_without_prompts mode filing_type.
Proof. split; intros pt; cbn; by rewrite lookup_empty. Qed.

(** C3 on a summarizer whose prompt set is empty, with the cache
    switched off: [summarize] raises, the file branch raises for the
    first filing, and the run over two filings ends there. *)
Lemma missing_template_aborts_batch_filings :
  let cm := Cache.mkCacheManager ".cache" false in
  let s := Demo.summarizer_without_prompts in
  let missing := ValueError "Missing prompt template for mode 'file' (filing_type: '10-K')" in
  let data := JObj [("company_name", JStr "BMO"); ("text", JStr "Annual report.")] in
  Summarization.template_missing s "file" "10-K" /\
  Orchestrator.document_title Demo.py_repr data "10-K" = Ok (JStr "BMO - 10-K") /\
  Str.truthy (Str.strip (Orchestrator.get_full_text Demo.chunker data)) = true /\
  (forall key, (Cache.is_cached cm key Demo.world).1 = Ok false) /\
  (exists w',
     Summarization.summarize Demo.llm s "file" "10-K" [] Demo.world = (Raise missing, w') /\
     llm_calls w' = []) /\
  (exists w',
     Orchestrator.file_branch Demo.py_repr Demo.hex_encode Demo.sanitize_id
       Demo.generate_metadata Demo.llm Demo.chunker cm s "2026-01-01"
       Demo.filing_a data false "10-K_2024.json" "10-K_2024" "out/file-level/BMO"
       "10-K" Demo.world = (Raise missing, w') /\
     llm_calls w' = []) /\
  (Orchestrator.run_summarization Demo.py_repr Demo.hex_encode Demo.sanitize_id
     Demo.generate_metadata Demo.llm Demo.chunker cm s "2026-01-01" "out"
     "general_cross_summary" "file" [Demo.filing_a; Demo.filing_b] Demo.world).1 =
   Raise missing.
Proof.
  intros cm s missing data.
  destruct (missing_template_aborts_batch Demo.py_repr Demo.hex_encode
              Demo.sanitize_id Demo.generate_metadata Demo.llm Demo.chunker cm s
              "2026-01-01" "out" "general_cross_summary") as (H1 & H2 & H3).
  assert (Hm : Summarization.template_missing s "file" "10-K")
    by apply template_missing_without_prompts.
  assert (Ht : Orchestrator.document_title Demo.py_repr data "10-K" =
               Ok (JStr "BMO - 10-K")) by reflexivity.
  assert (Hx : Str.truthy (Str.strip (Orchestrator.get_full_text Demo.chunker data)) = true)
    by (vm_compute; reflexivity).
  assert (Hc : forall key, (Cache.is_cached cm key Demo.world).1 = Ok false)
    by (intros; reflexivity).
  split; [exact Hm|]. split; [exact Ht|]. split; [exact Hx|]. split; [exact Hc|].
  split; [|split].
  - destruct (H1 "file" "10-K" [] Demo.world Hm) as (w' & Hrun & _ & Hcalls).
    exists w'. split; [exact Hrun|]. by rewrite Hcalls.
  - destruct (H2 Demo.filing_a data "10-K_2024.json" "10-K_2024"
                "out/file-level/BMO" "10-K" _ Demo.world Ht Hx Hc Hm)
      as (w' & Hrun & _ & Hcalls).
    exists w'. split; [exact Hrun|]. by rewrite Hcalls.
  - destruct (Orchestrator.process_file Demo.py_repr Demo.hex_encode
                Demo.sanitize_id Demo.generate_metadata Demo.llm Demo.chunker cm s
                "2026-01-01" "out" "general_cross_summary" "file" Demo.filing_a
                Demo.world) as [r w'] eqn:Hp.
    assert (Hr : r = Raise missing).
    { change r with (r, w').1. rewrite <- Hp. vm_compute. reflexivity. }
    subst r. by rewrite (H3 "file" Demo.filing_a [Demo.filing_b] Demo.world _ _ Hp).
Defined.

(** C3 as worded fails: with an empty prompt set the run over two
    filings in file mode ends in an uncaught [ValueError] at the first
    one; no LLM call is made, no file is written, and the second filing
    does not even get its output directory. *)
Lemma missing_template_run_raises :
  let r :=
    Demo.run Demo.llm Demo.chunker Demo.summarizer_without_prompts "file"
      [Demo.filing_a; Demo.filing_b] Demo.world in
  r.1 = Raise (ValueError "Missing prompt template for mode 'file' (filing_type: '10-K')") /\
  r.1 <> Ok tt /\
  llm_calls r.2 = [] /\
  map_to_list (FS.files (fs r.2)) = [] /\
  FS.is_dir (fs r.2) "out/file-level/BMO" = true /\
  FS.is_dir (fs r.2) "out/file-level/RBC" = false.
Proof. cbv zeta. vm_compute. repeat split; try reflexivity. discriminate. Qed.

(** ** Orchestrator: the cache gate *)

Create HintDb steps.

Lemma later_refl w : Eff.later w w.
Proof. by repeat split. Qed.

Lemma later_trans w1 w2 w3 : Eff.later w1 w2 -> Eff.later w2 w3 -> Eff.later w1 w3.
Proof.
  intros (Hd1 & Hf1 & Hc1) (Hd2 & Hf2 & Hc2). repeat split; [auto..|lia].
Qed.

Lemma later_exists w w' p :
  Eff.later w w' -> FS.exists_ (fs w) p = true -> FS.exists_ (fs w') p = true.
Proof.
  intros (Hd & Hf & _). unfold FS.exists_.
  intros [?%Hd|?%Hf]%orb_true_iff; apply orb_true_iff; auto.
Qed.

Lemma quiet_later w w' :
  fs w' = fs w -> Eff.cache_write_failures w' = Eff.cache_write_failures w ->
  Eff.later w w'.
Proof. intros Hfs Hc. unfold Eff.later. rewrite Hfs, Hc. by repeat split. Qed.

Lemma Quiet_Later {A} (m : M A) : Steps.Quiet m -> Steps.Later m.
Proof. intros Hq w r w' [? ?]%Hq. by apply quiet_later. Qed.

Lemma Quiet_ret {A} (a : A) : Steps.Quiet (mret a : M A).
Proof. by intros w r w' [= _ <-]. Qed.

Lemma Quiet_raise {A} e : Steps.Quiet (@Eff.raise A e).
Proof. by intros w r w' [= _ <-]. Qed.

Lemma Quiet_lift {A} (r : result A) : Steps.Quiet (Eff.lift r).
Proof. by intros w r' w' [= _ <-]. Qed.

Lemma Quiet_sleep s : Steps.Quiet (Eff.sleep s).
Proof. by intros w r w' [= _ <-]. Qed.

Lemma Quiet_get_fs : Steps.Quiet Eff.get_fs.
Proof. by intros w r w' [= _ <-]. Qed.

Lemma Quiet_logging lvl msg :
  String.eqb msg "Failed to write cache file" = false ->
  Steps.Quiet (Eff.logging lvl msg).
Proof.
  intros Hmsg%String.eqb_neq w r w' [= _ <-]. split; [done|].
  unfold Eff.cache_write_failures. cbn [log].
  rewrite filter_app, length_app, filter_cons_False, filter_nil; [cbn; lia|].
  by intros [= _ ?].
Qed.

Lemma Quiet_bind {A B} (m : M A) (k : A -> M B) :
  Steps.Quiet m -> (forall a, Steps.Quiet (k a)) -> Steps.Quiet (m ≫= k).
Proof.
  intros Hm Hk w r w'. unfold mbind, M_bind.
  destruct (m w) as [[a|e] w1] eqn:Hmw; apply Hm in Hmw as [Hfs Hc].
  - intros [? ?]%Hk. split; congruence.
  - by intros [= _ <-].
Qed.

Lemma Quiet_try {A} (m : M A) : Steps.Quiet m -> Steps.Quiet (Eff.try m).
Proof.
  intros Hm w r w'. unfold Eff.try.
  destruct (m w) as [r1 w1] eqn:Hmw. apply Hm in Hmw. by intros [= _ <-].
Qed.

Lemma Later_bind {A B} (m : M A) (k : A -> M B) :
  Steps.Later m -> (forall a, Steps.Later (k a)) -> Steps.Later (m ≫= k).
Proof.
  intros Hm Hk w r w'. unfold mbind, M_bind.
  destruct (m w) as [[a|e] w1] eqn:Hmw; apply Hm in Hmw.
  - intros ?%Hk. by eapply later_trans.
  - by intros [= _ <-].
Qed.

Lemma Later_try {A} (m : M A) : Steps.Later m -> Steps.Later (Eff.try m).
Proof.
  intros Hm w r w'. unfold Eff.try.
  destruct (m w) as [r1 w1] eqn:Hmw. apply Hm in Hmw. by intros [= _ <-].
Qed.

#[export] Hint Resolve Quiet_ret Quiet_raise Quiet_lift Quiet_sleep Quiet_get_fs
  Quiet_try : steps.
#[export] Hint Extern 1 (Steps.Quiet (Eff.logging _ _)) =>
  apply Quiet_logging; reflexivity : steps.
#[export] Hint Extern 1 (Steps.Quiet (Eff.error _)) =>
  apply Quiet_logging; reflexivity : steps.
#[export] Hint Extern 1 (Steps.Quiet (Eff.warning _)) =>
  apply Quiet_logging; reflexivity : steps.
#[export] Hint Extern 2 (Steps.Quiet (_ ≫= _)) =>
  apply Quiet_bind; [|intros ?] : steps.

Ltac quiet :=
  repeat first
    [ progress eauto with steps
    | apply Quiet_bind; [|intros ?]
    | case_match ].

Lemma Quiet_get_prompt_template self mode filing_type :
  Steps.Quiet (Summarization.get_prompt_template self mode filing_type).
Proof. unfold Summarization.get_prompt_template. quiet. Qed.

Lemma Quiet_prepare_kwargs pt kwargs :
  Steps.Quiet (Summarization.prepare_kwargs pt kwargs).
Proof. unfold Summarization.prepare_kwargs. quiet. Qed.

Lemma Quiet_chain_run llm kwargs : Steps.Quiet (Summarization.chain_run llm kwargs).
Proof. by intros w r w' [= _ <-]. Qed.

#[export] Hint Resolve Quiet_get_prompt_template Quiet_prepare_kwargs
  Quiet_chain_run : steps.

Lemma Quiet_attempt llm pt kwargs : Steps.Quiet (Summarization.attempt llm pt kwargs).
Proof. unfold Summarization.attempt. quiet. Qed.

#[export] Hint Resolve Quiet_attempt : steps.

Lemma Quiet_retry_loop llm self pt kwargs left : forall retries,
  Steps.Quiet (Summarization.retry_loop llm left self pt kwargs retries).
Proof.
  induction left as [|left IH]; intros retries; cbn [Summarization.retry_loop];
    quiet.
Qed.

#[export] Hint Resolve Quiet_retry_loop : steps.

Lemma Quiet_summarize llm self mode filing_type kwargs :
  Steps.Quiet (Summarization.summarize llm self mode filing_type kwargs).
Proof. unfold Summarization.summarize. quiet. Qed.

#[export] Hint Resolve Quiet_summarize : steps.

Lemma Later_logging lvl msg : Steps.Later (Eff.logging lvl msg).
Proof.
  intros w r w' [= _ <-]. repeat split; [done..|].
  unfold Eff.cache_write_failures. cbn [log].
  rewrite filter_app, length_app. lia.
Qed.

Lemma Later_makedirs exist_ok p : Steps.Later (Eff.makedirs exist_ok p).
Proof.
  intros w r w' Hmk.
  destruct (eff_makedirs_frame _ _ _ _ _ Hmk) as (_ & _ & Hlog & Hfiles & Hdirs).
  repeat split.
  - intros q. unfold FS.is_dir.
    intros [?|Hq%bool_decide_eq_true]%orb_true_iff; apply orb_true_iff;
      [by left|right]. apply bool_decide_eq_true. by apply Hdirs.
  - intros q. unfold FS.is_file. by rewrite Hfiles.
  - unfold Eff.cache_write_failures. by rewrite Hlog.
Qed.

Lemma Later_write_file p content : Steps.Later (Eff.write_file p content).
Proof.
  intros w r w'. unfold Eff.write_file, FS.write_file.
  destruct (_ || _); [by intros [= _ <-]; apply later_refl|].
  intros [= _ <-]. repeat split; [done| |done].
  intros q. unfold FS.is_file, FS.put_file. cbn [FS.files fs].
  intros Hq%bool_decide_eq_true. apply bool_decide_eq_true.
  destruct (decide (p = q)) as [->|Hne];
    [rewrite lookup_insert_eq; by eexists | by rewrite lookup_insert_ne].
Qed.

#[export] Hint Resolve Later_logging Later_makedirs Later_write_file Later_try
  : steps.
#[export] Hint Extern 5 (Steps.Later _) => apply Quiet_Later : steps.
#[export] Hint Extern 2 (Steps.Later (_ ≫= _)) =>
  apply Later_bind; [|intros ?] : steps.

Ltac later :=
  repeat first
    [ progress eauto with steps
    | apply Later_bind; [|intros ?]
    | case_match ].

Lemma is_cached_run cache_manager key w :
  Cache.is_cached cache_manager key w =
  (Ok (Cache.enabled cache_manager &&
       FS.exists_ (fs w) (Cache.cache_file_path cache_manager key)), w).
Proof. unfold Cache.is_cached. by destruct (Cache.enabled cache_manager). Qed.

Lemma Quiet_is_cached cache_manager key :
  Steps.Quiet (Cache.is_cached cache_manager key).
Proof. intros w r w'. rewrite is_cached_run. by intros [= _ <-]. Qed.

Lemma Later_mark_cached cache_manager key metadata :
  Steps.Later (Cache.mark_cached cache_manager key metadata).
Proof. unfold Cache.mark_cached. later. Qed.

Lemma Later_writer output path message :
  Steps.Later (Writer.write output path message).
Proof. unfold Writer.write, Writer.write_to. later. Qed.

#[export] Hint Resolve Quiet_is_cached Later_mark_cached Later_writer : steps.

(** With the cache enabled, a [mark_cached] that logs no failure has
    written the cache file. *)
Lemma Marks_mark_cached cache_manager key metadata :
  Cache.enabled cache_manager = true ->
  Steps.Marks cache_manager key (Cache.mark_cached cache_manager key metadata).
Proof.
  intros Hon w [] w'. unfold Cache.mark_cached. rewrite Hon. cbn [negb].
  unfold mbind, M_bind, Eff.try, Eff.write_file, FS.write_file.
  destruct (_ || _).
  - intros [= <-]. unfold Eff.cache_write_failures. cbn [log].
    rewrite filter_app, length_app, filter_cons_True by done. cbn. lia.
  - intros [= <-] _. cbn [fs]. unfold FS.exists_, FS.is_file, FS.put_file.
    cbn [FS.files]. apply orb_true_iff. right. apply bool_decide_eq_true.
    rewrite lookup_insert_eq. by eexists.
Qed.

(** ** Orchestrator: running a step again *)

Lemma mkdir_each_dirs l : forall fs r fs',
  FS.mkdir_each l fs = (r, fs') -> FS.dirs fs ⊆ FS.dirs fs'.
Proof.
  induction l as [|p l IH]; intros fs r fs'; cbn [FS.mkdir_each].
  - by intros [= _ <-].
  - destruct (FS.is_dir fs p); [apply IH|].
    destruct (_ || _); [by intros [= _ <-]|].
    intros Hrest%IH. etrans; [|exact Hrest]. cbn. apply union_subseteq_r.
Qed.

Lemma mkdir_each_made l : forall fs fs1 fs2,
  FS.mkdir_each l fs = (Some fs1, fs2) ->
  forall q, q ∈ l -> FS.is_dir fs2 q = true.
Proof.
  induction l as [|p l IH]; intros fs fs1 fs2; cbn [FS.mkdir_each];
    [by intros _ q ?%elem_of_nil|].
  assert (Hkeep : forall fs0, FS.mkdir_each l fs0 = (Some fs1, fs2) ->
            FS.is_dir fs0 p = true -> FS.is_dir fs2 p = true).
  { intros fs0 Hsub%mkdir_each_dirs. unfold FS.is_dir.
    intros [?|Hp%bool_decide_eq_true]%orb_true_iff; apply orb_true_iff;
      [by left|right]. apply bool_decide_eq_true. by apply Hsub. }
  destruct (FS.is_dir fs p) eqn:Hdir.
  - intros Hrest q [->|Hq]%elem_of_cons; [by eapply Hkeep|by eapply IH].
  - destruct (_ || _); [done|].
    intros Hrest q [->|Hq]%elem_of_cons; [|by eapply IH].
    eapply Hkeep; [exact Hrest|]. unfold FS.is_dir, FS.add_dir. cbn.
    apply orb_true_iff. right. apply bool_decide_eq_true. set_solver.
Qed.

(** A [makedirs] that returns leaves the directory behind. *)
Lemma makedirs_made exist_ok p fs fs1 fs' :
  FS.makedirs exist_ok p fs = (Some fs1, fs') -> FS.is_dir fs' p = true.
Proof.
  unfold FS.makedirs. destruct (Str.truthy p) eqn:Hp; [|done]. cbn [negb].
  destruct (FS.is_dir fs p) eqn:Hdir; [by intros [= _ <-]|].
  destruct (FS.is_file fs p); [done|].
  intros Hmk. eapply mkdir_each_made; [exact Hmk|].
  apply elem_of_reverse.
  unfold FS.is_dir, FS.is_root in Hdir. rewrite Hp in Hdir. cbn in Hdir.
  apply orb_false_iff in Hdir as [Hroot _].
  destruct p as [|c p]; [done|]. cbn [String.length FS.ancestors].
  rewrite Hroot. apply elem_of_cons. by left.
Qed.

Lemma makedirs_again p w :
  FS.is_dir (fs w) p = true -> Str.truthy p = true ->
  Eff.makedirs true p w = (Ok tt, w).
Proof.
  intros Hdir Hp. unfold Eff.makedirs, FS.makedirs. rewrite Hp, Hdir.
  by destruct w.
Qed.

Lemma makedirs_truthy exist_ok p w w' :
  Eff.makedirs exist_ok p w = (Ok tt, w') -> Str.truthy p = true.
Proof.
  unfold Eff.makedirs, FS.makedirs. by destruct (Str.truthy p).
Qed.

Lemma Rerun_ret : Steps.Rerunnable (mret tt).
Proof.
  intros w w1 _ _ w2 _. exists w2. split; [done|]. split; [done|].
  apply later_refl.
Qed.

Lemma Rerun_logging lvl msg : Steps.Rerunnable (Eff.logging lvl msg).
Proof.
  intros w w1 _ _ w2 _. eexists. split; [reflexivity|]. split; [done|].
  by eapply Later_logging.
Qed.

Lemma Rerun_makedirs p : Steps.Rerunnable (Eff.makedirs true p).
Proof.
  intros w w1 Hrun _ w2 (Hdirs & _). exists w2.
  rewrite makedirs_again; [by split; [|split; [|apply later_refl]]| |].
  - apply Hdirs. revert Hrun. unfold Eff.makedirs.
    destruct (FS.makedirs true p (fs w)) as [[fs1|] fs'] eqn:Hmk; [|done].
    intros [= <-]. cbn [fs]. by eapply makedirs_made.
  - by eapply makedirs_truthy.
Qed.

Lemma failures_between w wa w1 :
  Eff.later w wa -> Eff.later wa w1 ->
  Eff.cache_write_failures w1 = Eff.cache_write_failures w ->
  Eff.cache_write_failures wa = Eff.cache_write_failures w /\
  Eff.cache_write_failures w1 = Eff.cache_write_failures wa.
Proof. intros (_ & _ & ?) (_ & _ & ?) ?. lia. Qed.

Lemma Rerun_seq (m1 m2 : M unit) :
  Steps.Rerunnable m1 -> Steps.Later m1 ->
  Steps.Rerunnable m2 -> Steps.Later m2 ->
  Steps.Rerunnable (m1 ;; m2).
Proof.
  intros Hr1 Hl1 Hr2 Hl2 w w1 Hrun Hc w2 Hlater.
  unfold mbind, M_bind in Hrun |- *.
  destruct (m1 w) as [[[]|e] wa] eqn:H1; [|done].
  pose proof (Hl1 _ _ _ H1) as Hwa. pose proof (Hl2 _ _ _ Hrun) as Hw1.
  destruct (failures_between _ _ _ Hwa Hw1 Hc) as [Hca Hc1].
  destruct (Hr1 _ _ H1 Hca w2) as (w3 & Hrun1 & Hcalls1 & Hlater1);
    [by eapply later_trans|].
  destruct (Hr2 _ _ Hrun Hc1 w3) as (w4 & Hrun2 & Hcalls2 & Hlater2);
    [by eapply later_trans|].
  exists w4. rewrite Hrun1. split; [done|]. split; [congruence|].
  by eapply later_trans.
Qed.

Lemma Pure_lift {A} (r : result A) : Steps.Pure (Eff.lift r).
Proof. by exists r. Qed.

Lemma Pure_ret {A} (a : A) : Steps.Pure (mret a : M A).
Proof. by exists (Ok a). Qed.

Lemma Pure_bind {A B} (m : M A) (k : A -> M B) :
  Steps.Pure m -> (forall a, Steps.Pure (k a)) -> Steps.Pure (m ≫= k).
Proof.
  intros [[a|e] Hm] Hk.
  - destruct (Hk a) as [r Hr]. exists r. intros w.
    unfold mbind, M_bind. by rewrite Hm.
  - exists (Raise e). intros w. unfold mbind, M_bind. by rewrite Hm.
Qed.

Lemma Pure_bind_lift {A B} (r : result A) (k : A -> M B) :
  (forall a, r = Ok a -> Steps.Pure (k a)) -> Steps.Pure (Eff.lift r ≫= k).
Proof.
  destruct r as [a|e]; [|by exists (Raise e)].
  intros Hk. destruct (Hk a eq_refl) as [r Hr]. exists r. exact Hr.
Qed.

Lemma Rerun_pure_bind {A} (m : M A) (k : A -> M unit) :
  Steps.Pure m -> (forall a, Steps.Rerunnable (k a)) ->
  Steps.Rerunnable (m ≫= k).
Proof.
  intros [[a|e] Hm] Hk w w1; unfold mbind, M_bind; rewrite Hm; [|done].
  intros Hrun Hc w2 Hlater. rewrite Hm. by eapply Hk.
Qed.

Lemma Later_for_each {A} (body : A -> M unit) xs :
  (forall x, Steps.Later (body x)) -> Steps.Later (Eff.for_each xs body).
Proof.
  intros Hbody. induction xs as [|x xs IH]; cbn [Eff.for_each].
  - apply Quiet_Later, Quiet_ret.
  - apply Later_bind; [apply Hbody|by intros _].
Qed.

Lemma Rerun_for_each {A} (body : A -> M unit) xs :
  (forall x, Steps.Rerunnable (body x)) -> (forall x, Steps.Later (body x)) ->
  Steps.Rerunnable (Eff.for_each xs body).
Proof.
  intros Hr Hl. induction xs as [|x xs IH]; cbn [Eff.for_each].
  - apply Rerun_ret.
  - apply Rerun_seq; [apply Hr|apply Hl|apply IH|by apply Later_for_each].
Qed.

Lemma Marks_bind_r {A B} cache_manager key (m : M A) (k : A -> M B) :
  Steps.Later m -> (forall a, Steps.Later (k a)) ->
  (forall a, Steps.Marks cache_manager key (k a)) ->
  Steps.Marks cache_manager key (m ≫= k).
Proof.
  intros Hm Hk Hmarks w b w1. unfold mbind, M_bind.
  destruct (m w) as [[a|e] wa] eqn:H1; [|done].
  intros Hrun Hc.
  destruct (failures_between w wa w1) as [_ Hc1]; [by eapply Hm|by eapply Hk|done|].
  by eapply Hmarks.
Qed.

Lemma Marks_bind_l {A B} cache_manager key (m : M A) (k : A -> M B) :
  Steps.Later m -> (forall a, Steps.Later (k a)) ->
  Steps.Marks cache_manager key m ->
  Steps.Marks cache_manager key (m ≫= k).
Proof.
  intros Hm Hk Hmarks w b w1. unfold mbind, M_bind.
  destruct (m w) as [[a|e] wa] eqn:H1; [|done].
  intros Hrun Hc.
  destruct (failures_between w wa w1) as [Hca _]; [by eapply Hm|by eapply Hk|done|].
  eapply later_exists; [by eapply Hk|]. by eapply Hmarks.
Qed.

(** The cache gate of every branch: once the guarded step has marked the
    key, the gate is closed in every later world. *)
Lemma Rerun_gate cache_manager key (body : M unit) :
  Cache.enabled cache_manager = true ->
  Steps.Later body -> Steps.Marks cache_manager key body ->
  Steps.Rerunnable
    (cached ← Cache.is_cached cache_manager key;
     if cached : bool then mret tt else body).
Proof.
  intros Hon Hl Hmarks w w1 Hrun Hc w2 Hlater.
  unfold mbind, M_bind in Hrun |- *. rewrite is_cached_run, Hon in Hrun |- *.
  cbn [andb] in Hrun |- *.
  assert (Hthere : FS.exists_ (fs w2) (Cache.cache_file_path cache_manager key) = true).
  { eapply later_exists; [exact Hlater|].
    destruct (FS.exists_ (fs w) _) eqn:He; [by injection Hrun as <-|].
    by eapply Hmarks. }
  rewrite Hthere. exists w2. split; [done|]. split; [done|]. apply later_refl.
Qed.

(** After such a run the gate is closed, whatever body stands behind it
    the next time. *)
Lemma gate_closed cache_manager key (body body' : M unit) w w1 w2 :
  Cache.enabled cache_manager = true ->
  Steps.Later body -> Steps.Marks cache_manager key body ->
  (cached ← Cache.is_cached cache_manager key;
   if cached : bool then mret tt else body) w = (Ok tt, w1) ->
  Eff.cache_write_failures w1 = Eff.cache_write_failures w ->
  Eff.later w1 w2 ->
  (cached ← Cache.is_cached cache_manager key;
   if cached : bool then mret tt else body') w2 = (Ok tt, w2).
Proof.
  intros Hon Hl Hmarks Hrun Hc Hlater.
  unfold mbind, M_bind in Hrun |- *. rewrite is_cached_run, Hon in Hrun |- *.
  cbn [andb] in Hrun |- *.
  assert (Hthere : FS.exists_ (fs w2) (Cache.cache_file_path cache_manager key) = true).
  { eapply later_exists; [exact Hlater|].
    destruct (FS.exists_ (fs w) _) eqn:He; [by injection Hrun as <-|].
    by eapply Hmarks. }
  by rewrite Hthere.
Qed.

Section Rerun.
Variable py_repr : Json -> string.
Variable hash_content : string -> string.
Variable sanitize_id : string -> string.
Variable generate_metadata : Kwargs -> string.
Variable llm : nat -> Kwargs -> result string.
Variable chunker : Orchestrator.ChunkerI.
Variable cache_manager : Cache.CacheManager.
Variable summarizer : Summarization.LLMSummarizer.
Variable today : string.
Variable output_dir : string.
Variable theme : string.

Lemma Later_write_artifacts summary_text meta_args output_path_md output_path_json :
  Steps.Later
    (Orchestrator.write_artifacts generate_metadata summary_text meta_args
       output_path_md output_path_json).
Proof.
  unfold Orchestrator.write_artifacts, Writer.write_summary, Writer.write_metadata.
  later.
Qed.

Lemma Quiet_summarize_chunks news_chunks summarizer_kwargs filing_type :
  forall i chunk_summaries,
  Steps.Quiet
    (Orchestrator.summarize_chunks llm summarizer i news_chunks summarizer_kwargs
       filing_type chunk_summaries).
Proof.
  induction news_chunks as [|chunk_text rest IH]; intros i chunk_summaries;
    cbn [Orchestrator.summarize_chunks]; quiet.
Qed.

Lemma Quiet_news_text data base_name filing_type :
  Steps.Quiet (Orchestrator.news_text llm chunker summarizer data base_name filing_type).
Proof.
  pose proof Quiet_summarize_chunks. unfold Orchestrator.news_text. quiet.
Qed.

Lemma Quiet_filing_text data base_name_ext filing_type :
  Steps.Quiet
    (Orchestrator.filing_text py_repr chunker today data base_name_ext filing_type).
Proof. unfold Orchestrator.filing_text. quiet. Qed.

Lemma Later_file_branch f data is_news base_name_ext base_name current_out_dir
    filing_type :
  Steps.Later
    (Orchestrator.file_branch py_repr hash_content sanitize_id generate_metadata
       llm chunker cache_manager summarizer today f data is_news base_name_ext
       base_name current_out_dir filing_type).
Proof.
  pose proof Quiet_news_text. pose proof Quiet_filing_text.
  pose proof Later_write_artifacts.
  unfold Orchestrator.file_branch. later.
Qed.
Hypothesis Henabled : Cache.enabled cache_manager = true.

(** What every cache gate guards: the summary, the mark, the artifacts. *)
Lemma Marks_guarded key (summary : M string) (rest : string -> M unit) :
  Steps.Later summary -> (forall s, Steps.Later (rest s)) ->
  Steps.Marks cache_manager key
    (summary_text ← summary;
     Cache.mark_cached cache_manager key None;; rest summary_text).
Proof using Henabled.
  intros Hsummary Hrest.
  apply Marks_bind_r; [done|intros s; later|intros s].
  apply Marks_bind_l; [later|by intros _|by apply Marks_mark_cached].
Qed.

Lemma Pure_filing_text data base_name_ext filing_type :
  Steps.Pure
    (Orchestrator.filing_text py_repr chunker today data base_name_ext filing_type).
Proof.
  unfold Orchestrator.filing_text.
  apply Pure_bind; [apply Pure_lift|intros ?; apply Pure_ret].
Qed.

(** Within the token budget a news article takes no dynamic chunking:
    its text is read off the document. *)
Lemma Pure_news_text data base_name filing_type :
  Orchestrator.within_budget data ->
  Steps.Pure
    (Orchestrator.news_text llm chunker summarizer data base_name filing_type).
Proof.
  intros Hbudget. unfold Orchestrator.news_text.
  apply Pure_bind_lift; intros text Htext.
  apply Pure_bind_lift; intros title _.
  apply Pure_bind_lift; intros estimated_tokens Hestimate.
  unfold Orchestrator.within_budget in Hbudget.
  rewrite Htext, Hestimate in Hbudget.
  replace (estimated_tokens >? Orchestrator.content_token_limit) with false
    by (symmetry; rewrite Z.gtb_ltb; apply Z.ltb_ge, Hbudget).
  apply Pure_ret.
Qed.

Lemma Rerun_file_branch f data is_news base_name_ext base_name current_out_dir
    filing_type :
  (is_news = true -> Orchestrator.within_budget data) ->
  Steps.Rerunnable
    (Orchestrator.file_branch py_repr hash_content sanitize_id generate_metadata
       llm chunker cache_manager summarizer today f data is_news base_name_ext
       base_name current_out_dir filing_type).
Proof using Henabled.
  intros Hbudget. unfold Orchestrator.file_branch.
  apply Rerun_pure_bind.
  { destruct is_news; [by apply Pure_news_text, Hbudget|apply Pure_filing_text]. }
  intros [[text_to_summarize summarizer_kwargs] chunking_method].
  apply Rerun_pure_bind; [apply Pure_lift|intros text].
  case_match; [apply Rerun_logging|].
  pose proof Later_write_artifacts.
  apply Rerun_gate; [done|later|].
  apply Marks_guarded; [later|intros s; later].
Qed.
Lemma Later_node_section f data base_name current_out_dir filing_type entry :
  Steps.Later
    (Orchestrator.node_section py_repr hash_content generate_metadata llm
       cache_manager summarizer f data base_name current_out_dir filing_type entry).
Proof.
  pose proof Later_write_artifacts.
  destruct entry as [i [sec_title sec_text]]. unfold Orchestrator.node_section.
  later.
Qed.

Lemma Rerun_node_section f data base_name current_out_dir filing_type entry :
  Steps.Rerunnable
    (Orchestrator.node_section py_repr hash_content generate_metadata llm
       cache_manager summarizer f data base_name current_out_dir filing_type entry).
Proof using Henabled.
  pose proof Later_write_artifacts.
  destruct entry as [i [sec_title sec_text]]. unfold Orchestrator.node_section.
  apply Rerun_pure_bind; [apply Pure_lift|intros text].
  case_match; [apply Rerun_ret|].
  apply Rerun_gate; [done|later|].
  apply Marks_bind_r; [later|intros title; later|intros title].
  apply Marks_guarded; [later|intros s; later].
Qed.

Lemma Later_node_branch f data base_name current_out_dir filing_type :
  Steps.Later
    (Orchestrator.node_branch py_repr hash_content generate_metadata llm chunker
       cache_manager summarizer f data base_name current_out_dir filing_type).
Proof.
  unfold Orchestrator.node_branch.
  apply Later_bind; [later|intros sections].
  destruct sections; [later|].
  apply Later_for_each. intros entry. apply Later_node_section.
Qed.

Lemma Rerun_node_branch f data base_name current_out_dir filing_type :
  Steps.Rerunnable
    (Orchestrator.node_branch py_repr hash_content generate_metadata llm chunker
       cache_manager summarizer f data base_name current_out_dir filing_type).
Proof using Henabled.
  unfold Orchestrator.node_branch.
  apply Rerun_pure_bind; [apply Pure_lift|intros sections].
  destruct sections; [apply Rerun_logging|].
  apply Rerun_for_each; intros entry;
    [apply Rerun_node_section|apply Later_node_section].
Qed.

Lemma Later_cross_branch f data base_name_ext base_name current_out_dir filing_type :
  Steps.Later
    (Orchestrator.cross_branch hash_content generate_metadata llm chunker
       cache_manager summarizer theme f data base_name_ext base_name
       current_out_dir filing_type).
Proof.
  pose proof Later_write_artifacts. unfold Orchestrator.cross_branch. later.
Qed.

Lemma Rerun_cross_branch f data base_name_ext base_name current_out_dir filing_type :
  Steps.Rerunnable
    (Orchestrator.cross_branch hash_content generate_metadata llm chunker
       cache_manager summarizer theme f data base_name_ext base_name
       current_out_dir filing_type).
Proof using Henabled.
  pose proof Later_write_artifacts. unfold Orchestrator.cross_branch.
  apply Rerun_seq; [apply Rerun_logging|later| |later].
  case_match; [apply Rerun_ret|].
  apply Rerun_gate; [done|later|].
  apply Marks_guarded; [later|intros s; later].
Qed.
Lemma read_node_summaries_run node_summary_base_dir base_name fuel :
  forall i node_summaries_content w,
  exists w',
    Orchestrator.read_node_summaries fuel node_summary_base_dir base_name i
      node_summaries_content w =
    (Ok (node_summaries_content ++
         Orchestrator.node_summaries_found fuel (FS.files (fs w))
           node_summary_base_dir base_name i), w') /\
    fs w' = fs w /\ llm_calls w' = llm_calls w /\
    Eff.cache_write_failures w' = Eff.cache_write_failures w.
Proof.
  induction fuel as [|fuel IH]; intros i acc w;
    cbn [Orchestrator.read_node_summaries Orchestrator.node_summaries_found].
  { exists w. by rewrite app_nil_r. }
  rewrite (bind_ok Eff.get_fs _ w (fs w) w eq_refl). unfold FS.read_file.
  destruct (FS.files (fs w) !! _) as [text|] eqn:Hfile.
  - assert (Hthere : FS.exists_ (fs w)
              (Orchestrator.node_summary_file node_summary_base_dir base_name i) = true).
    { unfold FS.exists_, FS.is_file. rewrite Hfile. apply orb_true_iff. right.
      apply bool_decide_eq_true. by eexists. }
    rewrite Hthere. destruct (IH (i + 1) (acc ++ [text]) w) as (w' & Hrun & Hrest).
    exists w'. by rewrite Hrun, <- app_assoc.
  - rewrite app_nil_r. destruct (FS.exists_ _ _); [|by exists w].
    eexists. split; [reflexivity|]. split; [done|]. split; [done|].
    eapply (Quiet_logging ERROR "Error reading node summary"); reflexivity.
Qed.

Lemma Later_read_node_summaries node_summary_base_dir base_name fuel :
  forall i node_summaries_content,
  Steps.Later
    (Orchestrator.read_node_summaries fuel node_summary_base_dir base_name i
       node_summaries_content).
Proof.
  induction fuel as [|fuel IH]; intros i acc;
    cbn [Orchestrator.read_node_summaries]; later.
Qed.

Lemma Later_master_branch f data base_name_ext base_name current_out_dir filing_type :
  Steps.Later
    (Orchestrator.master_branch py_repr hash_content generate_metadata llm
       cache_manager summarizer today output_dir f data base_name_ext base_name
       current_out_dir filing_type).
Proof.
  pose proof Later_write_artifacts. pose proof Later_read_node_summaries.
  unfold Orchestrator.master_branch. later.
Qed.

(** A step that follows the collection of the node summaries runs again
    the same way wherever the same summaries are collected. *)
Lemma collected_again node_summary_base_dir base_name
    (k k' : list string -> M unit) w w1 w2 :
  let collect (k : list string -> M unit) : M unit :=
    fs0 ← Eff.get_fs;
    node_summaries_content ←
      Orchestrator.read_node_summaries (S (size (FS.files fs0)))
        node_summary_base_dir base_name 1 [];
    k node_summaries_content in
  let found w :=
    Orchestrator.node_summaries_found (S (size (FS.files (fs w))))
      (FS.files (fs w)) node_summary_base_dir base_name 1 in
  (forall node_summaries_content w w1,
     k node_summaries_content w = (Ok tt, w1) ->
     Eff.cache_write_failures w1 = Eff.cache_write_failures w ->
     forall w2, Eff.later w1 w2 ->
     exists w3, k' node_summaries_content w2 = (Ok tt, w3) /\
                llm_calls w3 = llm_calls w2 /\ Eff.later w2 w3) ->
  collect k w = (Ok tt, w1) ->
  Eff.cache_write_failures w1 = Eff.cache_write_failures w ->
  Eff.later w1 w2 -> found w2 = found w ->
  exists w3, collect k' w2 = (Ok tt, w3) /\ llm_calls w3 = llm_calls w2 /\
             Eff.later w2 w3.
Proof.
  intros collect found Hk. subst collect found. cbv beta.
  rewrite (bind_ok Eff.get_fs _ w (fs w) w eq_refl).
  rewrite (bind_ok Eff.get_fs _ w2 (fs w2) w2 eq_refl).
  destruct (read_node_summaries_run node_summary_base_dir base_name
              (S (size (FS.files (fs w)))) 1 [] w)
    as (wa & Hread & Hfs & Hcalls & Hfail).
  destruct (read_node_summaries_run node_summary_base_dir base_name
              (S (size (FS.files (fs w2)))) 1 [] w2)
    as (wb & Hread2 & Hfs2 & Hcalls2 & Hfail2).
  rewrite (bind_ok _ _ _ _ _ Hread), (bind_ok _ _ _ _ _ Hread2).
  cbn [app]. intros Hrun Hc Hlater ->.
  assert (Hwb : Eff.later w2 wb) by by apply quiet_later.
  destruct (Hk _ wa w1 Hrun) with (w2 := wb) as (w3 & Hrun3 & Hcalls3 & Hlater3);
    [congruence|by eapply later_trans|].
  exists w3. split; [done|]. split; [congruence|by eapply later_trans].
Qed.

(** Master mode again, on whatever date: its key holds the node
    summaries, not the date. *)
Lemma master_branch_again today' f data base_name_ext current_out_dir
    filing_type w w1 w2 :
  let master_branch today :=
    Orchestrator.master_branch py_repr hash_content generate_metadata llm
      cache_manager summarizer today output_dir f data base_name_ext
      (Path.splitext_root (Path.basename (Orchestrator.filepath f)))
      current_out_dir filing_type in
  master_branch today w = (Ok tt, w1) ->
  Eff.cache_write_failures w1 = Eff.cache_write_failures w ->
  Eff.later w1 w2 ->
  Orchestrator.master_inputs output_dir f w2 =
  Orchestrator.master_inputs output_dir f w ->
  exists w3, master_branch today' w2 = (Ok tt, w3) /\
             llm_calls w3 = llm_calls w2 /\ Eff.later w2 w3.
Proof using Henabled.
  pose proof Later_write_artifacts.
  intros master_branch Hrun Hc Hlater Hsame.
  subst master_branch. cbv beta in Hrun |- *.
  unfold Orchestrator.master_branch in Hrun |- *.
  eapply collected_again; [|exact Hrun|exact Hc|exact Hlater|exact Hsame].
  intros [|text node_summaries_content]; [apply Rerun_logging|].
  intros wa wb Hgate Hcb wc Hlaterc. exists wc.
  split; [|split; [done|apply later_refl]].
  eapply gate_closed; [done| | |exact Hgate|exact Hcb|exact Hlaterc].
  - later.
  - apply Marks_bind_r; [later|intros title; later|intros title].
    apply Marks_guarded; [later|intros s; later].
Qed.
Lemma bind_returns {A B} (m : M A) (k : A -> M B) w b w1 :
  (m ≫= k) w = (Ok b, w1) ->
  exists a wa, m w = (Ok a, wa) /\ k a wa = (Ok b, w1).
Proof.
  unfold mbind, M_bind. destruct (m w) as [[a|e] wa]; [by exists a, wa|done].
Qed.

Lemma eff_makedirs_made exist_ok p w w' :
  Eff.makedirs exist_ok p w = (Ok tt, w') -> FS.is_dir (fs w') p = true.
Proof.
  unfold Eff.makedirs.
  destruct (FS.makedirs exist_ok p (fs w)) as [[fs1|] fs'] eqn:Hmk; [|done].
  intros [= <-]. by eapply makedirs_made.
Qed.

(** The body of the per-file loop, run again after a run that returned
    and logged no failed cache write. *)
Lemma process_file_again today' mode f w w1 w2 :
  let process_file today :=
    Orchestrator.process_file py_repr hash_content sanitize_id generate_metadata
      llm chunker cache_manager summarizer today output_dir theme mode f in
  (forall data, Orchestrator.loaded f = Some data ->
     mode = "file" \/ mode = "news" ->
     Orchestrator.is_news_article (Orchestrator.filepath f) = true ->
     Orchestrator.within_budget data) ->
  (mode = "file" ->
   Orchestrator.is_news_article (Orchestrator.filepath f) = false ->
   today' = today) ->
  process_file today w = (Ok tt, w1) ->
  Eff.cache_write_failures w1 = Eff.cache_write_failures w ->
  Eff.later w1 w2 ->
  (mode = "master" ->
   Orchestrator.master_inputs output_dir f w2 =
   Orchestrator.master_inputs output_dir f w) ->
  exists w3, process_file today' w2 = (Ok tt, w3) /\ llm_calls w3 = llm_calls w2.
Proof using Henabled.
  intros process_file Hbudget Hdate Hrun Hc Hlater Hsame. subst process_file.
  cbv beta in Hrun |- *.
  unfold Orchestrator.process_file in Hrun |- *. cbv zeta in Hrun |- *.
  destruct (Orchestrator.loaded f) as [data|]; [|by eexists].
  specialize (Hbudget data eq_refl).
  apply bind_returns in Hrun as ([] & wa & Hmk & Hchain).
  destruct (eff_makedirs_frame _ _ _ _ _ Hmk) as (_ & _ & Hlog & Hfiles & _).
  assert (Hc1 : Eff.cache_write_failures w1 = Eff.cache_write_failures wa).
  { rewrite Hc. unfold Eff.cache_write_failures. by rewrite Hlog. }
  assert (Hinputs : mode = "master" ->
            Orchestrator.master_inputs output_dir f w2 =
            Orchestrator.master_inputs output_dir f wa).
  { intros Hm. rewrite (Hsame Hm). unfold Orchestrator.master_inputs.
    by rewrite Hfiles. }
  match type of Hchain with ?c wa = _ => assert (Hl : Steps.Later c) end.
  { repeat case_match;
      eauto using Later_file_branch, Later_node_branch, Later_master_branch,
        Later_cross_branch with steps. }
  rewrite (bind_ok _ _ w2 tt w2); cycle 1.
  { apply makedirs_again; [|by eapply makedirs_truthy].
    destruct Hlater as (Hdirs & _). apply Hdirs.
    destruct (Hl _ _ _ Hchain) as (Hdirs' & _). apply Hdirs'.
    by eapply eff_makedirs_made. }
  clear Hl Hmk. revert Hchain.
  destruct (String.eqb mode "file" || _) eqn:Hfile.
  { intros Hchain.
    assert (Hsame_date :
      Orchestrator.file_branch py_repr hash_content sanitize_id generate_metadata
        llm chunker cache_manager summarizer today' f data
        (Orchestrator.is_news_article (Orchestrator.filepath f))
        (Path.basename (Orchestrator.filepath f))
        (Path.splitext_root (Path.basename (Orchestrator.filepath f)))
        (Path.join (Path.join output_dir (mode +:+ "-level"))
           (Orchestrator.rel_dir f))
        (Orchestrator.effective_filing_type
           (Orchestrator.is_news_article (Orchestrator.filepath f))
           (Path.basename (Orchestrator.filepath f)) data) =
      Orchestrator.file_branch py_repr hash_content sanitize_id generate_metadata
        llm chunker cache_manager summarizer today f data
        (Orchestrator.is_news_article (Orchestrator.filepath f))
        (Path.basename (Orchestrator.filepath f))
        (Path.splitext_root (Path.basename (Orchestrator.filepath f)))
        (Path.join (Path.join output_dir (mode +:+ "-level"))
           (Orchestrator.rel_dir f))
        (Orchestrator.effective_filing_type
           (Orchestrator.is_news_article (Orchestrator.filepath f))
           (Path.basename (Orchestrator.filepath f)) data)).
    { destruct (Orchestrator.is_news_article (Orchestrator.filepath f)) eqn:Hnews;
        [reflexivity|].
      rewrite andb_false_r, orb_false_r in Hfile.
      apply String.eqb_eq in Hfile. by rewrite (Hdate Hfile eq_refl). }
    rewrite Hsame_date.
    edestruct Rerun_file_branch as (w3 & Hrun3 & Hcalls3 & _);
      [|exact Hchain|exact Hc1|exact Hlater|by exists w3].
    apply Hbudget.
    by apply orb_true_iff in Hfile
      as [?%String.eqb_eq|[?%String.eqb_eq _]%andb_true_iff]; [left|right]. }
  destruct (String.eqb mode "node" && _) eqn:Hnode.
  { intros Hchain.
    edestruct Rerun_node_branch as (w3 & Hrun3 & Hcalls3 & _);
      [exact Hchain|exact Hc1|exact Hlater|by exists w3]. }
  destruct (String.eqb mode "master" && _) eqn:Hmaster.
  { intros Hchain.
    apply andb_true_iff in Hmaster as [Hmaster%String.eqb_eq _].
    edestruct (master_branch_again today') as (w3 & Hrun3 & Hcalls3 & _);
      [exact Hchain|exact Hc1|exact Hlater|by apply Hinputs|by exists w3]. }
  destruct (String.eqb mode "cross") eqn:Hcross.
  { intros Hchain.
    edestruct Rerun_cross_branch as (w3 & Hrun3 & Hcalls3 & _);
      [exact Hchain|exact Hc1|exact Hlater|by exists w3]. }
  intros _. case_match; by eexists.
Qed.
End Rerun.

(** ** Master mode: the collection of the node summaries ends *)

Lemma append_nil_l s : "" +:+ s = s.
Proof. reflexivity. Qed.

Lemma append_cons c a b : String c a +:+ b = String c (a +:+ b).
Proof. reflexivity. Qed.

Lemma prefix_empty s : String.prefix "" s = true.
Proof. by destruct s. Qed.

Lemma string_length_app a b :
  String.length (a +:+ b) = (String.length a + String.length b)%nat.
Proof.
  induction a as [|c a IH]; [done|].
  change (S (String.length (a +:+ b)) = S (String.length a + String.length b)).
  by rewrite IH.
Qed.

Lemma string_app_inj_r s a : forall b, a +:+ s = b +:+ s -> a = b.
Proof.
  induction a as [|c a IH]; intros [|d b] Heq; [done| | |].
  - apply (f_equal String.length) in Heq.
    rewrite !string_length_app in Heq. cbn in Heq. lia.
  - apply (f_equal String.length) in Heq.
    rewrite !string_length_app in Heq. cbn in Heq. lia.
  - change (String c (a +:+ s) = String d (b +:+ s)) in Heq.
    injection Heq as -> Heq. f_equal. by apply IH.
Qed.

Lemma to_int_not_nil z :
  Z.to_int z <> Decimal.Pos Decimal.Nil /\ Z.to_int z <> Decimal.Neg Decimal.Nil.
Proof.
  destruct z as [|p|p]; cbn; split; try done;
    intros [= Hnil]; by apply Unsigned.to_uint_nonnil in Hnil.
Qed.

Lemma of_Z_inj i j : Str.of_Z i = Str.of_Z j -> i = j.
Proof.
  unfold Str.of_Z. intros Heq. apply DecimalZ.to_int_inj.
  apply (f_equal NilZero.int_of_string) in Heq.
  destruct (to_int_not_nil i), (to_int_not_nil j).
  rewrite !NilZero.isi in Heq by done. by injection Heq.
Qed.

Lemma node_summary_file_inj node_summary_base_dir base_name i j :
  Orchestrator.node_summary_file node_summary_base_dir base_name i =
  Orchestrator.node_summary_file node_summary_base_dir base_name j ->
  i = j.
Proof.
  unfold Orchestrator.node_summary_file, Path.join.
  assert (Hstart : forall k,
            Str.startswith
              (base_name +:+ "_section_" +:+ Str.of_Z k +:+ "_summary.md") "/" =
            Str.startswith (base_name +:+ "_") "/")
    by (intros k; destruct base_name; rewrite ?append_nil_l, !append_cons;
        unfold Str.startswith; cbn [String.prefix]; destruct (ascii_dec _ _);
        rewrite ?prefix_empty; reflexivity).
  rewrite !Hstart.
  assert (Hname : base_name +:+ "_section_" +:+ Str.of_Z i +:+ "_summary.md" =
                  base_name +:+ "_section_" +:+ Str.of_Z j +:+ "_summary.md" ->
                  i = j).
  { intros Heq%String.app_inj%(String.app_inj "_section_").
    by apply of_Z_inj, (string_app_inj_r "_summary.md"). }
  destruct (Str.startswith _ _); [exact Hname|].
  destruct (_ || _); [by intros ?%String.app_inj; apply Hname|].
  intros Heq%String.app_inj. by apply Hname, (String.app_inj "/").
Qed.

(** With a missing file within reach of the fuel, more fuel collects
    the same summaries. *)
Lemma node_summaries_found_stable files node_summary_base_dir base_name fuel :
  forall i k,
  (k < fuel)%nat ->
  files !! Orchestrator.node_summary_file node_summary_base_dir base_name
             (i + Z.of_nat k) = None ->
  forall more,
  Orchestrator.node_summaries_found (fuel + more) files node_summary_base_dir
    base_name i =
  Orchestrator.node_summaries_found fuel files node_summary_base_dir base_name i.
Proof.
  induction fuel as [|fuel IH]; intros i k Hk Hnone more; [lia|].
  cbn [Nat.add Orchestrator.node_summaries_found].
  destruct (files !! Orchestrator.node_summary_file node_summary_base_dir
                       base_name i) as [text|] eqn:Hfile; [|done].
  f_equal. destruct k as [|k].
  - rewrite Z.add_0_r in Hnone. congruence.
  - apply (IH (i + 1) k); [lia|].
    by replace (i + 1 + Z.of_nat k) with (i + Z.of_nat (S k)) by lia.
Qed.

(** Among the first [size files + 1] node summaries one is missing. *)
Lemma node_summary_missing (files : gmap string string) node_summary_base_dir
    base_name i :
  exists k, (k < S (size files))%nat /\
    files !! Orchestrator.node_summary_file node_summary_base_dir base_name
               (i + Z.of_nat k) = None.
Proof.
  set (path k := Orchestrator.node_summary_file node_summary_base_dir base_name
                   (i + Z.of_nat k)).
  set (paths := path <$> seq 0 (S (size files))).
  destruct (decide (Forall (fun p => is_Some (files !! p)) paths)) as [Hall|Hnot].
  - assert (Hdup : NoDup paths).
    { apply NoDup_fmap_2; [|apply NoDup_seq].
      intros k k' Heq%node_summary_file_inj. lia. }
    assert (Hsub : (list_to_set paths : gset string) ⊆ dom files).
    { intros p Hp%elem_of_list_to_set. apply elem_of_dom.
      by eapply Forall_forall in Hall. }
    apply subseteq_size in Hsub.
    rewrite size_list_to_set, size_dom in Hsub by done.
    unfold paths in Hsub. rewrite length_fmap, length_seq in Hsub. lia.
  - apply not_Forall_Exists, Exists_exists in Hnot as (p & Hp & Hnone);
      [|apply _].
    apply list_elem_of_fmap in Hp as (k & -> & [_ Hk]%elem_of_seq).
    exists k. split; [lia|]. by apply eq_None_not_Some.
Qed.

(** The fuel of the collection loop is never the reason it ends: any
    more fuel collects the same node summaries. *)
Lemma node_summaries_found_fuel (files : gmap string string)
    node_summary_base_dir base_name i more :
  Orchestrator.node_summaries_found (S (size files) + more) files
    node_summary_base_dir base_name i =
  Orchestrator.node_summaries_found (S (size files)) files node_summary_base_dir
    base_name i.
Proof.
  destruct (node_summary_missing files node_summary_base_dir base_name i)
    as (k & Hk & Hnone).
  by eapply node_summaries_found_stable.
Qed.

Lemma read_node_summaries_fuel node_summary_base_dir base_name more w :
  let files := FS.files (fs w) in
  (Orchestrator.read_node_summaries (S (size files) + more)
     node_summary_base_dir base_name 1 [] w).1 =
  (Orchestrator.read_node_summaries (S (size files)) node_summary_base_dir
     base_name 1 [] w).1.
Proof.
  intros files.
  destruct (read_node_summaries_run node_summary_base_dir base_name
              (S (size files) + more) 1 [] w) as (w' & -> & _).
  destruct (read_node_summaries_run node_summary_base_dir base_name
              (S (size files)) 1 [] w) as (w'' & -> & _).
  cbn [fst app]. f_equal. apply node_summaries_found_fuel.
Qed.




(** * Further properties *)

(** ** TextChunker.chunk_text: sizes and overlaps *)

Lemma window_content {A} (self : Chunker.TextChunker) (text : list A) sec k :
  Chunker.content (Chunker.window self text sec k) =
  Py.slice text (k * (Chunker.max_chunk_size self - Chunker.overlap self))
    (k * (Chunker.max_chunk_size self - Chunker.overlap self) +
     Chunker.max_chunk_size self).
Proof. reflexivity. Qed.

Lemma windows_lookup {A} (self : Chunker.TextChunker) (text : list A) sec n
    (k : nat) c :
  (Chunker.window self text sec <$> seqZ 0 n) !! k = Some c ->
  Z.of_nat k < n /\ c = Chunker.window self text sec (Z.of_nat k).
Proof.
  rewrite list_lookup_fmap. intros Hc.
  destruct (seqZ 0 n !! k) as [j|] eqn:Hj; simplify_eq/=.
  apply lookup_seqZ in Hj as [-> Hk]. split; [lia|]. f_equal; lia.
Qed.

(** With an overlap below the chunk size and enough fuel, the loop ends
    with the windows that start at the multiples of the step. *)
Lemma chunk_text_run {A} `{EqDecision A} (self : Chunker.TextChunker)
    (text : list A) (sec : option string) (fuel : nat) :
  0 <= Chunker.overlap self < Chunker.max_chunk_size self ->
  (length text < fuel)%nat ->
  Chunker.chunk_text fuel self text sec =
  Some (Chunker.window self text sec <$> seqZ 0 (Chunker.chunk_count self text)).
Proof.
  intros [Hov Hmax] Hfuel.
  destruct (decide (text = [])) as [->|Hne]; [reflexivity|].
  assert (HL : 0 < Py.len text) by (unfold Py.len; destruct text; cbn; [done|lia]).
  destruct (chunk_count_spec self text Hmax HL) as (Hn1 & _ & _).
  pose proof (chunk_loop_windows self text sec Hov Hmax fuel 0 []) as Hloop.
  cbn [app] in Hloop. rewrite Z.mul_0_l, !Z.sub_0_r in Hloop.
  unfold Chunker.chunk_text. destruct text as [|c text']; [done|].
  apply Hloop; [done|lia|unfold Py.len in *; lia].
Qed.

Lemma slice_take_drop {A} (s : list A) i j :
  0 <= i <= j ->
  Py.slice s i j = take (Z.to_nat (j - i)) (drop (Z.to_nat i) s).
Proof.
  intros Hij. rewrite slice_nonneg by lia.
  destruct (decide (j <= Py.len s)) as [Hj|Hj].
  - f_equal. lia.
  - rewrite !take_ge; [done|rewrite length_drop; unfold Py.len in *; lia..].
Qed.

(** X1.  With [max_chunk_size > overlap >= 0], every chunk but the last
    holds exactly [max_chunk_size] characters, and the last one between
    one and [max_chunk_size]; only the empty text gives no chunk. *)
Theorem chunk_text_chunk_sizes {A} `{EqDecision A} (self : Chunker.TextChunker)
    (text : list A) (sec : option string) (fuel : nat) cs :
  0 <= Chunker.overlap self < Chunker.max_chunk_size self ->
  (length text < fuel)%nat ->
  Chunker.chunk_text fuel self text sec = Some cs ->
  (forall (k : nat) c,
     cs !! k = Some c -> (S k < length cs)%nat ->
     Py.len (Chunker.content c) = Chunker.max_chunk_size self) /\
  (forall c,
     last cs = Some c ->
     0 < Py.len (Chunker.content c) <= Chunker.max_chunk_size self) /\
  (text = [] <-> cs = []).
Proof.
  intros Hcfg Hfuel Hrun.
  pose proof (chunk_text_run self text sec fuel Hcfg Hfuel) as Hrun'.
  rewrite Hrun in Hrun'. injection Hrun' as Hcs.
  set (step := Chunker.max_chunk_size self - Chunker.overlap self) in *.
  set (n := Chunker.chunk_count self text) in *.
  set (L := Py.len text).
  assert (Hlen : length cs = Z.to_nat n).
  { by rewrite Hcs, length_fmap, length_seqZ. }
  destruct (decide (text = [])) as [->|Hne].
  { assert (Hn : n = 0) by reflexivity.
    rewrite Hn in Hcs. cbn in Hcs. subst cs.
    split; [by intros k c ?|]. split; [by intros c ?|done]. }
  assert (HL : 0 < L).
  { unfold L, Py.len. destruct text; [done|cbn; lia]. }
  destruct (chunk_count_spec self text (proj2 Hcfg) HL) as (Hn1 & Hrest & Hall).
  fold n step in Hn1, Hrest, Hall.
  assert (Hsize : forall k : nat, Z.of_nat k < n ->
            Py.len (Chunker.content (Chunker.window self text sec (Z.of_nat k))) =
            Z.min (Chunker.max_chunk_size self) (L - Z.of_nat k * step)).
  { intros k Hk. rewrite window_content. fold step.
    pose proof (chunk_count_start self text (proj2 Hcfg) (Z.of_nat k) HL
                  ltac:(lia)) as Hstart. fold step in Hstart.
    assert (0 <= Z.of_nat k * step) by nia.
    rewrite slice_nonneg by lia. unfold Py.len. rewrite length_take, length_drop.
    unfold L, Py.len in *. set (x := Z.of_nat k * step) in *. lia. }
  split; [|split].
  - intros k c Hc Hk. rewrite Hcs in Hc.
    apply windows_lookup in Hc as [Hkn ->]. rewrite Hsize by done.
    specialize (Hall (Z.of_nat k + 1) ltac:(lia)).
    replace ((Z.of_nat k + 1) * step) with (Z.of_nat k * step + step) in Hall
      by lia.
    unfold step in Hall |- *. lia.
  - intros c Hc. rewrite last_lookup in Hc. rewrite Hcs in Hc at 2.
    apply windows_lookup in Hc as [Hkn ->]. rewrite Hsize by done.
    pose proof (chunk_count_start self text (proj2 Hcfg)
                  (Z.of_nat (Nat.pred (length cs))) HL ltac:(lia)) as Hstart.
    fold step in Hstart. lia.
  - split; [done|]. intros ->. cbn in Hlen. lia.
Qed.

(** A text of 250 characters in chunks of 100 with an overlap of 20:
    chunks of 100, 100 and 90 characters. *)
Lemma chunk_text_chunk_sizes_250 :
  let self := Chunker.mkTextChunker 100 20 in
  let text := replicate 250 "a"%char in
  exists cs,
    Chunker.chunk_text 251 self text None = Some cs /\
    (Py.len <$> (Chunker.content <$> cs)) = [100; 100; 90] /\
    (forall (k : nat) c,
       cs !! k = Some c -> (S k < length cs)%nat ->
       Py.len (Chunker.content c) = 100) /\
    (forall c, last cs = Some c -> 0 < Py.len (Chunker.content c) <= 100).
Proof.
  intros self text.
  destruct (chunk_text_terminates self text None 251) as [cs Hrun];
    [cbn; lia|cbn; lia|].
  exists cs. split; [done|].
  destruct (chunk_text_chunk_sizes self text None 251 cs) as (Hfull & Hlast & _);
    [cbn; lia|cbn; lia|exact Hrun|].
  split; [|by split].
  vm_compute in Hrun. by injection Hrun as <-.
Defined.

(** X2.  With [max_chunk_size > overlap >= 0], consecutive chunks share
    [overlap] characters: what a chunk holds past its first
    [max_chunk_size - overlap] characters is what the next chunk starts
    with. *)
Theorem chunk_text_overlap {A} `{EqDecision A} (self : Chunker.TextChunker)
    (text : list A) (sec : option string) (fuel : nat) cs (k : nat) c c' :
  0 <= Chunker.overlap self < Chunker.max_chunk_size self ->
  (length text < fuel)%nat ->
  Chunker.chunk_text fuel self text sec = Some cs ->
  cs !! k = Some c -> cs !! S k = Some c' ->
  Py.slice_from (Chunker.content c)
    (Chunker.max_chunk_size self - Chunker.overlap self) =
  Py.slice_to (Chunker.content c') (Chunker.overlap self) /\
  Py.len (Py.slice_to (Chunker.content c') (Chunker.overlap self)) =
  Chunker.overlap self.
Proof.
  intros Hcfg Hfuel Hrun Hc Hc'.
  pose proof (chunk_text_run self text sec fuel Hcfg Hfuel) as Hrun'.
  rewrite Hrun in Hrun'. injection Hrun' as Hcs.
  rewrite Hcs in Hc, Hc'.
  apply windows_lookup in Hc as [Hkn ->].
  apply windows_lookup in Hc' as [Hkn' Heq'].
  set (step := Chunker.max_chunk_size self - Chunker.overlap self) in *.
  assert (Hx : 0 <= Z.of_nat k * step) by (unfold step; nia).
  assert (HL : 0 < Py.len text).
  { destruct text; [|unfold Py.len; cbn; lia].
    change (Chunker.chunk_count self []) with 0 in Hkn. lia. }
  destruct (chunk_count_spec self text (proj2 Hcfg) HL) as (_ & _ & Hall).
  specialize (Hall (Z.of_nat (S k)) ltac:(lia)). fold step in Hall.
  assert (Hlen' : Chunker.overlap self <= Py.len (Chunker.content c')).
  { rewrite Heq', window_content. fold step.
    rewrite slice_take_drop by lia.
    set (x := Z.of_nat (S k) * step) in *.
    assert (0 <= x) by (unfold x, step; nia).
    unfold Py.len in *. rewrite length_take, length_drop. lia. }
  split.
  - rewrite slice_from_nonneg by (unfold step; lia).
    unfold Py.slice_to, Py.slice_index.
    replace (Chunker.overlap self <? 0) with false by (symmetry; lia).
    replace (Z.min (Chunker.overlap self) (Py.len (Chunker.content c')))
      with (Chunker.overlap self) by lia.
    rewrite Heq', !window_content. fold step.
    rewrite !slice_take_drop by lia.
    rewrite skipn_firstn_comm, drop_drop, take_take.
    replace (Z.of_nat (S k) * step) with (Z.of_nat k * step + step) by lia.
    f_equal; [|f_equal]; unfold step; lia.
  - unfold Py.slice_to, Py.slice_index.
    replace (Chunker.overlap self <? 0) with false by (symmetry; lia).
    unfold Py.len in *. rewrite length_take. lia.
Qed.

(** The text "abcdefghij" in chunks of 4 with an overlap of 2: "abcd"
    and "cdef" share "cd". *)
Lemma chunk_text_overlap_abc :
  let self := Chunker.mkTextChunker 4 2 in
  let text := list_ascii_of_string "abcdefghij" in
  let c := Chunker.mkChunk (list_ascii_of_string "abcd") None 0 in
  let c' := Chunker.mkChunk (list_ascii_of_string "cdef") None 1 in
  Py.slice_from (Chunker.content c) 2 = Py.slice_to (Chunker.content c') 2 /\
  Py.len (Py.slice_to (Chunker.content c') 2) = 2.
Proof.
  intros self text c c'.
  destruct (chunk_text_terminates self text None 11) as [cs Hrun];
    [cbn; lia|cbn; lia|].
  apply (chunk_text_overlap self text None 11 cs 0 c c');
    [cbn; lia|cbn; lia|exact Hrun|..];
    vm_compute in Hrun; by injection Hrun as <-.
Defined.

(** ** The dynamic chunking of oversized news *)

(** X3.  Whatever the estimate and the length, the plan of the dynamic
    path is a sound chunker configuration: at least two chunks planned,
    a chunk size of at least 20,000 characters, and an overlap that is
    always the tenth of the chunk size (the floor of 1,000 characters
    never applies), so at least 2,000 characters and below the chunk
    size.  A [TextChunker] set to it therefore returns on every text,
    with the sliding windows of that size and overlap. *)
Theorem dynamic_chunk_plan_chunks (estimated_tokens total_chars : Z) :
  exists n size ov,
    Orchestrator.dynamic_chunk_plan estimated_tokens total_chars = (n, size, ov) /\
    2 <= n /\ 20000 <= size /\ ov = size `div` 10 /\ 2000 <= ov < size /\
    forall (text : list ascii) sec (fuel : nat),
      (length text < fuel)%nat ->
      let self := Chunker.mkTextChunker size ov in
      Chunker.chunk_text fuel self text sec =
      Some (Chunker.window self text sec <$> seqZ 0 (Chunker.chunk_count self text)).
Proof.
  unfold Orchestrator.dynamic_chunk_plan.
  set (n := Z.max 2 _). set (size := Z.max 20000 _).
  assert (Hsize : 20000 <= size) by (unfold size; lia).
  assert (Hdiv : 10 * (size `div` 10) <= size)
    by (apply Z.mul_div_le; lia).
  assert (Hlow : 2000 <= size `div` 10)
    by (apply Z.div_le_lower_bound; lia).
  exists n, size, (size `div` 10).
  split; [by rewrite Z.max_r by lia|]. split; [unfold n; lia|].
  split; [done|]. split; [done|]. split; [lia|].
  intros text sec fuel Hfuel. cbv zeta.
  apply chunk_text_run; [cbn; lia|done].
Qed.

(** X4.  The dynamic path is taken exactly by the news articles whose
    content has 665,004 characters or more: shorter content is within
    the budget of 190,000 estimated tokens and goes to the summarizer
    whole, without a warning and without a call to the chunker. *)
Theorem dynamic_chunking_threshold (llm : nat -> Kwargs -> result string)
    (chunker : Orchestrator.ChunkerI) (summarizer : Summarization.LLMSummarizer)
    (fields : list (string * Json)) (content : string)
    (base_name filing_type : string) (w : World) :
  PyVal.dict_lookup fields "content" = Some (JStr content) ->
  (exists estimated_tokens,
     Summarization.estimate_tokens (JStr content) = Ok estimated_tokens /\
     (estimated_tokens > Orchestrator.content_token_limit <->
      665004 <= Str.len content)) /\
  (Orchestrator.within_budget (JObj fields) <-> Str.len content <= 665003) /\
  (Str.len content <= 665003 ->
   Orchestrator.news_text llm chunker summarizer (JObj fields) base_name
     filing_type w =
   (Ok (JStr content,
        [("title", PyVal.dict_get_default fields "title" (JStr base_name))],
        "none"), w)).
Proof.
  intros Hcontent.
  assert (Hest : Summarization.estimate_tokens (JStr content) =
                 Ok ((2 * Str.len content) `div` 7)).
  { unfold Summarization.estimate_tokens. destruct content; reflexivity. }
  assert (Hthreshold :
            (2 * Str.len content) `div` 7 > Orchestrator.content_token_limit <->
            665004 <= Str.len content).
  { unfold Orchestrator.content_token_limit.
    pose proof (Z.div_mod (2 * Str.len content) 7 ltac:(lia)).
    pose proof (Z.mod_pos_bound (2 * Str.len content) 7 ltac:(lia)). lia. }
  split; [by eexists|]. split.
  - unfold Orchestrator.within_budget, Orchestrator.py_get_default,
      PyVal.dict_get_default.
    rewrite Hcontent. cbn [default]. cbv beta iota. unfold id. rewrite Hest.
    unfold Orchestrator.content_token_limit in *. lia.
  - intros Hshort. unfold Orchestrator.news_text, Orchestrator.py_get_default,
      PyVal.dict_get_default.
    rewrite Hcontent. cbn [default].
    unfold mbind, M_bind, Eff.lift. cbv beta iota. unfold id. rewrite Hest.
    replace (_ >? _) with false by (symmetry; lia). reflexivity.
Qed.

(** An article of 665,003 characters is within the budget. *)
Lemma dynamic_chunking_threshold_665003 :
  let content := Str.repeat "a" 665003 in
  let fields := [("title", JStr "T"); ("content", JStr content)] in
  Orchestrator.within_budget (JObj fields) /\
  Orchestrator.news_text Demo.llm Demo.chunker Demo.summarizer (JObj fields)
    "article" "news" Demo.world =
  (Ok (JStr content, [("title", JStr "T")], "none"), Demo.world).
Proof.
  intros content fields.
  destruct (dynamic_chunking_threshold Demo.llm Demo.chunker Demo.summarizer
              fields content "article" "news" Demo.world eq_refl)
    as (_ & Hbudget & Hrun).
  assert (Hlen : Str.len content <= 665003) by (vm_compute; discriminate).
  split; [by apply Hbudget|by apply Hrun].
Defined.

(** ** get_full_text *)

Lemma rev_app_truthy s : forall acc,
  Str.truthy acc = true -> Str.truthy (String.rev_app s acc) = true.
Proof. induction s as [|c s IH]; intros acc Hacc; [done|]. by apply IH. Qed.

Lemma lstrip_rev_app_truthy s : forall acc,
  Str.truthy (Str.lstrip acc) = true ->
  Str.truthy (Str.lstrip (String.rev_app s acc)) = true.
Proof.
  induction s as [|c s IH]; intros acc Hacc; [done|].
  apply IH. cbn [Str.lstrip]. by destruct (Str.is_space c).
Qed.

(** A text that starts with a character that is not white space is not
    blank. *)
Lemma strip_truthy c s :
  Str.is_space c = false -> Str.truthy (Str.strip (String c s)) = true.
Proof.
  intros Hc. unfold Str.strip. cbn [Str.lstrip]. rewrite Hc.
  unfold String.rev at 1. destruct (Str.lstrip _) eqn:Hstrip.
  - assert (Ht : Str.truthy (Str.lstrip (String.rev (String c s))) = true).
    { change (String.rev (String c s)) with (String.rev_app s (String c "")).
      apply lstrip_rev_app_truthy. cbn [Str.lstrip]. by rewrite Hc. }
    by rewrite Hstrip in Ht.
  - cbn [String.rev_app]. by apply rev_app_truthy.
Qed.

(** X5.  The full text of a dict or of a list is its indented JSON
    text, which opens with a brace or a bracket: stripped of white
    space it is never empty (the test by which file mode skips a
    document).  A string is its own full text. *)
Theorem get_full_text_not_blank :
  (forall fields,
     Str.truthy (Str.strip (Chunker.get_full_text (JObj fields))) = true /\
     Str.startswith (Chunker.get_full_text (JObj fields)) "{" = true) /\
  (forall items,
     Str.truthy (Str.strip (Chunker.get_full_text (JList items))) = true /\
     Str.startswith (Chunker.get_full_text (JList items)) "[" = true) /\
  (forall s, Chunker.get_full_text (JStr s) = s).
Proof.
  split; [|split; [|done]].
  - intros fields.
    assert (Hopen : exists rest,
              Chunker.get_full_text (JObj fields) = String "{" rest)
      by (destruct fields; eexists; reflexivity).
    destruct Hopen as [rest ->]. split; [by apply strip_truthy|].
    unfold Str.startswith. cbn [String.prefix]. by destruct rest.
  - intros items.
    assert (Hopen : exists rest,
              Chunker.get_full_text (JList items) = String "[" rest)
      by (destruct items; eexists; reflexivity).
    destruct Hopen as [rest ->]. split; [by apply strip_truthy|].
    unfold Str.startswith. cbn [String.prefix]. by destruct rest.
Qed.

(** ** LLMSummarizer.summarize: the keyword arguments *)

Lemma lookup_kw_set kwargs key value k :
  PyVal.dict_lookup (Summarization.kw_set kwargs key value) k =
  if String.eqb key k then Some value else PyVal.dict_lookup kwargs k.
Proof.
  induction kwargs as [|[k0 v0] kwargs IH]; cbn [Summarization.kw_set PyVal.dict_lookup].
  - by destruct (String.eqb key k).
  - destruct (String.eqb k0 key) eqn:Hk0; cbn [PyVal.dict_lookup].
    + apply String.eqb_eq in Hk0 as ->. by destruct (String.eqb key k).
    + rewrite IH. destruct (String.eqb k0 k) eqn:Hk; [|done].
      apply String.eqb_eq in Hk as ->. by rewrite String.eqb_sym, Hk0.
Qed.

Lemma lookup_kw_remove kwargs key k :
  PyVal.dict_lookup (Summarization.kw_remove kwargs key) k =
  if String.eqb key k then None else PyVal.dict_lookup kwargs k.
Proof.
  unfold Summarization.kw_remove, Kwargs.
  induction kwargs as [|[k0 v0] kwargs IH]; [by destruct (String.eqb key k)|].
  destruct (decide (k0 = key)) as [->|Hne].
  - rewrite filter_cons_False by (cbn; tauto). rewrite IH.
    cbn [PyVal.dict_lookup]. by destruct (String.eqb key k).
  - rewrite filter_cons_True by done. cbn [PyVal.dict_lookup]. rewrite IH.
    destruct (String.eqb k0 k) eqn:Hk; [|done].
    apply String.eqb_eq in Hk as ->.
    rewrite String.eqb_sym. by apply String.eqb_neq in Hne as ->.
Qed.

Lemma kw_has_lookup kwargs k :
  Summarization.kw_has kwargs k = true <-> is_Some (PyVal.dict_lookup kwargs k).
Proof. unfold Summarization.kw_has. apply bool_decide_eq_true. Qed.

(** The placeholders given to the variables of [missing]. *)
Lemma lookup_placeholders missing : forall kwargs k,
  PyVal.dict_lookup
    (foldl (fun kw v => Summarization.kw_set kw v (JStr "[Information not provided]"))
       kwargs missing) k =
  match PyVal.dict_lookup kwargs k with
  | Some x =>
    Some (if bool_decide (k ∈ missing) then JStr "[Information not provided]" else x)
  | None =>
    if bool_decide (k ∈ missing) then Some (JStr "[Information not provided]")
    else None
  end.
Proof.
  induction missing as [|v missing IH]; intros kwargs k; cbn [foldl].
  - rewrite !bool_decide_eq_false_2 by apply not_elem_of_nil.
    by destruct (PyVal.dict_lookup kwargs k).
  - rewrite IH, lookup_kw_set. destruct (String.eqb v k) eqn:Hv.
    + apply String.eqb_eq in Hv as ->.
      rewrite (bool_decide_eq_true_2 (k ∈ k :: missing))
        by (apply elem_of_cons; by left).
      by destruct (PyVal.dict_lookup kwargs k), (bool_decide (k ∈ missing)).
    + apply String.eqb_neq in Hv.
      assert (Hin : bool_decide (k ∈ v :: missing) = bool_decide (k ∈ missing)).
      { apply bool_decide_ext. rewrite elem_of_cons.
        split; [by intros [->|?]|by right]. }
      by rewrite Hin.
Qed.

(** X6.  The dict that [summarize] hands to the chain supplies every
    input variable of the template: a variable that was not provided
    gets the placeholder, and a provided value is never replaced by it.
    When the template expects [text] and [content] was provided, the
    content is passed under [text] (in place of a [text] that was
    provided too).  The preparation touches neither files nor the LLM. *)
Theorem prepare_kwargs_supplies (pt : Summarization.PromptTemplate)
    (kwargs : Kwargs) (w : World) :
  let renamed :=
    Summarization.kw_has kwargs "content" &&
    bool_decide ("text" ∈ Summarization.input_variables pt) in
  exists kwargs' w',
    Summarization.prepare_kwargs pt kwargs w = (Ok kwargs', w') /\
    fs w' = fs w /\ llm_calls w' = llm_calls w /\ sleeps w' = sleeps w /\
    (forall v, v ∈ Summarization.input_variables pt ->
       is_Some (PyVal.dict_lookup kwargs' v)) /\
    (forall k x,
       PyVal.dict_lookup kwargs k = Some x ->
       (renamed = true -> k <> "content" /\ k <> "text") ->
       PyVal.dict_lookup kwargs' k = Some x) /\
    (renamed = true ->
     PyVal.dict_lookup kwargs' "text" = PyVal.dict_lookup kwargs "content") /\
    (forall k x,
       PyVal.dict_lookup kwargs' k = Some x ->
       x = JStr "[Information not provided]" \/
       PyVal.dict_lookup kwargs k = Some x \/
       k = "text" /\ PyVal.dict_lookup kwargs "content" = Some x).
Proof.
  intros renamed.
  set (kw1 := if renamed
              then Summarization.kw_set (Summarization.kw_remove kwargs "content")
                     "text" (PyVal.dict_get kwargs "content")
              else kwargs).
  set (missing := filter (fun v => Summarization.kw_has kw1 v = false)
                    (Summarization.input_variables pt)).
  set (kwargs' :=
         foldl (fun kw v => Summarization.kw_set kw v (JStr "[Information not provided]"))
           kw1 missing).
  assert (Hrun : exists w',
            Summarization.prepare_kwargs pt kwargs w = (Ok kwargs', w') /\
            fs w' = fs w /\ llm_calls w' = llm_calls w /\ sleeps w' = sleeps w).
  { unfold Summarization.prepare_kwargs. fold renamed. fold kw1. fold missing.
    unfold kwargs'. destruct missing; by eexists. }
  destruct Hrun as (w' & Hrun & Hfs & Hcalls & Hsleeps).
  exists kwargs', w'. do 4 (split; [done|]).
  assert (Hlookup : forall k,
            PyVal.dict_lookup kwargs' k =
            match PyVal.dict_lookup kw1 k with
            | Some x => Some x
            | None =>
              if bool_decide (k ∈ Summarization.input_variables pt)
              then Some (JStr "[Information not provided]") else None
            end).
  { intros k. unfold kwargs'. rewrite lookup_placeholders.
    destruct (PyVal.dict_lookup kw1 k) as [x|] eqn:Hk.
    - rewrite bool_decide_eq_false_2; [done|].
      unfold missing. rewrite list_elem_of_filter.
      intros [Hhas _]. apply not_true_iff_false in Hhas. apply Hhas.
      apply kw_has_lookup. by rewrite Hk.
    - rewrite (bool_decide_ext (k ∈ missing)
                 (k ∈ Summarization.input_variables pt)); [done|].
      unfold missing. rewrite list_elem_of_filter. split; [tauto|]. intros Hin. split; [|done].
      apply not_true_iff_false. rewrite kw_has_lookup, Hk. by intros []. }
  assert (Hkw1 : forall k,
            PyVal.dict_lookup kw1 k =
            if renamed
            then if String.eqb "text" k then Some (PyVal.dict_get kwargs "content")
                 else if String.eqb "content" k then None
                 else PyVal.dict_lookup kwargs k
            else PyVal.dict_lookup kwargs k).
  { intros k. unfold kw1. destruct renamed; [|done].
    by rewrite lookup_kw_set, lookup_kw_remove. }
  assert (Hcontent : renamed = true ->
            Some (PyVal.dict_get kwargs "content") =
            PyVal.dict_lookup kwargs "content").
  { intros [Hhas _]%andb_true_iff. apply kw_has_lookup in Hhas as [c Hc].
    unfold PyVal.dict_get. by rewrite Hc. }
  split; [|split; [|split]].
  - intros v Hv. rewrite Hlookup.
    destruct (PyVal.dict_lookup kw1 v); [done|].
    by rewrite bool_decide_eq_true_2.
  - intros k x Hk Hkeep. rewrite Hlookup, Hkw1.
    destruct renamed; [|by rewrite Hk].
    destruct (Hkeep eq_refl) as [Hc Ht].
    apply String.eqb_neq in Hc, Ht.
    rewrite (String.eqb_sym "text"), Ht, (String.eqb_sym "content"), Hc.
    by rewrite Hk.
  - intros Hren. rewrite Hlookup, Hkw1, Hren. cbn [String.eqb Ascii.eqb].
    rewrite <- (Hcontent Hren). reflexivity.
  - intros k x. rewrite Hlookup, Hkw1.
    destruct renamed eqn:Hren.
    + destruct (String.eqb "text" k) eqn:Ht.
      * apply String.eqb_eq in Ht as <-. intros [= <-].
        right. right. split; [done|]. by rewrite <- Hcontent.
      * destruct (String.eqb "content" k);
          [|destruct (PyVal.dict_lookup kwargs k); [intros [= <-]; tauto|]];
          case_bool_decide; intros [= <-]; tauto.
    + destruct (PyVal.dict_lookup kwargs k); [intros [= <-]; tauto|].
      case_bool_decide; intros [= <-]; tauto.
Qed.

(** ** LLMSummarizer.summarize: the retry loop *)

Section Retry.
Variable llm : nat -> Kwargs -> result string.
Variable self : Summarization.LLMSummarizer.
Variable pt : Summarization.PromptTemplate.
Variable kwargs : Kwargs.

(** One pass of the loop: at most one call, made with [kwargs], whose
    answer is stripped; nothing but the formatting error is logged. *)
Lemma attempt_run w :
  exists r w' records,
    Summarization.attempt llm pt kwargs w = (r, w') /\
    fs w' = fs w /\ sleeps w' = sleeps w /\
    log w' = log w ++ records /\
    Forall (fun r => r = (ERROR, "Error formatting prompt for logging")) records /\
    match PyVal.len (Summarization.content_to_log kwargs) with
    | Ok _ =>
      llm_calls w' = llm_calls w ++ [kwargs] /\
      r = match llm (length (llm_calls w)) kwargs with
          | Ok response => Ok (Str.strip response)
          | Raise e => Raise e
          end
    | Raise e => llm_calls w' = llm_calls w /\ r = Raise e
    end.
Proof.
  destruct w as [fs0 calls sl lg].
  unfold Summarization.attempt, mbind, M_bind, Eff.lift.
  destruct (PyVal.len _) as [n|e].
  - destruct (Summarization.format pt kwargs); cbn;
      destruct (llm (length calls) kwargs) as [response|e]; cbn.
    + eexists _, _, []. rewrite app_nil_r. by repeat split.
    + eexists _, _, []. rewrite app_nil_r. by repeat split.
    + eexists _, _, [_]. repeat split. by repeat constructor.
    + eexists _, _, [_]. repeat split. by repeat constructor.
  - eexists _, _, []. cbn. rewrite app_nil_r. by repeat split.
Qed.

Lemma failed_attempts_formatting w w' records :
  log w' = log w ++ records ->
  Forall (fun r => r = (ERROR, "Error formatting prompt for logging")) records ->
  Summarization.failed_attempts w' = Summarization.failed_attempts w.
Proof.
  intros Hlog Hrecords. rewrite (failed_attempts_log _ _ _ Hlog).
  rewrite (no_failed_in_formatting _ Hrecords). cbn. lia.
Qed.

Lemma retry_loop_succeeds (response : string) (j : nat) : forall left retries w,
  (exists n, PyVal.len (Summarization.content_to_log kwargs) = Ok n) ->
  (j < left)%nat -> retries + Z.of_nat j <= Summarization.max_retries self ->
  (forall i, (i < j)%nat ->
     exists e, llm (length (llm_calls w) + i)%nat kwargs = Raise e) ->
  llm (length (llm_calls w) + j)%nat kwargs = Ok response ->
  exists w',
    Summarization.retry_loop llm left self pt kwargs retries w =
      (Ok (Str.strip response), w') /\
    fs w' = fs w /\
    llm_calls w' = llm_calls w ++ replicate (S j) kwargs /\
    sleeps w' = sleeps w ++ ((fun k => 2 ^ k) <$> seqZ (retries + 1) (Z.of_nat j)) /\
    Summarization.failed_attempts w' =
      (Summarization.failed_attempts w + j)%nat.
Proof.
  induction j as [|j IH]; intros left retries w Hlen Hleft Hretries Hfail Hok;
    (destruct left as [|left]; [lia|]);
    destruct (attempt_run w) as (r & w1 & records & Hrun & Hfs & Hsl & Hlog &
                                  Hrecords & Hcall);
    destruct Hlen as [n Hn]; rewrite Hn in Hcall.
  - destruct Hcall as [Hcalls ->]. rewrite Nat.add_0_r in Hok.
    rewrite Hok in Hrun. exists w1.
    cbn [Summarization.retry_loop]. unfold mbind, M_bind, Eff.try.
    rewrite Hrun. split; [done|]. split; [done|]. split; [done|].
    split; [by rewrite Hsl, app_nil_r|].
    rewrite (failed_attempts_formatting _ _ _ Hlog Hrecords). lia.
  - destruct Hcall as [Hcalls ->].
    destruct (Hfail 0%nat ltac:(lia)) as [e He]. rewrite Nat.add_0_r in He.
    rewrite He in Hrun.
    rewrite (retry_loop_failed_pass _ _ _ _ _ _ _ _ _ Hrun).
    replace (retries + 1 >? Summarization.max_retries self) with false
      by (symmetry; lia).
    set (w2 := mkWorld _ _ _ _).
    destruct (IH left (retries + 1) w2) as (w' & Hloop & Hfs' & Hcalls' & Hsl' & Hatt');
      [by exists n|lia|lia| | |].
    + intros i Hi. cbn [llm_calls w2]. rewrite Hcalls, length_app. cbn [length].
      replace (length (llm_calls w) + 1 + i)%nat
        with (length (llm_calls w) + S i)%nat by lia.
      apply Hfail. lia.
    + cbn [llm_calls w2]. rewrite Hcalls, length_app. cbn [length].
      by replace (length (llm_calls w) + 1 + j)%nat
        with (length (llm_calls w) + S j)%nat by lia.
    + exists w'. split; [done|]. split; [by rewrite Hfs'|].
      split; [rewrite Hcalls'; cbn [llm_calls w2]; rewrite Hcalls, <- app_assoc;
              reflexivity|].
      split.
      * rewrite Hsl'. cbn [sleeps w2]. rewrite Hsl, <- app_assoc. f_equal.
        rewrite (seqZ_cons (retries + 1) (Z.of_nat (S j))) by lia.
        cbn [fmap list_fmap app]. do 2 f_equal. f_equal; lia.
      * rewrite Hatt'. unfold Summarization.failed_attempts. cbn [log w2].
        rewrite Hlog, !filter_app, !length_app.
        rewrite (no_failed_in_formatting _ Hrecords).
        rewrite filter_cons_True by done. cbn. lia.
Qed.

(** Whatever the LLM does, the loop returns: every exception of a pass
    is caught.  It makes at most as many calls as it may make passes,
    all with [kwargs], and sleeps 2, 4, 8, ... seconds between them. *)
Lemma retry_loop_bounded (left : nat) : forall retries w,
  exists text w' (calls k : nat),
    Summarization.retry_loop llm left self pt kwargs retries w = (Ok text, w') /\
    fs w' = fs w /\
    llm_calls w' = llm_calls w ++ replicate calls kwargs /\
    (calls <= left)%nat /\
    sleeps w' = sleeps w ++ ((fun k => 2 ^ k) <$> seqZ (retries + 1) (Z.of_nat k)) /\
    (k <= left)%nat /\
    retries + Z.of_nat k <= Z.max retries (Summarization.max_retries self).
Proof.
  induction left as [|left IH]; intros retries w.
  { exists "", w, 0%nat, 0%nat. cbn. rewrite !app_nil_r.
    repeat split; lia. }
  destruct (attempt_run w) as (r & w1 & records & Hrun & Hfs & Hsl & Hlog &
                                Hrecords & Hcall).
  assert (Hcalls : exists c, (c <= 1)%nat /\
            llm_calls w1 = llm_calls w ++ replicate c kwargs).
  { destruct (PyVal.len _); destruct Hcall as [Hcalls _].
    - exists 1%nat. split; [lia|done].
    - exists 0%nat. split; [lia|]. cbn. by rewrite app_nil_r. }
  destruct Hcalls as (c & Hc & Hcalls).
  destruct r as [text|e].
  - exists text, w1, c, 0%nat.
    cbn [Summarization.retry_loop]. unfold mbind, M_bind, Eff.try. rewrite Hrun.
    split; [done|]. split; [done|]. split; [done|]. split; [lia|].
    split; [by rewrite Hsl, app_nil_r|]. split; lia.
  - rewrite (retry_loop_failed_pass _ _ _ _ _ _ _ _ _ Hrun).
    destruct (retries + 1 >? Summarization.max_retries self) eqn:Hmax.
    + eexists _, _, c, 0%nat. split; [reflexivity|]. cbn.
      split; [done|]. split; [done|]. split; [lia|].
      split; [by rewrite Hsl, app_nil_r|]. split; lia.
    + set (w2 := mkWorld _ _ _ _).
      destruct (IH (retries + 1) w2)
        as (text & w' & calls & k & Hloop & Hfs' & Hcalls' & Hle & Hsl' & Hk & Hk').
      exists text, w', (c + calls)%nat, (S k).
      split; [done|]. split; [by rewrite Hfs'|].
      split; [rewrite Hcalls'; cbn [llm_calls w2];
              by rewrite Hcalls, <- app_assoc, replicate_add|].
      split; [lia|]. split.
      * rewrite Hsl'. cbn [sleeps w2]. rewrite Hsl, <- app_assoc. f_equal.
        rewrite (seqZ_cons (retries + 1) (Z.of_nat (S k))) by lia.
        cbn [fmap list_fmap app]. do 2 f_equal. f_equal; lia.
      * rewrite Z.gtb_ltb in Hmax. apply Z.ltb_ge in Hmax. split; lia.
Qed.
End Retry.

Lemma get_prompt_template_cases self mode filing_type w :
  (exists pt w',
     Summarization.get_prompt_template self mode filing_type w = (Ok pt, w')) \/
  Summarization.template_missing self mode filing_type.
Proof.
  unfold Summarization.get_prompt_template, Summarization.template_missing.
  destruct (Summarization.prompts self !! filing_type ≫= _) as [[pt|]|];
    [left; by eexists _, _|..];
    (destruct (Summarization.prompts self !! "default" ≫= _) as [[pt|]|];
     [left; by eexists _, _|right; by split..]).
Qed.

(** [summarize] is the retry loop on the prepared arguments, unless
    the template is missing. *)
Lemma summarize_cases (llm : nat -> Kwargs -> result string)
    (self : Summarization.LLMSummarizer) (mode filing_type : string)
    (kwargs : Kwargs) (w : World) :
  (exists pt kwargs' w2,
     fs w2 = fs w /\ llm_calls w2 = llm_calls w /\ sleeps w2 = sleeps w /\
     Summarization.summarize llm self mode filing_type kwargs w =
     Summarization.retry_loop llm
       (Z.to_nat (Summarization.max_retries self + 1)) self pt kwargs' 0 w2) \/
  (Summarization.template_missing self mode filing_type /\
   exists w',
     Summarization.summarize llm self mode filing_type kwargs w =
       (Raise (ValueError (Summarization.missing_template_message mode filing_type)),
        w') /\
     fs w' = fs w /\ llm_calls w' = llm_calls w /\ sleeps w' = sleeps w).
Proof.
  destruct (get_prompt_template_cases self mode filing_type w)
    as [(pt & w1 & Hpt)|Hmissing].
  - destruct (get_prompt_template_ok _ _ _ _ _ _ Hpt)
      as (rec1 & (Hfs1 & Hcalls1 & Hsl1 & Hlog1) & Hwarn1).
    destruct (prepare_kwargs_ok pt kwargs w1)
      as (kwargs' & w2 & rec2 & Hprep & (Hfs2 & Hcalls2 & Hsl2 & Hlog2) & Hwarn2).
    left. exists pt, kwargs', w2.
    split; [congruence|]. split; [congruence|]. split; [congruence|].
    unfold Summarization.summarize.
    unfold mbind at 1, M_bind at 1. rewrite Hpt.
    unfold mbind at 1, M_bind at 1. by rewrite Hprep.
  - destruct (get_prompt_template_missing self mode filing_type w Hmissing)
      as (w' & Hpt & Hfs & Hcalls & Hsl).
    right. split; [done|]. exists w'. split; [|done].
    unfold Summarization.summarize. unfold mbind at 1, M_bind at 1.
    by rewrite Hpt.
Qed.

(** X7.  When the first [j] calls fail and the next one answers, with
    [j <= max_retries], [summarize] returns that answer stripped of
    surrounding white space: it has made [j + 1] calls, all with the
    prepared arguments, has slept 2, 4, ..., 2^j seconds in between and
    has logged [j] failed calls. *)
Theorem summarize_retries_until_success (llm : nat -> Kwargs -> result string)
    (self : Summarization.LLMSummarizer) (mode filing_type : string)
    (kwargs : Kwargs) (w : World) pt w1 kwargs' w2 (j : nat) response :
  Summarization.get_prompt_template self mode filing_type w = (Ok pt, w1) ->
  Summarization.prepare_kwargs pt kwargs w1 = (Ok kwargs', w2) ->
  (exists n, PyVal.len (Summarization.content_to_log kwargs') = Ok n) ->
  Z.of_nat j <= Summarization.max_retries self ->
  (forall i, (i < j)%nat ->
     exists e, llm (length (llm_calls w) + i)%nat kwargs' = Raise e) ->
  llm (length (llm_calls w) + j)%nat kwargs' = Ok response ->
  exists w',
    Summarization.summarize llm self mode filing_type kwargs w =
      (Ok (Str.strip response), w') /\
    fs w' = fs w /\
    llm_calls w' = llm_calls w ++ replicate (S j) kwargs' /\
    sleeps w' = sleeps w ++ ((fun k => 2 ^ k) <$> seqZ 1 (Z.of_nat j)) /\
    Summarization.failed_attempts w' =
      (Summarization.failed_attempts w + j)%nat.
Proof.
  intros Hpt Hprep Hlen Hj Hfail Hok.
  destruct (get_prompt_template_ok _ _ _ _ _ _ Hpt)
    as (rec1 & (Hfs1 & Hcalls1 & Hsl1 & Hlog1) & Hwarn1).
  destruct (prepare_kwargs_ok pt kwargs w1)
    as (kwargs'' & w2' & rec2 & Hprep' & (Hfs2 & Hcalls2 & Hsl2 & Hlog2) & Hwarn2).
  rewrite Hprep in Hprep'. injection Hprep' as <- <-.
  destruct (retry_loop_succeeds llm self pt kwargs' response j
              (Z.to_nat (Summarization.max_retries self + 1)) 0 w2)
    as (w' & Hrun & Hfs & Hcalls & Hsl & Hatt);
    [done|lia|lia|by rewrite Hcalls2, Hcalls1..|].
  exists w'. split.
  { unfold Summarization.summarize.
    unfold mbind at 1, M_bind at 1. rewrite Hpt.
    unfold mbind at 1, M_bind at 1. by rewrite Hprep. }
  split; [congruence|]. split; [by rewrite Hcalls, Hcalls2, Hcalls1|].
  split; [by rewrite Hsl, Hsl2, Hsl1|].
  rewrite Hatt. f_equal. unfold Summarization.failed_attempts.
  rewrite Hlog2, Hlog1, !filter_app, !length_app.
  rewrite (no_failed_in_warnings _ Hwarn1), (no_failed_in_warnings _ Hwarn2).
  cbn. lia.
Qed.

(** The first call is refused, the second answers. *)
Lemma summarize_retries_until_success_once :
  let llm : nat -> Kwargs -> result string :=
    fun n _ => if (n =? 0)%nat then Raise (LLMError "busy") else Ok " Done. " in
  exists w',
    Summarization.summarize llm Demo.summarizer "file" "10-K"
      [("content", JStr "Annual report.")] Demo.world = (Ok "Done.", w') /\
    llm_calls w' = replicate 2 [("content", JStr "Annual report.")] /\
    sleeps w' = [2] /\
    Summarization.failed_attempts w' = 1%nat.
Proof.
  intros llm.
  destruct (summarize_retries_until_success llm Demo.summarizer "file" "10-K"
              [("content", JStr "Annual report.")] Demo.world Demo.template
              Demo.world [("content", JStr "Annual report.")] Demo.world 1
              " Done. ")
    as (w' & Hrun & _ & Hcalls & Hsl & Hatt).
  - reflexivity.
  - reflexivity.
  - by exists 14.
  - cbn. lia.
  - intros i Hi. exists (LLMError "busy"). by replace i with 0%nat by lia.
  - reflexivity.
  - by exists w'.
Defined.

(** X8.  Whatever the LLM does, [summarize] raises nothing but the
    [ValueError] of a missing template, and that before any call: every
    failure of a call is caught and ends in a returned text.  It makes
    at most [max_retries + 1] calls, each with the same prepared
    arguments, sleeps 2, 4, ... seconds between them, at most
    [max_retries] times, and leaves the files alone. *)
Theorem summarize_bounded (llm : nat -> Kwargs -> result string)
    (self : Summarization.LLMSummarizer) (mode filing_type : string)
    (kwargs : Kwargs) (w : World) :
  exists r w',
    Summarization.summarize llm self mode filing_type kwargs w = (r, w') /\
    fs w' = fs w /\
    match r with
    | Raise e =>
      e = ValueError (Summarization.missing_template_message mode filing_type) /\
      Summarization.template_missing self mode filing_type /\
      llm_calls w' = llm_calls w /\ sleeps w' = sleeps w
    | Ok _ =>
      exists kwargs' (calls k : nat),
        llm_calls w' = llm_calls w ++ replicate calls kwargs' /\
        (calls <= Z.to_nat (Summarization.max_retries self + 1))%nat /\
        sleeps w' = sleeps w ++ ((fun k => 2 ^ k) <$> seqZ 1 (Z.of_nat k)) /\
        Z.of_nat k <= Z.max 0 (Summarization.max_retries self)
    end.
Proof.
  destruct (summarize_cases llm self mode filing_type kwargs w)
    as [(pt & kwargs' & w2 & Hfs2 & Hcalls2 & Hsl2 & ->)
       |(Hmissing & w' & -> & Hfs & Hcalls & Hsl)].
  - destruct (retry_loop_bounded llm self pt kwargs'
                (Z.to_nat (Summarization.max_retries self + 1)) 0 w2)
      as (text & w' & calls & k & Hrun & Hfs & Hcalls & Hle & Hsl & _ & Hk).
    exists (Ok text), w'. split; [done|]. split; [congruence|].
    exists kwargs', calls, k.
    split; [by rewrite Hcalls, Hcalls2|]. split; [done|].
    split; [by rewrite Hsl, Hsl2|lia].
  - by eexists _, w'.
Qed.

(** ** OutputWriter *)

(** The shared body of the two writers never raises and touches no file
    but its own.  It ends in one of three ways: the text is written and
    nothing is logged; the directory or the file could not be created,
    which is logged and changes no file; or the write broke off, which
    is logged and leaves what was written by then. *)
Lemma write_run (output : Writer.Output) (path : string)
    (message : Exc -> string) (w : World) :
  exists w',
    Writer.write output path message w = (Ok tt, w') /\
    llm_calls w' = llm_calls w /\ sleeps w' = sleeps w /\
    FS.dirs (fs w) ⊆ FS.dirs (fs w') /\
    (forall q, q <> path -> FS.files (fs w') !! q = FS.files (fs w) !! q) /\
    ((exists text,
        output = Writer.Text text /\ log w' = log w /\
        FS.read_file path (fs w') = Some text /\
        FS.is_dir (fs w') (Path.dirname path) = true) \/
     (log w' = log w ++ [(ERROR, message OSError)] /\
      FS.files (fs w') = FS.files (fs w)) \/
     (exists e written,
        output = Writer.Breaks e written /\
        log w' = log w ++ [(ERROR, message e)] /\
        FS.read_file path (fs w') = Some written)).
Proof.
  unfold Writer.write, Eff.try, mbind, M_bind, Eff.makedirs.
  destruct (FS.makedirs true (Path.dirname path) (fs w)) as [[fs1|] fs'] eqn:Hmk.
  - pose proof (makedirs_made _ _ _ _ _ Hmk) as Hdir.
    destruct (makedirs_frame _ _ _ _ _ Hmk) as (Hfiles & _ & Hdirs).
    assert (Hwrite : forall content,
              match FS.write_file path content fs' with
              | Some fs2 =>
                FS.dirs fs2 = FS.dirs fs' /\
                FS.files fs2 !! path = Some content /\
                forall q, q <> path -> FS.files fs2 !! q = FS.files (fs w) !! q
              | None => True
              end).
    { intros content. unfold FS.write_file. destruct (_ || _); [done|]. cbn.
      split; [done|]. split; [by rewrite lookup_insert_eq|].
      intros q Hq. by rewrite lookup_insert_ne, Hfiles. }
    destruct output as [text|e written]; unfold Writer.write_to.
    + specialize (Hwrite text). unfold Eff.write_file. cbn [fs].
      destruct (FS.write_file path text fs') as [fs2|].
      * destruct Hwrite as (Hd & Hp & Hq).
        eexists. split; [reflexivity|]. cbn. rewrite Hd.
        do 4 (split; [done|]). left. exists text.
        split; [done|]. split; [done|]. split; [done|].
        unfold FS.is_dir in Hdir |- *. by rewrite Hd.
      * eexists. split; [reflexivity|]. cbn. do 3 (split; [done|]).
        split; [by intros q _; rewrite Hfiles|]. right. by left.
    + specialize (Hwrite written). unfold mbind, M_bind, Eff.write_file. cbn [fs].
      destruct (FS.write_file path written fs') as [fs2|].
      * destruct Hwrite as (Hd & Hp & Hq).
        eexists. split; [reflexivity|]. cbn. rewrite Hd.
        do 4 (split; [done|]). right. right. by exists e, written.
      * eexists. split; [reflexivity|]. cbn. do 3 (split; [done|]).
        split; [by intros q _; rewrite Hfiles|]. right. by left.
  - destruct (makedirs_frame _ _ _ _ _ Hmk) as (Hfiles & _ & Hdirs).
    eexists. split; [reflexivity|]. cbn. do 3 (split; [done|]).
    split; [by intros q _; rewrite Hfiles|]. right. by left.
Qed.


(** X10.  A path without a directory part cannot be written:
    [os.makedirs] refuses the empty directory name, so the writers log
    the failure and leave the file system as it is, also when the file
    could have been created. *)
Theorem write_bare_filename (output : Writer.Output) (path : string)
    (w : World) :
  Path.dirname path = "" ->
  Writer.write_summary output path w =
    (Ok tt, mkWorld (fs w) (llm_calls w) (sleeps w)
              (log w ++ [(ERROR, "Failed to write summary")])) /\
  Writer.write_metadata output path w =
    (Ok tt, mkWorld (fs w) (llm_calls w) (sleeps w)
              (log w ++ [(ERROR, "Failed to write metadata")])).
Proof.
  intros Hbare.
  unfold Writer.write_summary, Writer.write_metadata, Writer.write, Eff.try,
    mbind, M_bind, Eff.makedirs, FS.makedirs.
  rewrite Hbare. by split.
Qed.

(** The summary of the demonstration under a bare file name. *)
Lemma write_bare_filename_summary :
  Path.dirname "summary.md" = "" /\
  Writer.write_summary (Writer.Text "A summary.") "summary.md" Demo.world =
  (Ok tt, mkWorld (fs Demo.world) [] [] [(ERROR, "Failed to write summary")]).
Proof.
  split; [reflexivity|].
  apply (write_bare_filename (Writer.Text "A summary.") "summary.md" Demo.world).
  reflexivity.
Defined.

(** ** Orchestrator: the two files of a request *)

Lemma write_artifacts_run (generate_metadata : Kwargs -> string)
    (summary_text : string) (meta_args : Kwargs)
    (output_path_md output_path_json : string) (w : World) :
  output_path_md <> output_path_json ->
  exists w',
    Orchestrator.write_artifacts generate_metadata summary_text meta_args
      output_path_md output_path_json w = (Ok tt, w') /\
    llm_calls w' = llm_calls w /\
    (exists records,
       log w' = log w ++ records /\
       Forall (fun r => r.1 = ERROR) records /\
       (records = [] ->
        FS.read_file output_path_md (fs w') = Some summary_text /\
        FS.read_file output_path_json (fs w') =
          Some (generate_metadata
                  (("summary_text", JStr summary_text) :: meta_args)))).
Proof.
  intros Hpaths. unfold Orchestrator.write_artifacts, Writer.write_summary,
    Writer.write_metadata.
  destruct (write_run (Writer.Text summary_text) output_path_md
              Writer.summary_message w)
    as (w1 & Hrun1 & Hcalls1 & _ & _ & _ & Hout1).
  destruct (write_run
              (Writer.Text
                 (generate_metadata (("summary_text", JStr summary_text) :: meta_args)))
              output_path_json Writer.metadata_message w1)
    as (w2 & Hrun2 & Hcalls2 & _ & _ & Hothers & Hout2).
  exists w2. split; [by rewrite (bind_ok _ _ _ _ _ Hrun1)|].
  split; [congruence|].
  destruct Hout1 as [(t1 & [= <-] & Hlog1 & Hread1 & _)
                    |[[Hlog1 _]|(? & ? & [=] & _)]],
           Hout2 as [(t2 & [= <-] & Hlog2 & Hread2 & _)
                    |[[Hlog2 _]|(? & ? & [=] & _)]].
  - exists []. rewrite app_nil_r. split; [congruence|]. split; [done|].
    intros _. split; [|done]. unfold FS.read_file in *.
    by rewrite Hothers.
  - eexists [_]. split; [by rewrite Hlog2, Hlog1|]. split; [by repeat constructor|done].
  - eexists [_]. split; [by rewrite Hlog2, Hlog1|]. split; [by repeat constructor|done].
  - eexists [_; _]. split; [by rewrite Hlog2, Hlog1, <- app_assoc|].
    split; [by repeat constructor|done].
Qed.



(** ** Orchestrator: modes without a branch *)

(** X12.  A mode other than file, news, node, master and cross (the
    command line also offers [sub_folder_content] and
    [sub_folder_cross_sectional]) summarises nothing: a readable file
    gets its output directory and the warning that the mode is not
    applicable, with no LLM call and no file written; if the directory
    cannot be created, the [OSError] is not caught. *)
Theorem unimplemented_mode (py_repr : Json -> string)
    (hash_content sanitize_id : string -> string)
    (generate_metadata : Kwargs -> string)
    (llm : nat -> Kwargs -> result string) (chunker : Orchestrator.ChunkerI)
    (cache_manager : Cache.CacheManager)
    (summarizer : Summarization.LLMSummarizer) (today output_dir theme : string)
    (mode : string) (f : Orchestrator.FileEntry) (data : Json) (w : World) :
  mode <> "file" -> mode <> "news" -> mode <> "node" -> mode <> "master" ->
  mode <> "cross" ->
  Orchestrator.loaded f = Some data ->
  let current_out_dir :=
    Path.join (Path.join output_dir (mode +:+ "-level")) (Orchestrator.rel_dir f) in
  exists r w',
    Orchestrator.process_file py_repr hash_content sanitize_id generate_metadata
      llm chunker cache_manager summarizer today output_dir theme mode f w =
      (r, w') /\
    llm_calls w' = llm_calls w /\ FS.files (fs w') = FS.files (fs w) /\
    (r = Ok tt /\
     FS.is_dir (fs w') current_out_dir = true /\
     log w' =
       log w ++
       [(WARNING, "Mode not applicable to this item type or not implemented for it")] \/
     r = Raise OSError /\ log w' = log w).
Proof.
  intros Hfile Hnews Hnode Hmaster Hcross Hloaded current_out_dir.
  apply String.eqb_neq in Hfile, Hnews, Hnode, Hmaster, Hcross.
  unfold Orchestrator.process_file. rewrite Hloaded.
  rewrite Hfile, Hnews, Hnode, Hmaster, Hcross. cbn [orb andb negb].
  fold current_out_dir.
  destruct (Eff.makedirs true current_out_dir w) as [[[]|e] w1] eqn:Hmk.
  - destruct (eff_makedirs_frame _ _ _ _ _ Hmk) as (Hcalls & _ & Hlog & Hfiles & _).
    rewrite (bind_ok _ _ _ _ _ Hmk). eexists _, _. split; [reflexivity|]. cbn.
    split; [done|]. split; [done|]. left. split; [done|].
    split; [by eapply eff_makedirs_made|by rewrite Hlog].
  - destruct (eff_makedirs_frame _ _ _ _ _ Hmk) as (Hcalls & _ & Hlog & Hfiles & _).
    rewrite (bind_raise _ _ _ _ _ Hmk). eexists _, _. split; [reflexivity|].
    split; [done|]. split; [done|]. right. split; [|done].
    revert Hmk. unfold Eff.makedirs. destruct (FS.makedirs _ _ _) as [[?|] ?];
      by intros [= <- _].
Qed.

Lemma unimplemented_mode_sub_folder_content :
  let mode := "sub_folder_content" in
  exists w',
    Orchestrator.process_file Demo.py_repr Demo.hex_encode Demo.sanitize_id
      Demo.generate_metadata Demo.llm Demo.chunker Demo.cache_manager
      Demo.summarizer "2026-01-01" "out" "general_cross_summary" mode
      Demo.filing_a Demo.world = (Ok tt, w') /\
    llm_calls w' = [] /\ FS.files (fs w') = ∅ /\
    FS.is_dir (fs w') "out/sub_folder_content-level/BMO" = true /\
    log w' =
      [(WARNING, "Mode not applicable to this item type or not implemented for it")].
Proof.
  intros mode.
  destruct (unimplemented_mode Demo.py_repr Demo.hex_encode Demo.sanitize_id
              Demo.generate_metadata Demo.llm Demo.chunker Demo.cache_manager
              Demo.summarizer "2026-01-01" "out" "general_cross_summary" mode
              Demo.filing_a
              (JObj [("company_name", JStr "BMO"); ("text", JStr "Annual report.")])
              Demo.world)
    as (r & w' & Hrun & Hcalls & Hfiles & Hout); try done.
  assert (Hr : r = Ok tt).
  { change r with (r, w').1. rewrite <- Hrun. vm_compute. reflexivity. }
  subst r. exists w'. split; [done|]. split; [done|]. split; [done|].
  destruct Hout as [(_ & Hdir & Hlog)|[[=] _]]. by split.
Defined.

(** ** Orchestrator: the chunk summaries of the dynamic path *)

(** X13.  The dynamic path adds one entry per chunk that is not blank
    to the chunk summaries it was given, and skips the blank chunks.
    For [n] chunks that are not blank it makes at most
    [n * (max_retries + 1)] LLM calls, and it changes no file. *)
Theorem summarize_chunks_entries (llm : nat -> Kwargs -> result string)
    (summarizer : Summarization.LLMSummarizer) (summarizer_kwargs : Kwargs)
    (filing_type : string) (news_chunks : list string) :
  forall (i : nat) (chunk_summaries : list string) (w : World) l w',
  Orchestrator.summarize_chunks llm summarizer i news_chunks summarizer_kwargs
    filing_type chunk_summaries w = (Ok l, w') ->
  let not_blank :=
    filter (fun c => Str.truthy (Str.strip c) = true) news_chunks in
  exists added,
    l = chunk_summaries ++ added /\
    length added = length not_blank /\
    fs w' = fs w /\
    (length (llm_calls w') <=
     length (llm_calls w) +
     length not_blank * Z.to_nat (Summarization.max_retries summarizer + 1))%nat.
Proof.
  induction news_chunks as [|chunk_text rest IH];
    intros i chunk_summaries w l w' Hrun not_blank.
  { injection Hrun as <- <-. exists []. rewrite app_nil_r. cbn.
    repeat split; lia. }
  cbn [Orchestrator.summarize_chunks] in Hrun. subst not_blank.
  destruct (Str.truthy (Str.strip chunk_text)) eqn:Hblank; cbn [negb] in Hrun.
  2:{ rewrite filter_cons_False by (rewrite Hblank; done).
      by apply (IH _ _ _ _ _ Hrun). }
  rewrite filter_cons_True by done. cbn [length].
  set (kw := Summarization.kw_set summarizer_kwargs "content" (JStr chunk_text)) in *.
  assert (Hsum : exists chunk_summary w1 kwargs' (calls : nat),
            Summarization.summarize llm summarizer "file" filing_type kw w =
              (Ok chunk_summary, w1) /\
            fs w1 = fs w /\
            llm_calls w1 = llm_calls w ++ replicate calls kwargs' /\
            (calls <= Z.to_nat (Summarization.max_retries summarizer + 1))%nat).
  { destruct (summarize_cases llm summarizer "file" filing_type kw w)
      as [(pt & kwargs' & w0 & Hfs0 & Hcalls0 & _ & Hloop)
         |(_ & w0 & Hraise & _)];
      [|by rewrite (bind_raise _ _ _ _ _ Hraise) in Hrun].
    destruct (retry_loop_bounded llm summarizer pt kwargs'
                (Z.to_nat (Summarization.max_retries summarizer + 1)) 0 w0)
      as (text & w1 & calls & k & Hloop' & Hfs1 & Hcalls1 & Hle & _).
    exists text, w1, kwargs', calls. rewrite Hloop.
    split; [done|]. split; [congruence|]. split; [by rewrite Hcalls1, Hcalls0|done]. }
  destruct Hsum as (chunk_summary & w1 & kwargs' & calls & Hsum & Hfs1 & Hcalls1 & Hle).
  rewrite (bind_ok _ _ _ _ _ Hsum) in Hrun.
  assert (Hstep : exists entry w2,
            Orchestrator.summarize_chunks llm summarizer (S i) rest
              summarizer_kwargs filing_type (chunk_summaries ++ [entry]) w2 =
              (Ok l, w') /\
            fs w2 = fs w1 /\ llm_calls w2 = llm_calls w1).
  { destruct (Str.startswith chunk_summary "Error:"); cbn [negb] in Hrun.
    - unfold Eff.error in Hrun. rewrite bind_logging in Hrun. by eexists _, _.
    - by eexists _, _. }
  destruct Hstep as (entry & w2 & Hrest & Hfs2 & Hcalls2).
  destruct (IH _ _ _ _ _ Hrest) as (added & -> & Hlen & Hfs & Hcalls).
  exists (entry :: added). rewrite <- app_assoc. split; [done|].
  split; [cbn; lia|]. split; [congruence|].
  rewrite Hcalls2, Hcalls1, length_app, length_replicate in Hcalls. lia.
Qed.

(** Three chunks, the second blank: two entries, two calls. *)
Lemma summarize_chunks_entries_demo :
  let run :=
    Orchestrator.summarize_chunks Demo.llm Demo.summarizer 0
      ["First part."; "   "; "Last part."] [("title", JStr "T")] "news" []
      Demo.world in
  run.1 = Ok ["A summary."; "A summary."] /\
  exists added,
    ["A summary."; "A summary."] = [] ++ added /\
    length added = 2%nat /\
    fs run.2 = fs Demo.world /\
    (length (llm_calls run.2) <= 0 + 2 * 3)%nat.
Proof.
  intros run.
  assert (Hrun : run = (Ok ["A summary."; "A summary."], run.2)).
  { rewrite (surjective_pairing run) at 1. f_equal. }
  split; [by rewrite Hrun|].
  apply (summarize_chunks_entries Demo.llm Demo.summarizer [("title", JStr "T")]
           "news" ["First part."; "   "; "Last part."] 0%nat [] Demo.world
           ["A summary."; "A summary."] run.2 Hrun).
Defined.

(** ** Orchestrator: master mode before node mode *)



(** ** Orchestrator: file mode, end to end *)

Lemma join_stem_inj d stem ending1 ending2 :
  Str.truthy ending1 = true -> Str.truthy ending2 = true ->
  Str.startswith ending1 "/" = false -> Str.startswith ending2 "/" = false ->
  Path.join d (stem +:+ ending1) = Path.join d (stem +:+ ending2) ->
  ending1 = ending2.
Proof.
  intros H1 H2 Hs1 Hs2. unfold Path.join.
  assert (Hstart : forall ending,
            Str.truthy ending = true -> Str.startswith ending "/" = false ->
            Str.startswith (stem +:+ ending) "/" = Str.startswith (stem +:+ "_") "/").
  { intros ending Ht Hs. destruct stem as [|c stem].
    - rewrite !append_nil_l. by rewrite Hs.
    - rewrite !append_cons. unfold Str.startswith. cbn [String.prefix].
      destruct (ascii_dec _ _); by rewrite ?prefix_empty. }
  rewrite (Hstart ending1), (Hstart ending2) by done.
  destruct (Str.startswith (stem +:+ "_") "/"); [by intros ?%String.app_inj|].
  destruct (_ || _); [by intros ?%String.app_inj%String.app_inj|].
  intros Heq%String.app_inj. by apply (String.app_inj "/"), String.app_inj in Heq.
Qed.

(** X15.  File mode on a filing that has text and is not cached yet:
    the summary that [summarize] returns is what the run leaves behind.
    If nothing is logged after the summarizer returned, the file
    [<base>_summary.md] of the output directory holds exactly that
    summary, [<base>_meta.json] holds the metadata generated for it, and
    with caching enabled the request is cached from then on. *)
Theorem file_mode_writes_summary (py_repr : Json -> string)
    (hash_content sanitize_id : string -> string)
    (generate_metadata : Kwargs -> string)
    (llm : nat -> Kwargs -> result string) (chunker : Orchestrator.ChunkerI)
    (cache_manager : Cache.CacheManager)
    (summarizer : Summarization.LLMSummarizer) (today : string)
    (f : Orchestrator.FileEntry) (data : Json)
    (base_name_ext base_name current_out_dir filing_type : string)
    (title : Json) (summary_text : string) (w w1 : World) :
  let text := Orchestrator.get_full_text chunker data in
  let summarizer_kwargs :=
    [("source_filename", JStr base_name_ext);
     ("effective_filing_type", JStr filing_type);
     ("document_title", title); ("current_date", JStr today)] in
  let content_hash :=
    hash_content (text +:+ PyVal.json_dumps (JObj summarizer_kwargs)) in
  Orchestrator.document_title py_repr data filing_type = Ok title ->
  Str.truthy (Str.strip text) = true ->
  Cache.is_cached cache_manager content_hash w = (Ok false, w) ->
  Summarization.summarize llm summarizer "file" filing_type
    (Summarization.kw_set summarizer_kwargs "content" (JStr text)) w =
    (Ok summary_text, w1) ->
  exists w' records,
    Orchestrator.file_branch py_repr hash_content sanitize_id generate_metadata
      llm chunker cache_manager summarizer today f data false base_name_ext
      base_name current_out_dir filing_type w = (Ok tt, w') /\
    llm_calls w' = llm_calls w1 /\
    log w' = log w1 ++ records /\
    Forall (fun r => r.1 = ERROR) records /\
    (records = [] ->
     FS.read_file (Path.join current_out_dir (base_name +:+ "_summary.md"))
       (fs w') = Some summary_text /\
     FS.read_file (Path.join current_out_dir (base_name +:+ "_meta.json"))
       (fs w') =
       Some (generate_metadata
               [("summary_text", JStr summary_text);
                ("source_path", JStr (Orchestrator.filepath f));
                ("mode", JStr "file"); ("is_news", JBool false);
                ("news_data", JNull); ("doc_type", JStr filing_type);
                ("llm_model_used", JStr (Summarization.model_name summarizer));
                ("chunking_method", JStr "none")]) /\
     (Cache.enabled cache_manager = true ->
      Cache.is_cached cache_manager content_hash w' = (Ok true, w'))).
Proof.
  intros text summarizer_kwargs content_hash Htitle Htext Hcached Hsummary.
  unfold Orchestrator.file_branch, Orchestrator.filing_text.
  erewrite bind_ok; cycle 1.
  { erewrite bind_lift_ok by exact Htitle. reflexivity. }
  cbn beta iota. erewrite bind_lift_ok by reflexivity.
  fold text. rewrite Htext. cbn [negb].
  fold summarizer_kwargs. fold content_hash.
  rewrite (bind_ok _ _ _ _ _ Hcached), (bind_ok _ _ _ _ _ Hsummary).
  destruct (Cache.mark_cached cache_manager content_hash None w1)
    as [r2 w2] eqn:Hmark.
  assert (Hmark' : r2 = Ok tt /\ llm_calls w2 = llm_calls w1 /\
            exists records2,
              log w2 = log w1 ++ records2 /\ Forall (fun r => r.1 = ERROR) records2 /\
              (records2 = [] -> Cache.enabled cache_manager = true ->
               FS.exists_ (fs w2)
                 (Cache.cache_file_path cache_manager content_hash) = true)).
  { revert Hmark. unfold Cache.mark_cached.
    destruct (Cache.enabled cache_manager); cbn [negb].
    - unfold mbind, M_bind, Eff.try, Eff.write_file, FS.write_file.
      destruct (_ || _).
      + intros [= <- <-]. split; [done|]. split; [done|]. eexists [_].
        split; [done|]. split; [by repeat constructor|done].
      + intros [= <- <-]. split; [done|]. split; [done|]. exists [].
        rewrite app_nil_r. split; [done|]. split; [done|]. intros _ _. cbn.
        unfold FS.exists_, FS.is_file. cbn. apply orb_true_iff. right.
        apply bool_decide_eq_true. rewrite lookup_insert_eq. by eexists.
    - intros [= <- <-]. split; [done|]. split; [done|]. exists [].
      rewrite app_nil_r. by repeat split. }
  destruct Hmark' as (-> & Hcalls2 & records2 & Hlog2 & Herr2 & Hcache2).
  rewrite (bind_ok _ _ _ _ _ Hmark).
  rewrite (bind_ok (mret base_name) _ w2 base_name w2 eq_refl).
  rewrite (bind_ok (mret (JStr filing_type)) _ w2 (JStr filing_type) w2 eq_refl).
  set (md := Path.join current_out_dir (base_name +:+ "_summary.md")).
  set (js := Path.join current_out_dir (base_name +:+ "_meta.json")).
  assert (Hpaths : md <> js).
  { intros Heq. by apply join_stem_inj in Heq. }
  match goal with
  | |- context [Orchestrator.write_artifacts _ _ ?args _ _ _] =>
    destruct (write_artifacts_run generate_metadata summary_text args
                md js w2 Hpaths)
      as (w' & Hrun & Hcalls & records & Hlog & Herr & Hfiles);
    pose proof (Later_write_artifacts generate_metadata summary_text args md js
                  _ _ _ Hrun) as Hlater
  end.
  exists w', (records2 ++ records). split; [exact Hrun|].
  split; [congruence|]. split; [by rewrite Hlog, Hlog2, app_assoc|].
  split; [by apply Forall_app|].
  intros [-> ->]%app_eq_nil.
  destruct (Hfiles eq_refl) as [Hmd Hjs]. split; [done|]. split; [done|].
  intros Hon. rewrite is_cached_run, Hon. cbn [andb]. do 2 f_equal.
  eapply later_exists; [exact Hlater|by apply Hcache2].
Qed.

(** The 10-K of the demonstration, not cached yet. *)
Lemma file_mode_writes_summary_filing :
  let data := JObj [("company_name", JStr "BMO"); ("text", JStr "Annual report.")] in
  exists w',
    Orchestrator.file_branch Demo.py_repr Demo.hex_encode Demo.sanitize_id
      Demo.generate_metadata Demo.llm Demo.chunker Demo.cache_manager
      Demo.summarizer "2026-01-01" Demo.filing_a data false "10-K_2024.json"
      "10-K_2024" "out/file-level/BMO" "10-K" Demo.world = (Ok tt, w') /\
    llm_calls w' =
      [[("source_filename", JStr "10-K_2024.json");
        ("effective_filing_type", JStr "10-K");
        ("document_title", JStr "BMO - 10-K");
        ("current_date", JStr "2026-01-01");
        ("content", JStr (Chunker.get_full_text data))]] /\
    FS.read_file "out/file-level/BMO/10-K_2024_summary.md" (fs w') =
      Some "A summary." /\
    FS.read_file "out/file-level/BMO/10-K_2024_meta.json" (fs w') = Some "{}".
Proof.
  intros data.
  set (kw := Summarization.kw_set
               [("source_filename", JStr "10-K_2024.json");
                ("effective_filing_type", JStr "10-K");
                ("document_title", JStr "BMO - 10-K");
                ("current_date", JStr "2026-01-01")]
               "content" (JStr (Orchestrator.get_full_text Demo.chunker data))).
  set (w1 := (Summarization.summarize Demo.llm Demo.summarizer "file" "10-K" kw
                Demo.world).2).
  destruct (file_mode_writes_summary Demo.py_repr Demo.hex_encode Demo.sanitize_id
              Demo.generate_metadata Demo.llm Demo.chunker Demo.cache_manager
              Demo.summarizer "2026-01-01" Demo.filing_a data "10-K_2024.json"
              "10-K_2024" "out/file-level/BMO" "10-K" (JStr "BMO - 10-K")
              "A summary." Demo.world w1)
    as (w' & records & Hrun & Hcalls & Hlog & _ & Hfiles);
    [reflexivity|reflexivity|reflexivity|reflexivity|].
  assert (Hw : log w' = []).
  { replace w' with
      (Orchestrator.file_branch Demo.py_repr Demo.hex_encode Demo.sanitize_id
         Demo.generate_metadata Demo.llm Demo.chunker Demo.cache_manager
         Demo.summarizer "2026-01-01" Demo.filing_a data false "10-K_2024.json"
         "10-K_2024" "out/file-level/BMO" "10-K" Demo.world).2
      by (by rewrite Hrun).
    vm_compute. reflexivity. }
  exists w'. split; [exact Hrun|]. split; [by rewrite Hcalls|].
  assert (Hnone : records = []).
  { rewrite Hw in Hlog. symmetry in Hlog. by apply app_eq_nil in Hlog as [_ ->]. }
  destruct (Hfiles Hnone) as (Hmd & Hjs & _). by split.
Defined.

(** ** CacheManager: the directory and the stored metadata *)


Section CachedMetadata.
Variable read_text : string -> CacheMetadata.Outcome string.
Variable json_loads : string -> CacheMetadata.Outcome Json.

Lemma mark_cached_written self content_hash metadata w w' :
  Cache.enabled self = true ->
  Cache.mark_cached self content_hash metadata w = (Ok tt, w') ->
  Eff.cache_write_failures w' = Eff.cache_write_failures w ->
  FS.files (fs w') !! Cache.cache_file_path self content_hash =
    Some (default "" metadata) /\
  log w' = log w.
Proof.
  intros Hon. unfold Cache.mark_cached. rewrite Hon. cbn [negb].
  unfold mbind, M_bind, Eff.try, Eff.write_file, FS.write_file.
  destruct (_ || _).
  - intros [= <-]. unfold Eff.cache_write_failures. cbn [log].
    rewrite filter_app, length_app, filter_cons_True by done. cbn. lia.
  - intros [= <-] _. cbn. by rewrite lookup_insert_eq.
Qed.

Lemma get_cached_metadata_file self content_hash stored w :
  Cache.enabled self = true ->
  FS.files (fs w) !! Cache.cache_file_path self content_hash = Some stored ->
  CacheMetadata.get_cached_metadata read_text json_loads self content_hash w =
  let failed :=
    (Ok JNull,
     mkWorld (fs w) (llm_calls w) (sleeps w)
       (log w ++ [(ERROR, "Failed to read or parse cache metadata")])) in
  match read_text stored with
  | CacheMetadata.Value content =>
    if Str.truthy content then
      match json_loads content with
      | CacheMetadata.Value metadata => (Ok metadata, w)
      | CacheMetadata.Caught => failed
      | CacheMetadata.Escapes e => (Raise e, w)
      end
    else (Ok JNull, w)
  | CacheMetadata.Caught => failed
  | CacheMetadata.Escapes e => (Raise e, w)
  end.
Proof.
  intros Hon Hfile. unfold CacheMetadata.get_cached_metadata.
  assert (Hthere : FS.exists_ (fs w) (Cache.cache_file_path self content_hash) = true).
  { unfold FS.exists_, FS.is_file. rewrite Hfile. apply orb_true_iff. right.
    apply bool_decide_eq_true. by eexists. }
  rewrite (bind_ok _ _ _ _ _ (is_cached_run self content_hash w)).
  rewrite Hon, Hthere. cbn [andb negb].
  rewrite (bind_ok Eff.get_fs _ w (fs w) w eq_refl).
  unfold FS.read_file. rewrite Hfile. cbv zeta.
  destruct (read_text stored) as [content| |e]; [|done..].
  destruct (Str.truthy content); [|done]. by destruct (json_loads content).
Qed.

(** X17.  [get_cached_metadata] changes no file and calls no LLM, and
    the only exceptions it lets out are those of reading the cache file
    and of [json.loads] that are neither an [IOError] nor a
    [JSONDecodeError].  With the cache disabled it answers [None].
    After a [mark_cached] that stored a metadata text (and logged no
    failed write), when that text reads back as it was written, it
    answers what [json.loads] makes of the text; after a [mark_cached]
    without metadata the key is cached and the answer is [None], with
    nothing logged. *)
Theorem get_cached_metadata_round_trip (self : Cache.CacheManager) :
  (forall content_hash w,
     exists r w',
       CacheMetadata.get_cached_metadata read_text json_loads self content_hash w =
         (r, w') /\
       fs w' = fs w /\ llm_calls w' = llm_calls w /\
       forall e, r = Raise e ->
         w' = w /\
         exists stored,
           FS.read_file (Cache.cache_file_path self content_hash) (fs w) =
             Some stored /\
           (read_text stored = CacheMetadata.Escapes e \/
            exists content,
              read_text stored = CacheMetadata.Value content /\
              json_loads content = CacheMetadata.Escapes e)) /\
  (forall content_hash w,
     Cache.enabled self = false ->
     CacheMetadata.get_cached_metadata read_text json_loads self content_hash w =
       (Ok JNull, w)) /\
  (forall content_hash text metadata w w',
     Cache.enabled self = true ->
     Str.truthy text = true ->
     read_text text = CacheMetadata.Value text ->
     json_loads text = CacheMetadata.Value metadata ->
     Cache.mark_cached self content_hash (Some text) w = (Ok tt, w') ->
     Eff.cache_write_failures w' = Eff.cache_write_failures w ->
     CacheMetadata.get_cached_metadata read_text json_loads self content_hash w' =
       (Ok metadata, w')) /\
  (forall content_hash w w',
     Cache.enabled self = true ->
     read_text "" = CacheMetadata.Value "" ->
     Cache.mark_cached self content_hash None w = (Ok tt, w') ->
     Eff.cache_write_failures w' = Eff.cache_write_failures w ->
     Cache.is_cached self content_hash w' = (Ok true, w') /\
     CacheMetadata.get_cached_metadata read_text json_loads self content_hash w' =
       (Ok JNull, w')).
Proof.
  split; [|split; [|split]].
  - intros content_hash w. unfold CacheMetadata.get_cached_metadata.
    rewrite (bind_ok _ _ _ _ _ (is_cached_run self content_hash w)).
    destruct (_ && _); cbn [negb]; [|by eexists _, _].
    rewrite (bind_ok Eff.get_fs _ w (fs w) w eq_refl).
    destruct (FS.read_file _ _) as [stored|]; [|by eexists _, _].
    destruct (read_text stored) as [content| |e] eqn:Hread.
    + destruct (Str.truthy content); [|by eexists _, _].
      destruct (json_loads content) as [metadata| |e] eqn:Hloads;
        [by eexists _, _..|].
      eexists _, _. split; [reflexivity|]. split; [done|]. split; [done|].
      intros e' [= <-]. split; [done|]. exists stored. split; [done|].
      right. by exists content.
    + by eexists _, _.
    + eexists _, _. split; [reflexivity|]. split; [done|]. split; [done|].
      intros e' [= <-]. split; [done|]. exists stored. split; [done|]. by left.
  - intros content_hash w Hoff. unfold CacheMetadata.get_cached_metadata.
    rewrite (bind_ok _ _ _ _ _ (is_cached_run self content_hash w)).
    by rewrite Hoff.
  - intros content_hash text metadata w w' Hon Htext Hread Hloads Hmark Hc.
    destruct (mark_cached_written _ _ _ _ _ Hon Hmark Hc) as [Hfile _].
    rewrite (get_cached_metadata_file _ _ _ _ Hon Hfile). cbn [default].
    unfold id. cbv zeta. by rewrite Hread, Htext, Hloads.
  - intros content_hash w w' Hon Hread Hmark Hc.
    destruct (mark_cached_written _ _ _ _ _ Hon Hmark Hc) as [Hfile _].
    split.
    + rewrite is_cached_run, Hon. cbn [andb]. do 2 f_equal.
      unfold FS.exists_, FS.is_file. rewrite Hfile. apply orb_true_iff. right.
      apply bool_decide_eq_true. by eexists.
    + rewrite (get_cached_metadata_file _ _ _ _ Hon Hfile). cbn [default].
      cbv zeta. by rewrite Hread.
Qed.
End CachedMetadata.

(** ** Paths under a directory *)

Lemma contains_slash_cons c s :
  Str.contains "/" (String c s) = Ascii.eqb c Path.slash || Str.contains "/" s.
Proof.
  cbn [Str.contains String.prefix]. rewrite prefix_empty. f_equal.
  destruct (ascii_dec "/" c) as [<-|Hne]; [done|].
  symmetry. apply Ascii.eqb_neq. by intros ->.
Qed.

Lemma contains_slash_app a b :
  Str.contains "/" (a +:+ b) = Str.contains "/" a || Str.contains "/" b.
Proof.
  induction a as [|c a IH]; [by destruct b|].
  change (String c a +:+ b) with (String c (a +:+ b)).
  by rewrite !contains_slash_cons, IH, orb_assoc.
Qed.

Lemma rev_app_append d x : forall acc,
  String.rev_app (d +:+ x) acc = String.rev_app x (String.rev_app d acc).
Proof.
  induction d as [|c d IH]; intros acc; [done|].
  change (String c d +:+ x) with (String c (d +:+ x)). cbn [String.rev_app].
  apply IH.
Qed.

(** The reversed name comes off the front of the reversed path, up to
    the first slash of what follows. *)
Lemma span_rev_app name : forall acc,
  Str.contains "/" name = false ->
  Path.span_to_slash (String.rev_app name acc) =
  (String.rev_app name (Path.span_to_slash acc).1, (Path.span_to_slash acc).2).
Proof.
  induction name as [|c name IH]; intros acc Hfree.
  - cbn [String.rev_app]. by destruct (Path.span_to_slash acc).
  - rewrite contains_slash_cons in Hfree.
    apply orb_false_iff in Hfree as [Hc Hfree].
    cbn [String.rev_app]. rewrite IH by done. cbn [Path.span_to_slash].
    rewrite Hc. by destruct (Path.span_to_slash acc).
Qed.

(** [os.path.basename(os.path.join(d, name))] is [name], for a name
    without a slash. *)
Lemma basename_join d name :
  Str.contains "/" name = false ->
  Path.basename (Path.join d name) = name.
Proof.
  intros Hfree. unfold Path.join.
  assert (Hstart : Str.startswith name "/" = false).
  { destruct name as [|c name]; [done|].
    rewrite contains_slash_cons in Hfree.
    apply orb_false_iff in Hfree as [Hc _]. apply Ascii.eqb_neq in Hc.
    unfold Str.startswith. cbn [String.prefix].
    destruct (ascii_dec "/" c) as [<-|]; [done|done]. }
  rewrite Hstart. unfold Path.basename.
  destruct (negb (Str.truthy d) || Path.ends_with_slash d) eqn:Hd.
  - unfold String.rev at 2. rewrite rev_app_append, span_rev_app by done.
    assert (Hhead : (Path.span_to_slash (String.rev_app d "")).1 = "").
    { apply orb_true_iff in Hd as [Hd|Hd].
      - by destruct d.
      - unfold Path.ends_with_slash, String.rev in Hd.
        destruct (String.rev_app d "") as [|c r]; [done|].
        cbn [Path.span_to_slash]. by rewrite Hd. }
    rewrite Hhead. cbn [fst]. apply rev_involutive.
  - unfold String.rev at 2. rewrite !rev_app_append, span_rev_app by done.
    cbn [String.rev_app Path.span_to_slash]. cbn. apply rev_involutive.
Qed.

(** ** CacheManager.clear_cache *)

Lemma clear_loop_run (self : Cache.CacheManager) (filenames : list string) :
  forall cleared_count error_count w,
  exists cleared_count' error_count' w',
    CacheClear.clear_loop self filenames cleared_count error_count w =
      (Ok (cleared_count', error_count'), w') /\
    llm_calls w' = llm_calls w /\ sleeps w' = sleeps w /\
    FS.dirs (fs w') = FS.dirs (fs w) /\ FS.denied (fs w') = FS.denied (fs w) /\
    (forall q,
       FS.files (fs w') !! q =
       if bool_decide (q ∈ (Path.join (Cache.cache_dir self) <$> filenames) /\
                       q ∉ FS.denied (fs w))
       then None else FS.files (fs w) !! q) /\
    error_count <= error_count' /\
    (error_count' = error_count -> log w' = log w).
Proof.
  induction filenames as [|filename rest IH]; intros cleared_count error_count w.
  { exists cleared_count, error_count, w. split; [done|].
    do 4 (split; [done|]). split; [|split; [lia|done]].
    intros q. rewrite bool_decide_eq_false_2; [done|].
    intros [Hq%elem_of_nil _]. done. }
  cbn [CacheClear.clear_loop]. cbv zeta.
  set (file_path := Path.join (Cache.cache_dir self) filename).
  rewrite (bind_ok Eff.get_fs _ w (fs w) w eq_refl).
  assert (Hin : forall q (denied : gset string),
            bool_decide (q ∈ (Path.join (Cache.cache_dir self) <$> filename :: rest) /\
                         q ∉ denied) =
            bool_decide (q = file_path /\ q ∉ denied) ||
            bool_decide (q ∈ (Path.join (Cache.cache_dir self) <$> rest) /\
                         q ∉ denied)).
  { intros q denied. rewrite fmap_cons, <- bool_decide_or.
    apply bool_decide_ext. rewrite elem_of_cons. fold file_path. tauto. }
  destruct (FS.is_file (fs w) file_path) eqn:Hfile.
  - unfold CacheClear.unlink. rewrite Hfile. cbn [andb].
    destruct (bool_decide (file_path ∈ FS.denied (fs w))) eqn:Hdenied; cbn [negb].
    + apply bool_decide_eq_true in Hdenied.
      unfold Eff.error. rewrite bind_logging.
      set (w1 := mkWorld _ _ _ _).
      destruct (IH cleared_count (error_count + 1) w1)
        as (c' & e' & w' & Hrun & Hcalls & Hsl & Hdirs & Hden & Hfiles & Hle & _).
      exists c', e', w'. split; [done|]. do 4 (split; [done|]).
      split; [|split; [lia|intros ->; lia]].
      intros q. rewrite Hfiles, Hin. cbn [fs w1].
      destruct (bool_decide (q = file_path /\ _)) eqn:Hq; [|done].
      apply bool_decide_eq_true in Hq as [-> Hq]. done.
    + apply bool_decide_eq_false in Hdenied.
      rewrite (bind_ok (Eff.set_fs _) _ w tt _ eq_refl).
      set (w1 := mkWorld _ _ _ _).
      destruct (IH (cleared_count + 1) error_count w1)
        as (c' & e' & w' & Hrun & Hcalls & Hsl & Hdirs & Hden & Hfiles & Hle & Hlog).
      exists c', e', w'. split; [done|]. do 4 (split; [done|]).
      split; [|by split].
      intros q. rewrite Hfiles, Hin. cbn [fs w1 FS.files FS.denied].
      destruct (bool_decide (q ∈ _ /\ _)); [by rewrite orb_true_r|].
      rewrite orb_false_r. case_bool_decide as Hq.
      * destruct Hq as [-> _]. by rewrite lookup_delete_eq.
      * rewrite lookup_delete_ne; [done|]. intros <-. tauto.
  - destruct (IH cleared_count error_count w)
      as (c' & e' & w' & Hrun & Hcalls & Hsl & Hdirs & Hden & Hfiles & Hle & Hlog).
    exists c', e', w'. split; [done|]. do 4 (split; [done|]).
    split; [|by split].
    intros q. rewrite Hfiles, Hin.
    destruct (bool_decide (q ∈ _ /\ _)); [by rewrite orb_true_r|].
    rewrite orb_false_r. case_bool_decide as Hq; [|done].
    destruct Hq as [-> _]. apply eq_None_not_Some.
    unfold FS.is_file in Hfile. by apply bool_decide_eq_false in Hfile.
Qed.

Lemma listdir_spec d fs name :
  name ∈ CacheClear.listdir d fs <->
  exists p, (is_Some (FS.files fs !! p) \/ p ∈ FS.dirs fs) /\
            name = Path.basename p /\ Str.truthy name = true /\
            Path.join d name = p.
Proof.
  unfold CacheClear.listdir. rewrite list_elem_of_omap. split.
  - intros (p & Hp & Hname). exists p.
    apply elem_of_elements, elem_of_union in Hp.
    rewrite elem_of_dom in Hp. split; [done|].
    destruct (Str.truthy (Path.basename p)) eqn:Htruthy; [|done].
    destruct (String.eqb _ p) eqn:Hjoin; [|done].
    apply String.eqb_eq in Hjoin. injection Hname as <-. by split.
  - intros (p & Hp & -> & Htruthy & Hjoin). exists p. split.
    + apply elem_of_elements, elem_of_union. by rewrite elem_of_dom.
    + cbv zeta. rewrite Htruthy, Hjoin, String.eqb_refl. done.
Qed.

(** X18.  [clear_cache] does nothing when the cache is disabled or its
    directory is missing, and raises the [OSError] of [os.listdir] when
    the cache directory is a regular file.  On an enabled cache with its
    directory it
    returns, and afterwards no key (a digest: no slash in it) has a
    cache file left, unless the file could not be removed; no file is
    created or changed, no directory is removed, and what is not
    directly under the cache directory is left alone. *)
Theorem clear_cache_clears (self : Cache.CacheManager) (w : World) :
  (Cache.enabled self = false \/ FS.exists_ (fs w) (Cache.cache_dir self) = false ->
   CacheClear.clear_cache self w = (Ok tt, w)) /\
  (Cache.enabled self = true ->
   FS.exists_ (fs w) (Cache.cache_dir self) = true ->
   FS.is_dir (fs w) (Cache.cache_dir self) = false ->
   CacheClear.clear_cache self w = (Raise OSError, w)) /\
  (Cache.enabled self = true -> FS.is_dir (fs w) (Cache.cache_dir self) = true ->
   exists w',
     CacheClear.clear_cache self w = (Ok tt, w') /\
     llm_calls w' = llm_calls w /\ FS.dirs (fs w') = FS.dirs (fs w) /\
     (forall key,
        Str.contains "/" key = false ->
        Cache.cache_file_path self key ∉ FS.denied (fs w) ->
        FS.is_file (fs w') (Cache.cache_file_path self key) = false) /\
     (forall q content,
        FS.files (fs w') !! q = Some content ->
        FS.files (fs w) !! q = Some content) /\
     (forall q,
        Path.join (Cache.cache_dir self) (Path.basename q) <> q ->
        FS.files (fs w') !! q = FS.files (fs w) !! q)).
Proof.
  unfold CacheClear.clear_cache.
  rewrite (bind_ok Eff.get_fs _ w (fs w) w eq_refl). split.
  { intros [->| ->]; [done|]. by rewrite orb_true_r. }
  split; [by intros -> -> ->|].
  intros Hon Hdir. rewrite Hon. unfold FS.exists_. rewrite Hdir. cbn [negb orb].
  rewrite (bind_ok (mret tt) _ w tt w eq_refl).
  destruct (clear_loop_run self (CacheClear.listdir (Cache.cache_dir self) (fs w))
              0 0 w)
    as (c' & e' & w' & Hrun & Hcalls & _ & Hdirs & _ & Hfiles & _ & _).
  rewrite (bind_ok _ _ _ _ _ Hrun).
  assert (Hend : exists w'',
            (if e' =? 0 then mret tt
             else Eff.warning "Cache clearing partially failed") w' = (Ok tt, w'') /\
            fs w'' = fs w' /\ llm_calls w'' = llm_calls w')
    by (destruct (e' =? 0); by eexists).
  destruct Hend as (w'' & Hend & Hfs'' & Hcalls'').
  exists w''. split; [exact Hend|]. rewrite Hfs'', Hcalls''.
  split; [done|]. split; [done|]. split; [|split].
  - intros key Hkey Hdenied. unfold FS.is_file.
    apply bool_decide_eq_false. rewrite Hfiles. intros Hsome.
    case_bool_decide as Hlisted; [by destruct Hsome|].
    apply Hlisted. split; [|done].
    apply list_elem_of_fmap. exists (key +:+ ".cache"). split; [done|].
    apply listdir_spec. exists (Cache.cache_file_path self key).
    assert (Hname : Path.basename (Cache.cache_file_path self key) =
                    key +:+ ".cache").
    { apply basename_join. by rewrite contains_slash_app, Hkey. }
    split; [by left|]. split; [done|]. split; [|done].
    clear. by induction key.
  - intros q content. rewrite Hfiles. by case_bool_decide.
  - intros q Hq. rewrite Hfiles. case_bool_decide as Hlisted; [|done].
    destruct Hlisted as [(name & -> & Hname)%list_elem_of_fmap _].
    apply listdir_spec in Hname as (p & _ & -> & _ & Hjoin).
    destruct Hq. by rewrite Hjoin at 1 2.
Qed.

(** ** TextChunker.chunk_document *)

(** Whatever the overlap, a chunker with a positive chunk size emits
    only chunks that hold text, under the section name it was given. *)
Lemma chunk_loop_chunks {A} `{EqDecision A} (self : Chunker.TextChunker)
    (text : list A) sec (fuel : nat) : forall chunks start idx cs,
  0 < Chunker.max_chunk_size self -> 0 <= start ->
  Forall (fun c => Chunker.content c <> [] /\ Chunker.section_name c = sec) chunks ->
  Chunker.chunk_loop fuel self text sec chunks start idx = Some cs ->
  Forall (fun c => Chunker.content c <> [] /\ Chunker.section_name c = sec) cs.
Proof.
  induction fuel as [|fuel IH]; intros chunks start idx cs Hmax Hstart Hchunks;
    [done|].
  cbn [Chunker.chunk_loop]. cbv zeta.
  destruct (start <? Py.len text) eqn:Hin; [|by intros [= <-]].
  apply Z.ltb_lt in Hin.
  set (start' := if _ <=? 0 then _ else _).
  assert (Hstart' : 0 <= start').
  { unfold start'. destruct (_ <=? 0) eqn:Hstep; [lia|].
    apply Z.leb_gt in Hstep. lia. }
  assert (Hnew : Forall
            (fun c => Chunker.content c <> [] /\ Chunker.section_name c = sec)
            (chunks ++
             [Chunker.mkChunk
                (Py.slice text start (start + Chunker.max_chunk_size self)) sec idx])).
  { apply Forall_app. split; [done|]. apply Forall_singleton. split; [|done].
    cbn. rewrite slice_take_drop by lia. intros Hnil.
    apply (f_equal length) in Hnil. rewrite length_take, length_drop in Hnil.
    unfold Py.len in Hin. cbn in Hnil. lia. }
  destruct (_ && _) eqn:Htail; [|by apply IH].
  apply andb_true_iff in Htail as [Hshort%Z.ltb_lt Hleft%Z.ltb_lt].
  assert (Hcurrent : Py.len (Py.slice_from text start') = Py.len text - start').
  { rewrite slice_from_nonneg by done. rewrite len_drop. lia. }
  destruct (Py.endswith _ _).
  - destruct (_ >? _) eqn:Hmore; [|by intros [= <-]].
    rewrite Hcurrent in Hmore. lia.
  - destruct (_ >? 0) eqn:Hmore; [|by intros [= <-]].
    intros [= <-]. apply Forall_app. split; [done|].
    apply Forall_singleton. split; [|done]. cbn. intros Hnil.
    rewrite Hnil in Hcurrent. unfold Py.len in Hcurrent at 1. cbn in Hcurrent. lia.
Qed.

Lemma chunk_text_chunks {A} `{EqDecision A} (self : Chunker.TextChunker)
    (text : list A) sec (fuel : nat) cs :
  0 < Chunker.max_chunk_size self ->
  Chunker.chunk_text fuel self text sec = Some cs ->
  Forall (fun c => Chunker.content c <> [] /\ Chunker.section_name c = sec) cs.
Proof.
  intros Hmax. unfold Chunker.chunk_text. destruct text; [by intros [= <-]|].
  by apply chunk_loop_chunks.
Qed.

Lemma default_section_name_truthy i :
  Str.truthy (Documents.default_section_name i) = true.
Proof. reflexivity. Qed.

Lemma section_identifier_truthy i section_name :
  Str.truthy (Documents.section_identifier i section_name) = true.
Proof.
  unfold Documents.section_identifier.
  destruct section_name as [name|]; [|done].
  by destruct (Str.truthy name) eqn:Hname.
Qed.

Lemma length_list_ascii_of_string s :
  length (list_ascii_of_string s) = String.length s.
Proof. induction s as [|c s IH]; [done|]. cbn. by rewrite IH. Qed.

Lemma chunk_sections_run (self : Chunker.TextChunker) (fuel : nat)
    (sections : list (option string * string)) :
  0 < Chunker.max_chunk_size self ->
  Forall (fun s => (String.length s.2 < fuel)%nat) sections ->
  forall i all_chunks w,
  let section_chunks (j : nat) (s : option string * string) :=
    if Documents.blank s.2 then []
    else default []
           (Chunker.chunk_text fuel self (list_ascii_of_string s.2)
              (Some (Documents.section_identifier (i + j) s.1))) in
  exists w',
    Documents.chunk_sections fuel self i sections all_chunks w =
      (Ok (Some (all_chunks ++ mjoin (imap section_chunks sections))), w') /\
    fs w' = fs w /\ llm_calls w' = llm_calls w /\
    Forall (fun c => Chunker.content c <> [] /\
                     exists name, Chunker.section_name c = Some name /\
                                  Str.truthy name = true)
      (mjoin (imap section_chunks sections)) /\
    log w' =
      log w ++
      replicate (length (filter (fun s => Documents.blank s.2 = true) sections))
        (WARNING, "Skipping empty or whitespace-only section").
Proof.
  intros Hmax Hfuel. induction Hfuel as [|[section_name section_content] rest Hlen _ IH];
    intros i all_chunks w section_chunks.
  { exists w. cbn. rewrite !app_nil_r. by repeat split. }
  cbn [snd] in Hlen.
  assert (Hext : imap (section_chunks ∘ S) rest =
                 imap (fun j s =>
                         if Documents.blank s.2 then []
                         else default []
                                (Chunker.chunk_text fuel self
                                   (list_ascii_of_string s.2)
                                   (Some (Documents.section_identifier (S i + j) s.1))))
                   rest).
  { apply imap_ext. intros j s _. unfold section_chunks. cbn.
    by replace (i + S j)%nat with (S (i + j)) by lia. }
  rewrite imap_cons, Hext. cbn [mjoin list_join].
  cbn [Documents.chunk_sections].
  unfold section_chunks at 1 2. cbn [fst snd]. rewrite Nat.add_0_r.
  destruct (Documents.blank section_content) eqn:Hblank.
  - rewrite filter_cons_True by done. cbn [length replicate app].
    unfold Eff.warning. rewrite bind_logging.
    destruct (IH (S i) all_chunks
                (mkWorld (fs w) (llm_calls w) (sleeps w)
                   (log w ++ [(WARNING, "Skipping empty or whitespace-only section")])))
      as (w' & Hrun & Hfs & Hcalls & Hall & Hlog).
    exists w'. split; [done|]. split; [done|]. split; [done|]. split; [done|].
    rewrite Hlog. cbn [log]. by rewrite <- app_assoc.
  - rewrite filter_cons_False by (cbn; by rewrite Hblank).
    destruct (chunk_text_terminates self (list_ascii_of_string section_content)
                (Some (Documents.section_identifier i section_name)) fuel)
      as [text_chunks Htext]; [done|by rewrite length_list_ascii_of_string|].
    rewrite Htext. cbn [default from_option]. unfold id.
    destruct (IH (S i) (all_chunks ++ text_chunks) w)
      as (w' & Hrun & Hfs & Hcalls & Hall & Hlog).
    exists w'. rewrite app_assoc. split; [done|]. split; [done|]. split; [done|].
    split; [|done]. apply Forall_app. split; [|done].
    eapply Forall_impl; [by eapply chunk_text_chunks|].
    intros c [Hcontent Hname]. split; [done|].
    eexists. split; [done|]. apply section_identifier_truthy.
Qed.

(** X19.  For a chunker with a positive chunk size, [chunk_document]
    returns the chunks of the sections in the order of the sections.  A
    section that is empty or white space only contributes no chunk and
    one warning; every other section contributes the chunks of its text
    under its name, or under "OriginalDocTitleInSection<i+1>" when it
    has none.  So every chunk holds text and carries a name. *)
Theorem chunk_document_chunks (self : Chunker.TextChunker) (fuel : nat)
    (file_path : string) (sections : list (option string * string)) (w : World) :
  0 < Chunker.max_chunk_size self ->
  Forall (fun s => (String.length s.2 < fuel)%nat) sections ->
  let section_chunks (i : nat) (s : option string * string) :=
    if Documents.blank s.2 then []
    else default []
           (Chunker.chunk_text fuel self (list_ascii_of_string s.2)
              (Some (Documents.section_identifier i s.1))) in
  exists w',
    Documents.chunk_document fuel self file_path sections w =
      (Ok (Some (mjoin (imap section_chunks sections))), w') /\
    fs w' = fs w /\ llm_calls w' = llm_calls w /\
    Forall (fun c => Chunker.content c <> [] /\
                     exists name, Chunker.section_name c = Some name /\
                                  Str.truthy name = true)
      (mjoin (imap section_chunks sections)) /\
    log w' =
      log w ++
      replicate (length (filter (fun s => Documents.blank s.2 = true) sections))
        (WARNING, "Skipping empty or whitespace-only section").
Proof.
  intros Hmax Hfuel section_chunks.
  destruct (chunk_sections_run self fuel sections Hmax Hfuel 0 [] w)
    as (w' & Hrun & Hrest).
  exists w'. split; [exact Hrun|exact Hrest].
Qed.

(** Three sections, the second blank and the third without a name, in
    chunks of 10 characters with an overlap of 2. *)
Lemma chunk_document_chunks_demo :
  let self := Chunker.mkTextChunker 10 2 in
  let sections :=
    [(Some "Item 1", "Business overview."); (Some "Item 2", "   ");
     (None, "Risk factors.")] in
  let run := Documents.chunk_document 30 self "doc.json" sections Demo.world in
  exists w',
    run = (Ok (Some
      [Chunker.mkChunk (list_ascii_of_string "Business o") (Some "Item 1") 0;
       Chunker.mkChunk (list_ascii_of_string " overview.") (Some "Item 1") 1;
       Chunker.mkChunk (list_ascii_of_string "w.") (Some "Item 1") 2;
       Chunker.mkChunk (list_ascii_of_string "Risk facto")
         (Some "OriginalDocTitleInSection3") 0;
       Chunker.mkChunk (list_ascii_of_string "tors.")
         (Some "OriginalDocTitleInSection3") 1]), w') /\
    log w' = [(WARNING, "Skipping empty or whitespace-only section")].
Proof.
  intros self sections run.
  destruct (chunk_document_chunks self 30 "doc.json" sections Demo.world)
    as (w' & Hrun & _ & _ & _ & Hlog).
  - cbn. lia.
  - repeat constructor; cbn; lia.
  - exists w'. split; [|exact Hlog]. exact Hrun.
Defined.

(** ** get_sections_from_json: the minimum length *)

Section MinLength.
Variable strip_html : string -> string.
Variable py_repr : Json -> string.
Variable min_length : Z.

(** The content of the section has at least [min_length] characters
    (or items). *)
Let long_enough (s : Chunker.Section_) : Prop :=
  exists n, PyVal.len s.2 = Ok n /\ min_length <= n.

Lemma long_enough_str name s :
  (Str.len s >=? min_length) = true -> long_enough (name, JStr s).
Proof. intros Hlen%Z.geb_le. by exists (Str.len s). Qed.

Lemma section_entry_long kv : Forall long_enough (Chunker.section_entry min_length kv).
Proof.
  unfold Chunker.section_entry. destruct kv.2; try done.
  - destruct (_ >=? _) eqn:Hlen; [|done].
    apply Forall_singleton. by apply long_enough_str.
  - destruct (_ >=? _) eqn:Hlen; [|done].
    apply Forall_singleton. by apply long_enough_str.
Qed.

Lemma list_item_section_long i item :
  Forall long_enough (Chunker.list_item_section min_length i item).
Proof.
  unfold Chunker.list_item_section. destruct item; try done.
  destruct (_ >=? _) eqn:Hlen; [|done].
  apply Forall_singleton. by apply long_enough_str.
Qed.

Lemma flat_mapping_long fields returned :
  Chunker.flat_mapping py_repr fields min_length = Ok (Some returned) ->
  Forall long_enough returned.
Proof.
  unfold Chunker.flat_mapping. destruct (_ && _).
  - destruct (PyVal.dict_get_default _ _ _); try by intros [= <-].
    destruct (_ >=? _) eqn:Hlen; intros [= <-]; [|done].
    apply Forall_singleton. by apply long_enough_str.
  - destruct (Str.truthy _ && (_ >=? _)) eqn:Hlen.
    + apply andb_true_iff in Hlen as [_ Hlen]. cbn. intros [= <-].
      apply Forall_singleton. by apply long_enough_str.
    + destruct (_ && _ && _).
      * destruct (PyVal.getitem _ _) as [t|e]; [|done]. cbn.
        destruct (PyVal.len t) as [n|e] eqn:Hn; [|done]. cbn.
        destruct (n >=? min_length) eqn:Hge; [|done]. intros [= <-].
        apply Forall_singleton. exists n. split; [done|]. by apply Z.geb_le.
      * done.
Qed.

(** X20.  On a document whose [content], if it has one, is a string,
    every section that [get_sections_from_json] returns has a content
    whose length is at least [min_length], whichever of its cases
    produced it. *)
Theorem get_sections_min_length (data : Json) (sections : list Chunker.Section_) :
  (forall fields v,
     data = JObj fields -> PyVal.dict_lookup fields "content" = Some v ->
     exists content, v = JStr content) ->
  Chunker.get_sections_from_json strip_html py_repr data min_length = Ok sections ->
  Forall (fun s => exists n, PyVal.len s.2 = Ok n /\ min_length <= n) sections.
Proof.
  intros Hcontent.
  cut (Chunker.get_sections_from_json strip_html py_repr data min_length =
       Ok sections -> Forall long_enough sections); [done|].
  unfold Chunker.get_sections_from_json.
  destruct (Chunker.str_field "content" data) as [[content|]|e] eqn:Hc1; [| |done].
  { cbn. destruct (Chunker.py_get data "title") as [title|e]; [|done]. cbn.
    destruct (_ >=? _) eqn:Hlen; intros [= <-]; [|done].
    apply Forall_singleton. by apply long_enough_str. }
  cbn. destruct (Chunker.dict_field "sections" data) as [c2|e]; [|done]. cbn.
  set (sections2 := match c2 with Some entries => _ | None => [] end).
  assert (Hsections2 : Forall long_enough sections2).
  { unfold sections2. destruct c2 as [entries|]; [|done].
    apply Forall_bind, Forall_forall. intros kv _. apply section_entry_long. }
  destruct (bool_decide (sections2 = [])); cbn [negb]; [|by intros [= <-]].
  set (sections3 := match data with JList items => _ | _ => [] end).
  assert (Hsections3 : Forall long_enough sections3).
  { unfold sections3. destruct data; try done.
    apply Forall_join, Forall_forall.
    intros l (i & item & -> & _)%elem_of_lookup_imap.
    apply list_item_section_long. }
  destruct (bool_decide (sections3 = [])); cbn [negb]; [|by intros [= <-]].
  destruct data as [| | | | |items|fields]; try by intros [= <-].
  destruct (Chunker.flat_mapping py_repr fields min_length) as [[returned|]|e] eqn:H4;
    [| |done]; cbn.
  { intros [= <-]. by eapply flat_mapping_long. }
  assert (Hnone : PyVal.dict_lookup fields "content" = None).
  { destruct (PyVal.dict_lookup fields "content") as [v|] eqn:Hv; [|done].
    destruct (Hcontent fields v eq_refl Hv) as [content ->].
    by rewrite (str_field_present _ _ _ Hv) in Hc1. }
  rewrite Hnone. rewrite bool_decide_eq_false_2 by (by intros []).
  intros [= <-]. destruct (_ >=? _) eqn:Hlen; [|done].
  apply Forall_singleton. by apply long_enough_str.
Qed.
End MinLength.

(** Two sections, the second shorter than the minimum of 5. *)
Lemma get_sections_min_length_items :
  let data :=
    JObj [("sections",
           JObj [("Item 1", JStr "Business overview."); ("Item 2", JStr "n/a")])] in
  exists sections,
    Chunker.get_sections_from_json Demo.strip_html Demo.py_repr data 5 =
      Ok sections /\
    length sections = 1%nat /\
    Forall (fun s => exists n, PyVal.len s.2 = Ok n /\ 5 <= n) sections.
Proof.
  intros data.
  destruct (Chunker.get_sections_from_json Demo.strip_html Demo.py_repr data 5)
    as [sections|e] eqn:Hrun; [|by vm_compute in Hrun].
  exists sections. split; [done|]. split.
  - vm_compute in Hrun. by injection Hrun as <-.
  - apply (get_sections_min_length Demo.strip_html Demo.py_repr 5 data sections);
      [|exact Hrun].
    intros fields v [= <-] Hv. by vm_compute in Hv.
Defined.

(** ** LLMSummarizer._load_prompt_set *)

Lemma load_filing_types_run json_from read_descriptor fs0 items :
  forall loaded_prompts w,
  exists prompts w',
    PromptSet.load_filing_types json_from read_descriptor fs0 items
      loaded_prompts w = (Ok prompts, w') /\
    fs w' = fs w /\ llm_calls w' = llm_calls w /\
    (forall filing_type,
       is_Some (prompts !! filing_type) <->
       is_Some (loaded_prompts !! filing_type) \/
       is_Some (PyVal.dict_lookup items filing_type)).
Proof.
  induction items as [|[filing_type modes] rest IH]; intros loaded_prompts w.
  { exists loaded_prompts, w. split; [done|]. split; [done|]. split; [done|].
    intros ft. cbn. split; [tauto|]. intros [?|[? [=]]]. done. }
  cbn [PromptSet.load_filing_types].
  assert (Hkeys' : forall inner
              (prompts : gmap string
                           (gmap string (option Summarization.PromptTemplate))),
            (forall ft,
               is_Some (prompts !! ft) <->
               is_Some (<[filing_type := inner]> loaded_prompts !! ft) \/
               is_Some (PyVal.dict_lookup rest ft)) ->
            forall ft,
              is_Some (prompts !! ft) <->
              is_Some (loaded_prompts !! ft) \/
              is_Some (PyVal.dict_lookup ((filing_type, modes) :: rest) ft)).
  { intros inner prompts Hkeys ft. rewrite Hkeys. cbn [PyVal.dict_lookup].
    destruct (String.eqb filing_type ft) eqn:Hft.
    - apply String.eqb_eq in Hft as ->. rewrite lookup_insert_eq.
      split; [intros _; right|intros _; left]; by eexists.
    - apply String.eqb_neq in Hft. by rewrite lookup_insert_ne. }
  destruct modes as [| | | | | |entries].
  1-6: unfold Eff.warning; rewrite bind_logging;
    match goal with
    | |- context [PromptSet.load_filing_types _ _ _ _ ?l ?w0] =>
      destruct (IH l w0) as (prompts & w' & Hrun & Hfs & Hcalls & Hkeys)
    end;
    exists prompts, w'; split; [exact Hrun|];
    split; [done|]; split; [done|]; by eapply Hkeys'.
  destruct (IH (<[filing_type :=
                    PromptSet.load_modes json_from read_descriptor fs0 entries]>
                  loaded_prompts) w)
    as (prompts & w' & Hrun & Hfs & Hcalls & Hkeys).
  exists prompts, w'. split; [exact Hrun|].
  split; [done|]. split; [done|]. by eapply Hkeys'.
Qed.

(** X21.  Loading the prompt set never raises and changes nothing on
    disk.  A prompt-set file that is missing, is not JSON or does not
    hold an object is only logged and leaves the summarizer without any
    prompt: every later request then ends in the [ValueError] of the
    missing template, before any LLM call.  Otherwise every filing type
    of the file, and no other, has an entry. *)
Theorem load_prompt_set_outcome (json_loads : string -> option Json)
    (from_template : string -> option Summarization.PromptTemplate)
    (read_descriptor : Z -> option string) (path : string) (w : World) :
  let unusable :=
    match FS.read_file path (fs w) with
    | None => True
    | Some text =>
      match json_loads text with
      | Some (JObj _) => False
      | _ => True
      end
    end in
  exists prompts w',
    PromptSet._load_prompt_set json_loads from_template read_descriptor path w =
      (Ok prompts, w') /\
    fs w' = fs w /\ llm_calls w' = llm_calls w /\
    (unusable ->
     prompts = ∅ /\
     (exists message, log w' = log w ++ [(ERROR, message)]) /\
     forall llm max_retries model_name mode filing_type kwargs w0,
     exists w1,
       Summarization.summarize llm
         (Summarization.mkLLMSummarizer prompts max_retries model_name)
         mode filing_type kwargs w0 =
         (Raise (ValueError (Summarization.missing_template_message mode filing_type)),
          w1) /\
       llm_calls w1 = llm_calls w0) /\
    (forall text items,
       FS.read_file path (fs w) = Some text ->
       json_loads text = Some (JObj items) ->
       forall filing_type,
         is_Some (prompts !! filing_type) <->
         is_Some (PyVal.dict_lookup items filing_type)).
Proof.
  intros unusable. subst unusable. unfold PromptSet._load_prompt_set.
  rewrite (bind_ok Eff.get_fs _ w (fs w) w eq_refl).
  assert (Hempty : forall llm max_retries model_name mode filing_type kwargs w0,
            exists w1,
              Summarization.summarize llm
                (Summarization.mkLLMSummarizer ∅ max_retries model_name)
                mode filing_type kwargs w0 =
                (Raise (ValueError (Summarization.missing_template_message mode filing_type)),
                 w1) /\
              llm_calls w1 = llm_calls w0).
  { intros llm max_retries model_name mode filing_type kwargs w0.
    destruct (get_prompt_template_missing
                (Summarization.mkLLMSummarizer ∅ max_retries model_name)
                mode filing_type w0) as (w1 & Hpt & _ & Hcalls & _).
    { split; intros pt; cbn; by rewrite lookup_empty. }
    exists w1. split; [|done]. unfold Summarization.summarize.
    by rewrite (bind_raise _ _ _ _ _ Hpt). }
  destruct (FS.read_file path (fs w)) as [text|].
  - destruct (json_loads text) as [[| | | | | |items]|] eqn:Hloads.
    1-6, 8: eexists ∅, _; (split; [reflexivity|]); cbn;
      (split; [done|]); (split; [done|]);
      (split; [intros _; split; [done|split; [by eexists|done]]|]);
      intros text' items' [= <-] Hloads'; by rewrite Hloads in Hloads'.
    destruct (load_filing_types_run from_template read_descriptor (fs w) items ∅ w)
      as (prompts & w' & Hrun & Hfs & Hcalls & Hkeys).
    exists prompts, w'. split; [done|]. split; [done|]. split; [done|].
    split; [done|]. intros text' items' [= <-] Hloads' ft.
    rewrite Hloads in Hloads'. injection Hloads' as <-.
    rewrite Hkeys, lookup_empty. split; [intros [[? [=]]|?]; done|by right].
  - destruct (FS.is_dir (fs w) path);
      eexists ∅, _; (split; [reflexivity|]); cbn;
      (split; [done|]); (split; [done|]);
      (split; [intros _; split; [done|split; [by eexists|done]]|done]).
Qed.
